(** * Locatex backend: moderation, catalogue, reviews and accounts

    A shallow embedding of the Express/Mongoose controllers of the
    real-estate backend (controllers/admin.js, controllers/users.js,
    controllers/properties.js, controllers/agents.js, controllers/auth.js,
    models/Agent.js, models/Property.js, routes/properties.js,
    routes/admin.js, routes/users.js), and the properties of the
    specification that concern them.

    Conventions of the embedding.
    - A Mongoose collection is the list of its documents, in insertion
      order; a handler is a function from the request and the database to
      a response and the database it leaves behind.
    - Object ids are their canonical string form: [req.params.id],
      [req.user.id] and [doc._id.toString()] are compared as strings, as the
      controllers do, and a lookup by id finds the document with that string.
    - JavaScript strings are sequences of 8-bit code units (Latin-1).
    - The storage engine answers every call; the [catch] branch of a handler
      is reached by the exceptions the handler's own logic can raise
      (validation errors, calling a method of a non-string, a query the
      engine refuses).
    - [new Date()] is the [now] argument of a handler. *)

From Stdlib Require Import ZArith QArith Qround Lqa List String Ascii Bool Lia Sorted.
From stdpp Require Import base option list strings gmap.
Import ListNotations.
Local Open Scope string_scope.

(** ** JavaScript values *)

Module JS.

#[warnings="-register-all"]
Inductive value :=
| Undefined
| Null
| Bool (b : bool)
| Num (n : Q)
| NaN
| Str (s : string)
| Arr (l : list value)
| Obj (o : list (string * value)).

(** ToBoolean *)
Definition truthy (v : value) : bool :=
  match v with
  | Undefined | Null | NaN => false
  | Bool b => b
  | Num n => negb (Qeq_bool n 0%Q)
  | Str s => negb (String.eqb s "")
  | Arr _ | Obj _ => true
  end.

(** [a || b] *)
Definition or (a b : value) : value := if truthy a then a else b.

(** [o.k] on an object held as a finite map: an absent key reads
    [undefined]. *)
Definition get (o : gmap string value) (k : string) : value :=
  default Undefined (o !! k).

(** WhiteSpace and LineTerminator code units below 256: TAB, LF, VT, FF,
    CR, SP and NBSP. *)
Definition isWhiteSpace (c : ascii) : bool :=
  let n := nat_of_ascii c in
  (Nat.leb 9 n && Nat.leb n 13) || Nat.eqb n 32 || Nat.eqb n 160.

Fixpoint trimStart (s : string) : string :=
  match s with
  | EmptyString => EmptyString
  | String c s' => if isWhiteSpace c then trimStart s' else s
  end.

Fixpoint trimEnd (s : string) : string :=
  match s with
  | EmptyString => EmptyString
  | String c s' =>
      match trimEnd s' with
      | EmptyString => if isWhiteSpace c then EmptyString else String c EmptyString
      | t => String c t
      end
  end.

(** String.prototype.trim *)
Definition trim (s : string) : string := trimEnd (trimStart s).


End JS.

(** ** Documents *)

Definition ObjectId := string.
Definition Date := Z.

(** approvalStatus: enum ['pending', 'approved', 'rejected'] *)
Inductive ApprovalStatus := pending | approved | rejected.

Definition ApprovalStatus_eqb (a b : ApprovalStatus) : bool :=
  match a, b with
  | pending, pending | approved, approved | rejected, rejected => true
  | _, _ => false
  end.

Definition ApprovalStatus_toString (a : ApprovalStatus) : string :=
  match a with
  | pending => "pending"
  | approved => "approved"
  | rejected => "rejected"
  end.

Module Property.

(** A Property document. [owner], [agent], [isPublished] and
    [approvalStatus] are paths of propertySchema; [fields] holds its other
    paths by name. [approvedBy], [approvedAt] and [rejectionReason] are the
    properties the admin controller assigns on a loaded document;
    propertySchema declares no path for them, so [save] does not write them
    (see [Mongoose.Property_save]). *)
Record t := mk {
  _id : ObjectId;
  owner : ObjectId;
  agent : option ObjectId;
  isPublished : bool;
  approvalStatus : ApprovalStatus;
  fields : gmap string JS.value;
  approvedBy : option ObjectId;
  approvedAt : option Date;
  rejectionReason : option string
}.

Definition set_approvalStatus (v : ApprovalStatus) (p : t) : t :=
  mk (_id p) (owner p) (agent p) (isPublished p) v (fields p)
     (approvedBy p) (approvedAt p) (rejectionReason p).
Definition set_isPublished (v : bool) (p : t) : t :=
  mk (_id p) (owner p) (agent p) v (approvalStatus p) (fields p)
     (approvedBy p) (approvedAt p) (rejectionReason p).
Definition set_approvedBy (v : ObjectId) (p : t) : t :=
  mk (_id p) (owner p) (agent p) (isPublished p) (approvalStatus p) (fields p)
     (Some v) (approvedAt p) (rejectionReason p).
Definition set_approvedAt (v : Date) (p : t) : t :=
  mk (_id p) (owner p) (agent p) (isPublished p) (approvalStatus p) (fields p)
     (approvedBy p) (Some v) (rejectionReason p).
Definition set_rejectionReason (v : string) (p : t) : t :=
  mk (_id p) (owner p) (agent p) (isPublished p) (approvalStatus p) (fields p)
     (approvedBy p) (approvedAt p) (Some v).

(** What the schema keeps of a document: its declared paths. *)
Definition schemaPaths (p : t) : t :=
  mk (_id p) (owner p) (agent p) (isPublished p) (approvalStatus p) (fields p)
     None None None.

End Property.

Module Review.
(** An element of agentSchema.reviews. *)
Record t := mk {
  _id : ObjectId;
  user : ObjectId;
  rating : Q;
  comment : option string;
  createdAt : Date
}.
End Review.

Module Agent.

(** An Agent document: [user], [isVerified], [isActive], [ratings] and
    [reviews] of agentSchema; [profile] holds the other paths by name. *)
Record t := mk {
  _id : ObjectId;
  user : ObjectId;
  isVerified : bool;
  isActive : bool;
  ratings_average : Q;
  ratings_count : Q;
  reviews : list Review.t;
  profile : gmap string JS.value
}.

Definition set_ratings (avg : Q) (cnt : Q) (a : t) : t :=
  mk (_id a) (user a) (isVerified a) (isActive a) avg cnt (reviews a) (profile a).
Definition set_reviews (rs : list Review.t) (a : t) : t :=
  mk (_id a) (user a) (isVerified a) (isActive a)
     (ratings_average a) (ratings_count a) rs (profile a).
Definition set_isVerified (v : bool) (a : t) : t :=
  mk (_id a) (user a) v (isActive a)
     (ratings_average a) (ratings_count a) (reviews a) (profile a).
Definition set_isActive (v : bool) (a : t) : t :=
  mk (_id a) (user a) (isVerified a) v
     (ratings_average a) (ratings_count a) (reviews a) (profile a).
Definition set_profile (v : gmap string JS.value) (a : t) : t :=
  mk (_id a) (user a) (isVerified a) (isActive a)
     (ratings_average a) (ratings_count a) (reviews a) v.

(** agentSchema.methods.calculateAverageRating *)
Definition calculateAverageRating (this : t) : t :=
  if Nat.eqb (length (reviews this)) 0 then
    set_ratings 0%Q 0%Q this
  else
    let sum := fold_left (fun acc review => acc + Review.rating review)%Q
                         (reviews this) 0%Q in
    set_ratings (sum / inject_Z (Z.of_nat (length (reviews this))))%Q
                (inject_Z (Z.of_nat (length (reviews this)))) this.

(** agentSchema.pre('save', ...) *)
Definition preSave (this : t) : t := calculateAverageRating this.

End Agent.

Module User.
(** A User document, as the controllers use it: [email] and [phone] are
    optional, [role] is one of 'user', 'agent', 'admin'. *)
Record t := mk {
  _id : ObjectId;
  name : string;
  email : option string;
  phone : option string;
  password : string;
  role : string;
  isActive : bool
}.

Definition set_role (r : string) (u : t) : t :=
  mk (_id u) (name u) (email u) (phone u) (password u) r (isActive u).

Definition option_is (o : option string) (s : string) : bool :=
  match o with
  | Some x => String.eqb x s
  | None => false
  end.
End User.

(** ** The database and the Mongoose calls the controllers make *)

Record Db := mkDb {
  users : list User.t;
  agents : list Agent.t;
  properties : list Property.t
}.

Definition with_users (us : list User.t) (db : Db) : Db :=
  mkDb us (agents db) (properties db).
Definition with_agents (ags : list Agent.t) (db : Db) : Db :=
  mkDb (users db) ags (properties db).
Definition with_properties (ps : list Property.t) (db : Db) : Db :=
  mkDb (users db) (agents db) ps.

Module Mongoose.

Section Collection.
Context {D : Type} (id_of : D -> ObjectId).

(** Model.findOne(cond): the first document that satisfies [cond]. *)
Definition findOne (cond : D -> bool) (c : list D) : option D :=
  List.find cond c.

(** Model.findById(id) *)
Definition findById (id : ObjectId) (c : list D) : option D :=
  findOne (fun d => String.eqb (id_of d) id) c.

(** Model.findOneAndDelete(cond): removes the first match. *)
Fixpoint findOneAndDelete (cond : D -> bool) (c : list D) : list D :=
  match c with
  | [] => []
  | d :: c' => if cond d then c' else d :: findOneAndDelete cond c'
  end.

(** Model.findByIdAndDelete(id) *)
Definition findByIdAndDelete (id : ObjectId) (c : list D) : list D :=
  findOneAndDelete (fun d => String.eqb (id_of d) id) c.

(** Writing a document back: the stored document with the same _id is
    replaced. *)
Fixpoint replaceById (d : D) (c : list D) : list D :=
  match c with
  | [] => []
  | d' :: c' =>
      if String.eqb (id_of d') (id_of d) then d :: c'
      else d' :: replaceById d c'
  end.

(** Model.find(cond) and Model.countDocuments(cond) *)
Definition find (cond : D -> bool) (c : list D) : list D :=
  List.filter cond c.
Definition countDocuments (cond : D -> bool) (c : list D) : nat :=
  length (find cond c).
End Collection.

(** property.save(): the declared paths of the document are written. *)
Definition Property_save (p : Property.t) (db : Db) : Db :=
  with_properties
    (replaceById Property._id (Property.schemaPaths p) (properties db)) db.

(** agent.save(): the pre-save middleware runs, then the document is
    written. *)
Definition Agent_save (a : Agent.t) (db : Db) : Db :=
  with_agents (replaceById Agent._id (Agent.preSave a) (agents db)) db.

(** Agent.create({ user, bio: '', specialties: [], languages: [],
    experience: 0, isVerified, isActive }): a new document with the schema
    defaults (ratings 0/0, no reviews), saved through the pre-save
    middleware. *)
Definition Agent_create (newId : ObjectId) (user : ObjectId)
    (isVerified isActive : bool) (db : Db) : Db :=
  let doc := Agent.mk newId user isVerified isActive 0%Q 0%Q []
               (<["bio" := JS.Str ""]>
                  (<["specialties" := JS.Arr []]>
                     (<["languages" := JS.Arr []]>
                        (<["experience" := JS.Num 0%Q]> ∅)))) in
  with_agents (agents db ++ [Agent.preSave doc]) db.

(** SchemaBoolean cast (convertToTrue / convertToFalse). *)
Definition castBoolean (v : JS.value) : option bool :=
  match v with
  | JS.Bool b => Some b
  | JS.Str s =>
      if String.eqb s "true" || String.eqb s "1" || String.eqb s "yes" then Some true
      else if String.eqb s "false" || String.eqb s "0" || String.eqb s "no" then Some false
      else None
  | JS.Num n =>
      if Qeq_bool n 1%Q then Some true
      else if Qeq_bool n 0%Q then Some false
      else None
  | _ => None
  end.

End Mongoose.

(** ** Responses *)

Record Response (A : Type) := mkResponse {
  status : nat;
  message : option string;
  data : option A
}.
Arguments mkResponse {A}.
Arguments status {A}.
Arguments message {A}.
Arguments data {A}.

(** res.status(c).json({ message: m }) *)
Definition reply {A} (c : nat) (m : string) : Response A :=
  mkResponse c (Some m) None.
(** res.status(c).json({ message: m, data: d }) *)
Definition reply_data {A} (c : nat) (m : option string) (d : A) : Response A :=
  mkResponse c m (Some d).

(** ** Requests *)

(** req.user, as the protect middleware attaches it. *)
Record ReqUser := mkReqUser {
  id : ObjectId;
  role : string
}.

(** A request to a route with an :id parameter, behind protect. [B] is the
    shape of req.body the handler reads. *)
Record Request (B : Type) := mkRequest {
  params_id : ObjectId;               (* req.params.id *)
  user : ReqUser;                     (* req.user *)
  body : B                            (* req.body *)
}.
Arguments mkRequest {B}.
Arguments params_id {B}.
Arguments user {B}.
Arguments body {B}.

(** A JSON body read key by key. *)
Abbreviation JsonBody := (gmap string JS.value).

(** ** controllers/admin.js: moderation *)

Module admin.

(** approveProperty *)
Definition approveProperty (now : Date) (req : Request unit) (db : Db)
  : Response Property.t * Db :=
  match Mongoose.findById Property._id (params_id req) (properties db) with
  | None => (reply 404 "Property not found", db)
  | Some property =>
      if ApprovalStatus_eqb (Property.approvalStatus property) approved then
        (reply 400 "Property is already approved", db)
      else
        let property := Property.set_approvalStatus approved property in
        let property := Property.set_approvedBy (id (user req)) property in
        let property := Property.set_approvedAt now property in
        let property := Property.set_isPublished true property in
        let db := Mongoose.Property_save property db in
        (reply_data 200 (Some "Property approved successfully") property, db)
  end.

(** rejectProperty *)
Definition rejectProperty (now : Date) (req : Request JsonBody) (db : Db)
  : Response Property.t * Db :=
  let rejectionReason := JS.get (body req) "rejectionReason" in
  if negb (JS.truthy rejectionReason) then
    (reply 400 "Rejection reason is required", db)
  else
    match rejectionReason with
    | JS.Str reason =>
        if Nat.eqb (String.length (JS.trim reason)) 0 then
          (reply 400 "Rejection reason is required", db)
        else
          match Mongoose.findById Property._id (params_id req) (properties db) with
          | None => (reply 404 "Property not found", db)
          | Some property =>
              if ApprovalStatus_eqb (Property.approvalStatus property) rejected then
                (reply 400 "Property is already rejected", db)
              else
                let property := Property.set_approvalStatus rejected property in
                let property := Property.set_approvedBy (id (user req)) property in
                let property := Property.set_approvedAt now property in
                let property := Property.set_rejectionReason reason property in
                let property := Property.set_isPublished false property in
                let db := Mongoose.Property_save property db in
                (reply_data 200 (Some "Property rejected successfully") property, db)
          end
    | _ =>
        (* rejectionReason.trim is not a function: caught *)
        (reply 500 "Server error while rejecting property", db)
    end.

(** deleteUser (DELETE /api/admin/users/:id) *)
Definition deleteUser (req : Request unit) (db : Db) : Response unit * Db :=
  match Mongoose.findById User._id (params_id req) (users db) with
  | None => (reply 404 "User not found", db)
  | Some user' =>
      if String.eqb (User._id user') (id (user req)) then
        (reply 400 "You cannot delete your own account", db)
      else
        let db := with_users
                    (Mongoose.findByIdAndDelete User._id (params_id req) (users db)) db in
        (reply 200 "User deleted successfully", db)
  end.

End admin.

(** ** controllers/users.js *)

Module users.

Section Handlers.
(** A fresh ObjectId for a document created in the given database. *)
Variable ObjectId_new : Db -> ObjectId.
(** The cast and validators of userSchema.role (models/User.js) on the
    [role] of an update: [None] when the update is refused, [Some None]
    when nothing is set, [Some (Some r)] when the role becomes [r]. *)
Variable User_castRole : JS.value -> option (option string).

(** updateUserRole (PUT /api/users/:id/role) *)
Definition updateUserRole (req : Request JsonBody) (db : Db) : Response User.t * Db :=
  let role := JS.get (body req) "role" in
  let userId := params_id req in
  if String.eqb userId (id (user req)) then
    (reply 400 "Cannot change your own role", db)
  else
    match User_castRole role with
    | None => (reply 500 "Server error during role update", db)
    | Some upd =>
        match Mongoose.findById User._id userId (users db) with
        | None => (reply 404 "User not found", db)
        | Some u =>
            let user' := match upd with
                         | Some r => User.set_role r u
                         | None => u
                         end in
            let db := with_users
                        (Mongoose.replaceById User._id user' (users db)) db in
            let db :=
              match role with
              | JS.Str "agent" =>
                  match Mongoose.findOne
                          (fun a => String.eqb (Agent.user a) userId) (agents db) with
                  | Some _ => db
                  | None =>
                      Mongoose.Agent_create (ObjectId_new db) userId false true db
                  end
              | _ => db
              end in
            (reply_data 200 None user', db)
        end
    end.
End Handlers.

(** deleteUser (DELETE /api/users/:id) *)
Definition deleteUser (req : Request unit) (db : Db) : Response unit * Db :=
  let userId := params_id req in
  if String.eqb userId (id (user req)) then
    (reply 400 "Cannot delete your own account", db)
  else
    match Mongoose.findById User._id userId (users db) with
    | None => (reply 404 "User not found", db)
    | Some _ =>
        let db := with_agents
                    (Mongoose.findOneAndDelete
                       (fun a => String.eqb (Agent.user a) userId) (agents db)) db in
        let db := with_users
                    (Mongoose.findByIdAndDelete User._id userId (users db)) db in
        (reply 200 "User deleted successfully", db)
    end.

End users.

(** ** controllers/agents.js *)

Module agents.

(** req.body of POST /api/agents/:id/reviews, as agentSchema.reviews casts
    it: [rating] is [None] when it is absent or not a number, [comment] is
    [None] when absent. *)
Record ReviewBody := mkReviewBody {
  rating : option Q;
  comment : option string
}.

(** The validators of agentSchema.reviews on a new element: rating
    required, min 1, max 5; comment maxlength 500. *)
Definition Review_validate (b : ReviewBody) : option (Q * option string) :=
  match rating b with
  | None => None
  | Some r =>
      if Qle_bool 1 r && Qle_bool r 5
         && match comment b with
            | Some c => Nat.leb (String.length c) 500
            | None => true
            end
      then Some (r, comment b)
      else None
  end.

(** req.body of PUT /api/agents/:id, as the update Mongoose makes of it:
    for each path of agentSchema, the value the body sets, if any. *)
Record AgentUpdate := mkAgentUpdate {
  upd_ratings_average : option Q;
  upd_ratings_count : option Q;
  upd_reviews : option (list Review.t);
  upd_isVerified : option bool;
  upd_isActive : option bool;
  upd_profile : gmap string JS.value
}.

(** runValidators: true. The validators of the paths the update sets:
    ratings.average min 0, max 5; reviews.rating min 1, max 5;
    reviews.comment maxlength 500. *)
Definition AgentUpdate_validate (u : AgentUpdate) : bool :=
  match upd_ratings_average u with
  | Some avg => Qle_bool 0 avg && Qle_bool avg 5
  | None => true
  end
  && match upd_reviews u with
     | Some rs =>
         forallb (fun r =>
                    Qle_bool 1 (Review.rating r) && Qle_bool (Review.rating r) 5
                    && match Review.comment r with
                       | Some c => Nat.leb (String.length c) 500
                       | None => true
                       end) rs
     | None => true
     end.

(** The update applied to a document: each path that is set takes its new
    value, the others keep theirs. No middleware of the schema runs. *)
Definition AgentUpdate_apply (u : AgentUpdate) (a : Agent.t) : Agent.t :=
  Agent.mk (Agent._id a) (Agent.user a)
    (default (Agent.isVerified a) (upd_isVerified u))
    (default (Agent.isActive a) (upd_isActive u))
    (default (Agent.ratings_average a) (upd_ratings_average u))
    (default (Agent.ratings_count a) (upd_ratings_count u))
    (default (Agent.reviews a) (upd_reviews u))
    (upd_profile u ∪ Agent.profile a).

(** Agent.findByIdAndUpdate(id, update, { new: true, runValidators: true }):
    [None] when the validators refuse the update (the call throws). The
    update goes to the collection directly; pre('save') is not run. *)
Definition Agent_findByIdAndUpdate (id : ObjectId) (u : AgentUpdate) (db : Db)
  : option (option Agent.t * Db) :=
  if AgentUpdate_validate u then
    match Mongoose.findById Agent._id id (agents db) with
    | None => Some (None, db)
    | Some a =>
        let a' := AgentUpdate_apply u a in
        Some (Some a', with_agents (Mongoose.replaceById Agent._id a' (agents db)) db)
    end
  else None.

(** updateAgent (PUT /api/agents/:id) *)
Definition updateAgent (req : Request AgentUpdate) (db : Db)
  : Response Agent.t * Db :=
  match Mongoose.findById Agent._id (params_id req) (agents db) with
  | None => (reply 404 "Agent not found", db)
  | Some agent =>
      if negb (String.eqb (Agent.user agent) (id (user req)))
         && negb (String.eqb (role (user req)) "admin") then
        (reply 403 "Not authorized to update this agent profile", db)
      else
        let wasVerified := Agent.isVerified agent in
        match Agent_findByIdAndUpdate (params_id req) (body req) db with
        | None => (reply 500 "Server error during agent update", db)
        | Some (None, db) =>
            (mkResponse 200 None None, db)
        | Some (Some agent, db) =>
            let db :=
              if negb wasVerified && Agent.isVerified agent then
                match Mongoose.findById User._id (Agent.user agent) (users db) with
                | Some u =>
                    with_users
                      (Mongoose.replaceById User._id (User.set_role "agent" u) (users db))
                      db
                | None => db
                end
              else db in
            (reply_data 200 None agent, db)
        end
  end.

Section Reviews.
(** A fresh ObjectId for a subdocument pushed in the given database. *)
Variable ObjectId_new : Db -> ObjectId.

(** addAgentReview (POST /api/agents/:id/reviews) *)
Definition addAgentReview (now : Date) (req : Request ReviewBody) (db : Db)
  : Response Review.t * Db :=
  match Mongoose.findById Agent._id (params_id req) (agents db) with
  | None => (reply 404 "Agent not found", db)
  | Some agent =>
      let existingReview :=
        List.find (fun review => String.eqb (Review.user review) (id (user req)))
                  (Agent.reviews agent) in
      match existingReview with
      | Some _ => (reply 400 "You have already reviewed this agent", db)
      | None =>
          match Review_validate (body req) with
          | None => (reply 500 "Server error during review creation", db)
          | Some (r, c) =>
              let review := Review.mk (ObjectId_new db) (id (user req)) r c now in
              let agent := Agent.set_reviews (Agent.reviews agent ++ [review]) agent in
              let db := Mongoose.Agent_save agent db in
              (reply_data 201 None review, db)
          end
      end
  end.
End Reviews.

End agents.

(** ** controllers/auth.js *)

Module auth.

(** [^\s@] *)
Definition notSpaceNorAt (c : ascii) : bool :=
  negb (JS.isWhiteSpace c) && negb (Ascii.eqb c "@").

Fixpoint all (f : ascii -> bool) (s : string) : bool :=
  match s with
  | EmptyString => true
  | String c s' => f c && all f s'
  end.

(** The text before the first "@" and the text after it. *)
Fixpoint splitAt (s : string) : option (string * string) :=
  match s with
  | EmptyString => None
  | String c s' =>
      if Ascii.eqb c "@" then Some (EmptyString, s')
      else match splitAt s' with
           | Some (a, b) => Some (String c a, b)
           | None => None
           end
  end.

(** Some "." of [s] has a character before it and a character after it. *)
Fixpoint innerDot (first : bool) (s : string) : bool :=
  match s with
  | EmptyString => false
  | String c s' =>
      (negb first && Ascii.eqb c "." && negb (String.eqb s' ""))
      || innerDot false s'
  end.

(** emailRegex.test(email), emailRegex = /^[^\s@]+@[^\s@]+\.[^\s@]+$/ *)
Definition emailRegex_test (email : string) : bool :=
  match splitAt email with
  | None => false
  | Some (local, domain) =>
      negb (String.eqb local "") && all notSpaceNorAt local
      && all notSpaceNorAt domain && innerDot true domain
  end.

Definition isDigit (c : ascii) : bool :=
  Nat.leb 48 (nat_of_ascii c) && Nat.leb (nat_of_ascii c) 57.

(** mobileRegex.test(mobile), mobileRegex = /^\d{10}$/ *)
Definition mobileRegex_test (mobile : string) : bool :=
  Nat.eqb (String.length mobile) 10 && all isDigit mobile.

(** The fields register reads from req.body; each is a string when
    present. *)
Record RegisterBody := mkRegisterBody {
  name : string;
  email : option string;
  mobile : option string;
  password : string;
  role : option string
}.

(** if (x) for an optional string: present and not empty. *)
Definition given (x : option string) : bool :=
  match x with
  | Some s => negb (String.eqb s "")
  | None => false
  end.

Section Register.
(** A fresh ObjectId for a document created in the given database. *)
Variable ObjectId_new : Db -> ObjectId.
(** The validators and unique indexes of userSchema (models/User.js):
    whether User.create accepts the document in the collection. *)
Variable User_accepts : list User.t -> User.t -> bool.

(** register (POST /api/auth/register) *)
Definition register (body : RegisterBody) (db : Db) : Response User.t * Db :=
  if given (email body) && negb (emailRegex_test (default "" (email body))) then
    (reply 400 "Please provide a valid email", db)
  else if given (mobile body) && negb (mobileRegex_test (default "" (mobile body))) then
    (reply 400 "Please provide a valid 10-digit mobile number", db)
  else
    let existingUser :=
      if given (email body) then
        Mongoose.findOne
          (fun u => User.option_is (User.email u) (default "" (email body))) (users db)
      else if given (mobile body) then
        Mongoose.findOne
          (fun u => User.option_is (User.phone u) (default "" (mobile body))) (users db)
      else None in
    match existingUser with
    | Some _ =>
        (reply 400 "User already exists with this email or mobile number", db)
    | None =>
        let userData :=
          User.mk (ObjectId_new db) (name body)
            (if given (email body) then email body else None)
            (if given (mobile body) then mobile body else None)
            (password body)
            (if given (role body) then default "" (role body) else "user")
            true in
        if User_accepts (users db) userData then
          let db := with_users (users db ++ [userData]) db in
          let db :=
            match role body with
            | Some "agent" =>
                Mongoose.Agent_create (ObjectId_new db) (User._id userData) false true db
            | _ => db
            end in
          (reply_data 201 None userData, db)
        else
          (reply 500 "Server error during registration", db)
    end.
End Register.

End auth.

(** ** controllers/properties.js *)

Module properties.

(** *** Query filters *)

(** A condition of a filter object on one key. *)
Inductive Clause :=
| Or (alternatives : list (string * JS.value))  (* $or: [{ path: v }, ...] *)
| Eq (v : JS.value)                             (* path: v *)
| Range (gte lte : option JS.value)             (* path: { $gte, $lte } *)
| Matches (pattern : JS.value) (flags : string). (* path: new RegExp(pattern, flags) *)

(** The value of a document at a path. *)
Definition Property_path (p : Property.t) (path : string) : JS.value :=
  if String.eqb path "isPublished" then JS.Bool (Property.isPublished p)
  else if String.eqb path "approvalStatus" then
    JS.Str (ApprovalStatus_toString (Property.approvalStatus p))
  else if String.eqb path "owner" then JS.Str (Property.owner p)
  else if String.eqb path "agent" then
    match Property.agent p with
    | Some a => JS.Str a
    | None => JS.Undefined
    end
  else JS.get (Property.fields p) path.

(** Equality of a stored scalar with a queried one. *)
Definition eqValue (stored queried : JS.value) : bool :=
  match stored, queried with
  | JS.Bool a, JS.Bool b => Bool.eqb a b
  | JS.Str a, JS.Str b => String.eqb a b
  | JS.Num a, JS.Num b => Qeq_bool a b
  | JS.Null, JS.Null => true
  | _, _ => false
  end.

Definition geValue (stored : JS.value) (bound : option JS.value) : bool :=
  match bound with
  | None => true
  | Some (JS.Num b) =>
      match stored with
      | JS.Num a => Qle_bool b a
      | _ => false
      end
  | Some _ => false
  end.

Definition leValue (stored : JS.value) (bound : option JS.value) : bool :=
  match bound with
  | None => true
  | Some (JS.Num b) =>
      match stored with
      | JS.Num a => Qle_bool a b
      | _ => false
      end
  | Some _ => false
  end.

Section Engine.
(** new RegExp(pattern, flags) matched by the engine against a stored
    value. *)
Variable RegExp_test : JS.value -> string -> JS.value -> bool.

Definition holds (p : Property.t) (path : string) (c : Clause) : bool :=
  match c with
  | Or alternatives =>
      existsb (fun '(path', v) => eqValue (Property_path p path') v) alternatives
  | Eq v => eqValue (Property_path p path) v
  | Range gte lte =>
      geValue (Property_path p path) gte && leValue (Property_path p path) lte
  | Matches pattern flags => RegExp_test pattern flags (Property_path p path)
  end.

(** A document matches a filter object when it satisfies the condition of
    every key. *)
Definition matches (filter : gmap string Clause) (p : Property.t) : bool :=
  forallb (fun '(path, c) => holds p path c) (map_to_list filter).
End Engine.

(** *** getProperties *)

(** The body of a listing response. *)
Record Listing := mkListing {
  listed : list Property.t;          (* data.properties *)
  current : JS.value;                (* data.pagination.current *)
  pages : JS.value;                  (* data.pagination.pages *)
  total : nat                        (* data.pagination.total *)
}.

(** a - b and a * b on numbers *)
Definition minus (a b : JS.value) : JS.value :=
  match a, b with
  | JS.Num x, JS.Num y => JS.Num (x - y)%Q
  | _, _ => JS.NaN
  end.
Definition times (a b : JS.value) : JS.value :=
  match a, b with
  | JS.Num x, JS.Num y => JS.Num (x * y)%Q
  | _, _ => JS.NaN
  end.
(** Math.ceil(total / limit) *)
Definition ceilDiv (total : nat) (limit : JS.value) : JS.value :=
  match limit with
  | JS.Num l =>
      if Qeq_bool l 0%Q then JS.NaN
      else JS.Num (inject_Z (Qceiling (inject_Z (Z.of_nat total) / l)%Q))
  | _ => JS.NaN
  end.

(** if (a || b) { filter[path] = {}; if (a) ...$gte; if (b) ...$lte } *)
Definition rangeClause (parse : JS.value -> JS.value) (a b : JS.value)
    (path : string) (filter : gmap string Clause) : gmap string Clause :=
  if JS.truthy a || JS.truthy b then
    <[path := Range (if JS.truthy a then Some (parse a) else None)
                    (if JS.truthy b then Some (parse b) else None)]> filter
  else filter.

(** if (v) filter[path] = f(v) *)
Definition whenGiven (v : JS.value) (path : string) (c : Clause)
    (filter : gmap string Clause) : gmap string Clause :=
  if JS.truthy v then <[path := c]> filter else filter.

Section Listing.
Variable parseInt : JS.value -> JS.value.
Variable parseFloat : JS.value -> JS.value.
(** Whether new RegExp(pattern, 'i') is a valid pattern (it throws a
    SyntaxError otherwise). *)
Variable RegExp_valid : JS.value -> bool.
Variable RegExp_test : JS.value -> string -> JS.value -> bool.
(** cursor.sort(sort) of the engine. *)
Variable sortBy : list (string * Z) -> list Property.t -> list Property.t.
(** cursor.skip(skip).limit(limit) of the engine; [None] when it refuses
    the values. *)
Variable skipLimit :
  JS.value -> JS.value -> list Property.t -> option (list Property.t).

(** The filter object getProperties builds from req.query; [None] when a
    RegExp constructor throws. *)
Definition getProperties_filter (query : gmap string JS.value)
  : option (gmap string Clause) :=
  let q := JS.get query in
  let filter : gmap string Clause :=
    {[ "$or" := Or [("isPublished", JS.Bool true);
                    ("approvalStatus", JS.Str "approved")] ]} in
  let filter := rangeClause parseFloat (q "minPrice") (q "maxPrice") "price" filter in
  let filter := whenGiven (q "propertyType") "propertyType" (Eq (q "propertyType")) filter in
  let filter := whenGiven (q "status") "status" (Eq (q "status")) filter in
  if (JS.truthy (q "city") && negb (RegExp_valid (q "city")))
     || (JS.truthy (q "district") && negb (RegExp_valid (q "district")))
     || (JS.truthy (q "village") && negb (RegExp_valid (q "village")))
  then None
  else
    let filter := whenGiven (q "city") "location.city" (Matches (q "city") "i") filter in
    let filter := whenGiven (q "district") "location.district"
                            (Matches (q "district") "i") filter in
    let filter := whenGiven (q "village") "location.village"
                            (Matches (q "village") "i") filter in
    let filter := whenGiven (q "bedrooms") "specifications.bedrooms"
                            (Eq (parseInt (q "bedrooms"))) filter in
    let filter := whenGiven (q "bathrooms") "specifications.bathrooms"
                            (Eq (parseInt (q "bathrooms"))) filter in
    let filter := rangeClause parseFloat (q "minArea") (q "maxArea")
                              "specifications.area" filter in
    Some filter.

(** The sort object getProperties builds from req.query.sort. *)
Definition getProperties_sort (query : gmap string JS.value) : list (string * Z) :=
  match JS.get query "sort" with
  | JS.Str "price-asc" => [("price", 1%Z)]
  | JS.Str "price-desc" => [("price", (-1)%Z)]
  | JS.Str "newest" => [("createdAt", (-1)%Z)]
  | JS.Str "oldest" => [("createdAt", 1%Z)]
  | JS.Str "area-asc" => [("specifications.area", 1%Z)]
  | JS.Str "area-desc" => [("specifications.area", (-1)%Z)]
  | _ => [("createdAt", (-1)%Z)]
  end.

(** getProperties (GET /api/properties) *)
Definition getProperties (query : gmap string JS.value) (db : Db)
  : Response Listing :=
  let page := JS.or (parseInt (JS.get query "page")) (JS.Num 1%Q) in
  let limit := JS.or (parseInt (JS.get query "limit")) (JS.Num 10%Q) in
  let skip := times (minus page (JS.Num 1%Q)) limit in
  match getProperties_filter query with
  | None => reply 500 "Server error"
  | Some filter =>
      let sort := getProperties_sort query in
      let found := Mongoose.find (matches RegExp_test filter) (properties db) in
      match skipLimit skip limit (sortBy sort found) with
      | None => reply 500 "Server error"
      | Some properties' =>
          let total :=
            Mongoose.countDocuments (matches RegExp_test filter) (properties db) in
          reply_data 200 None
            (mkListing properties' page (ceilDiv total limit) total)
      end
  end.
End Listing.

(** *** searchProperties *)

(** A request to GET /api/properties/search: the query string, and the
    errors the validation chain of the route has recorded on the request. *)
Record SearchRequest := mkSearchRequest {
  query : gmap string JS.value;
  validationErrors : list string
}.

Section Search.
Variable parseInt : JS.value -> JS.value.
(** { $text: { $search: q } } sorted by { score: { $meta: 'textScore' } }:
    the documents the text index matches, most relevant first; [None]
    when the engine refuses the query. *)
Variable textSearch : JS.value -> list Property.t -> option (list Property.t).
Variable skipLimit :
  JS.value -> JS.value -> list Property.t -> option (list Property.t).

(** searchProperties (GET /api/properties/search) *)
Definition searchProperties (req : SearchRequest) (db : Db) : Response Listing :=
  let q := JS.get (query req) "q" in
  let page := JS.or (parseInt (JS.get (query req) "page")) (JS.Num 1%Q) in
  let limit := JS.or (parseInt (JS.get (query req) "limit")) (JS.Num 10%Q) in
  let skip := times (minus page (JS.Num 1%Q)) limit in
  match textSearch q (properties db) with
  | None => reply 500 "Server error"
  | Some ranked =>
      let found := List.filter Property.isPublished ranked in
      match skipLimit skip limit found with
      | None => reply 500 "Server error"
      | Some properties' =>
          let total := length found in
          reply_data 200 None
            (mkListing properties' page (ceilDiv total limit) total)
      end
  end.
End Search.

(** *** createProperty *)

(** A file multer has stored. *)
Record File := mkFile {
  path : string;
  originalname : string
}.

(** req.files of upload.fields([...]): an array per field that was sent. *)
Record Files := mkFiles {
  images : option (list File);
  document712 : option (list File);
  document8A : option (list File);
  documentUtarotar : option (list File);
  otherDocuments : option (list File)
}.

Record CreateRequest := mkCreateRequest {
  create_body : JsonBody;            (* req.body *)
  create_files : option Files;       (* req.files *)
  create_user : ReqUser              (* req.user *)
}.

(** files.map((file, index) => ({ url: file.path, alt: file.originalname,
    isPrimary: index === 0 })) *)
Fixpoint imagesFrom (index : nat) (files : list File) : list JS.value :=
  match files with
  | [] => []
  | file :: rest =>
      JS.Obj [("url", JS.Str (path file));
              ("alt", JS.Str (originalname file));
              ("isPrimary", JS.Bool (Nat.eqb index 0))]
      :: imagesFrom (S index) rest
  end.

(** req.files.f && req.files.f.length > 0 *)
Definition sent (f : option (list File)) : list File :=
  default [] f.

(** The documents object built from req.files. *)
Definition documentsFrom (files : option Files) : JS.value :=
  match files with
  | None => JS.Obj []
  | Some fs =>
      JS.Obj
        ((match sent (document712 fs) with
          | file :: _ => [("document712", JS.Str (path file))]
          | [] => []
          end)
         ++ (match sent (document8A fs) with
             | file :: _ => [("document8A", JS.Str (path file))]
             | [] => []
             end)
         ++ (match sent (documentUtarotar fs) with
             | file :: _ => [("documentUtarotar", JS.Str (path file))]
             | [] => []
             end)
         ++ (match sent (otherDocuments fs) with
             | [] => []
             | l => [("otherDocuments", JS.Arr (map (fun file => JS.Str (path file)) l))]
             end))
  end.

(** s.trim().startsWith('[') *)
Definition startsWithBracket (s : string) : bool :=
  match JS.trim s with
  | String c _ => Ascii.eqb c "["
  | EmptyString => false
  end.

(** x !== undefined && x !== '' *)
Definition definedNotEmpty (x : JS.value) : bool :=
  match x with
  | JS.Undefined => false
  | JS.Str s => negb (String.eqb s "")
  | _ => true
  end.

Section Create.
Variable parseInt : JS.value -> JS.value.
Variable parseFloat : JS.value -> JS.value.
(** JSON.parse(v); [None] when it throws. *)
Variable JSON_parse : JS.value -> option JS.value.
(** The string a template literal makes of a value. *)
Variable ToString : JS.value -> string.
(** A fresh ObjectId for a document created in the given database. *)
Variable ObjectId_new : Db -> ObjectId.
(** The casts and validators of propertySchema on the paths kept in
    [Property.fields]. *)
Variable Property_validate : gmap string JS.value -> bool.

(** propertyData, as createProperty hands it to Property.create. *)
Definition createProperty_data (req : CreateRequest) (db : Db)
  : gmap string JS.value :=
  let propertyData : gmap string JS.value := create_body req in
  (* the fields of req.body; no step assigns a field before it is read *)
  let d := JS.get propertyData in
  (* uploaded images *)
  let propertyData :=
    <["images" :=
        match create_files req with
        | Some fs => JS.Arr (imagesFrom 0 (sent (images fs)))
        | None => JS.Arr []
        end]> propertyData in
  (* document uploads *)
  let propertyData :=
    <["documents" := documentsFrom (create_files req)]> propertyData in
  (* land information *)
  let propertyData :=
    match d "type" with
    | JS.Str "land" =>
        <["landInfo" :=
            JS.Obj [("fencing", d "fencing");
                    ("borewell", d "borewell");
                    ("houseOnLand", d "houseOnLand");
                    ("electricity", d "electricity");
                    ("expectedPricePerUnit",
                      if JS.truthy (d "expectedPricePerUnit")
                      then parseFloat (d "expectedPricePerUnit")
                      else JS.Undefined);
                    ("paymentTerms", d "paymentTerms");
                    ("legacyLand", d "legacyLand")]]> propertyData
    | _ => propertyData
    end in
  (* contact information *)
  let propertyData :=
    <["contactInfo" :=
        JS.Obj [("name", d "contactName");
                ("email", d "contactEmail");
                ("phone", d "contactPhone");
                ("whatsappNumber", d "whatsappNumber");
                ("preferredContact", d "preferredContact")]]> propertyData in
  (* location *)
  let propertyData :=
    <["location" :=
        JS.Obj [("address",
                  JS.or (d "address")
                    (JS.Str (ToString (JS.or (d "village") (JS.Str "")) ++ ", "
                             ++ ToString (JS.or (d "taluka") (JS.Str "")) ++ ", "
                             ++ ToString (JS.or (d "district") (JS.Str "")) ++ ", "
                             ++ ToString (JS.or (d "state") (JS.Str "")))));
                ("city",
                  JS.or (d "city") (JS.or (d "taluka") (JS.or (d "district") (JS.Str ""))));
                ("state", d "state");
                ("district", d "district");
                ("taluka", d "taluka");
                ("village", d "village");
                ("zipCode", JS.or (d "zipCode") (JS.or (d "pincode") (JS.Str "")));
                ("country", JS.or (d "country") (JS.Str "India"));
                ("coordinates",
                  JS.Obj [("latitude", JS.or (parseFloat (d "latitude")) (JS.Num 0%Q));
                          ("longitude", JS.or (parseFloat (d "longitude")) (JS.Num 0%Q))])]]>
      propertyData in
  (* amenities *)
  let propertyData :=
    <["amenities" :=
        if JS.truthy (d "amenities") then
          match JSON_parse (d "amenities") with
          | Some v => v
          | None => JS.Arr []
          end
        else JS.Arr []]> propertyData in
  (* disadvantages *)
  let propertyData :=
    <["disadvantages" :=
        if JS.truthy (d "disadvantages") then
          match d "disadvantages" with
          | JS.Str s =>
              if startsWithBracket s then
                match JSON_parse (JS.Str s) with
                | Some v => v
                | None => JS.Arr []
                end
              else JS.Arr [JS.Str s]
          | v => v
          end
        else JS.Arr []]> propertyData in
  (* government details *)
  let propertyData :=
    <["govDetails" :=
        JS.Obj [("khaataNumber", d "khaataNumber");
                ("surveyNumber", d "surveyNumber");
                ("area", d "govArea")]]> propertyData in
  let propertyData :=
    <["insertedBy" := JS.or (d "insertedBy") (JS.Str "Owner")]> propertyData in
  (* owner is the current user *)
  let propertyData := <["owner" := JS.Str (id (create_user req))]> propertyData in
  (* an agent's profile is linked *)
  let propertyData :=
    if String.eqb (role (create_user req)) "agent" then
      match Mongoose.findOne
              (fun a => String.eqb (Agent.user a) (id (create_user req)))
              (agents db) with
      | Some agentProfile => <["agent" := JS.Str (Agent._id agentProfile)]> propertyData
      | None => propertyData
      end
    else propertyData in
  (* default values *)
  let propertyData := <["isPublished" := JS.Bool false]> propertyData in
  let propertyData := <["isActive" := JS.Bool true]> propertyData in
  let propertyData := <["approvalStatus" := JS.Str "pending"]> propertyData in
  (* numeric optional fields *)
  let propertyData :=
    if definedNotEmpty (JS.get propertyData "bathrooms") then
      <["bathrooms" := parseInt (JS.get propertyData "bathrooms")]> propertyData
    else propertyData in
  let propertyData :=
    if definedNotEmpty (JS.get propertyData "balconies") then
      <["balconies" := parseInt (JS.get propertyData "balconies")]> propertyData
    else propertyData in
  (* fields that are not part of the model *)
  let propertyData :=
    foldr delete propertyData
      ["contactName"; "contactEmail"; "contactPhone"; "whatsappNumber";
       "preferredContact"; "latitude"; "longitude"; "address"; "city"; "state";
       "zipCode"; "country"; "khaataNumber"; "govArea"] in
  if JS.truthy (d "surveyNumber") then delete "surveyNumber" propertyData
  else propertyData.

(** Property.create(propertyData): the declared paths are cast (owner and
    agent to ObjectId, isPublished to Boolean with default true,
    approvalStatus to its enum with default 'pending') and validated;
    [None] on a ValidationError. *)
Definition Property_create (propertyData : gmap string JS.value) (db : Db)
  : option Property.t :=
  let owner :=
    match JS.get propertyData "owner" with
    | JS.Str o => Some o
    | _ => None
    end in
  let agent :=
    match JS.get propertyData "agent" with
    | JS.Str a => Some (Some a)
    | JS.Undefined | JS.Null => Some None
    | _ => None
    end in
  let isPublished :=
    match JS.get propertyData "isPublished" with
    | JS.Undefined => Some true
    | v => Mongoose.castBoolean v
    end in
  let approvalStatus :=
    match JS.get propertyData "approvalStatus" with
    | JS.Undefined => Some pending
    | JS.Str "pending" => Some pending
    | JS.Str "approved" => Some approved
    | JS.Str "rejected" => Some rejected
    | _ => None
    end in
  match owner, agent, isPublished, approvalStatus with
  | Some o, Some a, Some pub, Some st =>
      if Property_validate propertyData then
        Some (Property.mk (ObjectId_new db) o a pub st propertyData None None None)
      else None
  | _, _, _, _ => None
  end.

(** createProperty (POST /api/properties) *)
Definition createProperty (req : CreateRequest) (db : Db)
  : Response Property.t * Db :=
  let propertyData := createProperty_data req db in
  match Property_create propertyData db with
  | Some property =>
      (reply_data 201
         (Some "Property submitted successfully and is pending approval") property,
       with_properties (properties db ++ [property]) db)
  | None => (reply 400 "Validation error", db)
  end.
End Create.

End properties.

(** ** routes/properties.js: the search route *)

Module routes.

(** query('q').notEmpty().withMessage('Search query is required'): the
    validator records its error on the request and passes control on. *)
Definition q_notEmpty (query : gmap string JS.value) : list string :=
  match JS.get query "q" with
  | JS.Undefined | JS.Null | JS.Str "" => ["Search query is required"]
  | _ => []
  end.

Section Search.
Variable parseInt : JS.value -> JS.value.
Variable textSearch : JS.value -> list Property.t -> option (list Property.t).
Variable skipLimit :
  JS.value -> JS.value -> list Property.t -> option (list Property.t).

(** router.get('/search', [query('q').notEmpty()..., ...], searchProperties) *)
Definition GET_search (query : gmap string JS.value) (db : Db)
  : Response properties.Listing :=
  let req := properties.mkSearchRequest query (q_notEmpty query) in
  properties.searchProperties parseInt textSearch skipLimit req db.
End Search.

End routes.

(** ** Derived ratings, in the specification's words *)

(** The arithmetic mean of the ratings of a review collection, 0 when the
    collection is empty. *)
Definition mean (rs : list Review.t) : Q :=
  match rs with
  | [] => 0%Q
  | _ => (fold_right (fun r acc => Review.rating r + acc) 0 rs
          / inject_Z (Z.of_nat (length rs)))%Q
  end.

(** The ratings of an agent are derived from its reviews. *)
Definition ratingsDerived (a : Agent.t) : Prop :=
  (Agent.ratings_average a == mean (Agent.reviews a))%Q
  /\ (Agent.ratings_count a == inject_Z (Z.of_nat (length (Agent.reviews a))))%Q.

(** A property is visible to the public. *)
Definition publiclyVisible (p : Property.t) : Prop :=
  Property.isPublished p = true \/ Property.approvalStatus p = approved.

(** ** A small database *)

Module sample.

Definition rootId : ObjectId := "65a000000000000000000001".
Definition aliceId : ObjectId := "65a000000000000000000002".
Definition bobId : ObjectId := "65a000000000000000000003".
Definition carolId : ObjectId := "65a000000000000000000004".

Definition root : User.t :=
  User.mk rootId "Root" (Some "admin@realestate.com") (Some "9999999999")
          "Admin@123" "admin" true.
Definition alice : User.t :=
  User.mk aliceId "Alice" (Some "alice@example.com") (Some "9876543210")
          "secret1" "user" true.
Definition bob : User.t :=
  User.mk bobId "Bob" (Some "bob@example.com") None "secret2" "agent" true.

Definition bobProfile : Agent.t :=
  Agent.mk "65b000000000000000000001" bobId true true 0%Q 0%Q [] ∅.

Definition house : Property.t :=
  Property.mk "65c000000000000000000001" aliceId None false pending ∅ None None None.
Definition flat : Property.t :=
  Property.mk "65c000000000000000000002" aliceId None true approved ∅ None None None.
Definition plot : Property.t :=
  Property.mk "65c000000000000000000003" bobId None false rejected ∅ None None None.

Definition db : Db :=
  mkDb [root; alice; bob] [bobProfile] [house; flat; plot].

Definition asRoot : ReqUser := mkReqUser rootId "admin".
Definition asAlice : ReqUser := mkReqUser aliceId "user".
Definition asBob : ReqUser := mkReqUser bobId "agent".

Definition newId (db : Db) : ObjectId := "65d000000000000000000001".

Definition today : Date := 1700000000%Z.
Definition tomorrow : Date := 1700086400%Z.


(** { ratings: { average: 5, count: 100 } } *)
Definition fiveStars : agents.AgentUpdate :=
  agents.mkAgentUpdate (Some 5%Q) (Some 100%Q) None None None ∅.

(** { rating: 4, comment: "helpful" } *)
Definition fourStars : agents.ReviewBody :=
  agents.mkReviewBody (Some 4%Q) (Some "helpful").

(** A registration with a new email and the mobile number of Alice. *)
Definition clash : auth.RegisterBody :=
  auth.mkRegisterBody "Mallory" (Some "mallory@example.com") (Some "9876543210")
                      "secret3" None.

(** ?q= *)
Definition emptySearch : gmap string JS.value := {[ "q" := JS.Str "" ]}.

(** A payload that asks to be approved and published. *)
Definition pushy : properties.CreateRequest :=
  properties.mkCreateRequest
    (<["title" := JS.Str "Farm house"]>
       (<["approvalStatus" := JS.Str "approved"]>
          (<["isPublished" := JS.Bool true]>
             (<["state" := JS.Str "Gujarat"]> ∅))))
    None asAlice.

End sample.

(** ** models/Property.js: the primaryImage virtual *)

Module propertyModel.

(** o[k] for an object literal held as a list of entries. *)
Fixpoint entry (k : string) (o : list (string * JS.value)) : JS.value :=
  match o with
  | [] => JS.Undefined
  | (k', v) :: o' => if String.eqb k' k then v else entry k o'
  end.

(** v.k: [undefined] on what is not an object. *)
Definition field (v : JS.value) (k : string) : JS.value :=
  match v with
  | JS.Obj o => entry k o
  | _ => JS.Undefined
  end.

(** propertySchema.virtual('primaryImage').get, on this.images *)
Definition primaryImage (images : list JS.value) : JS.value :=
  match List.find (fun img => JS.truthy (field img "isPrimary")) images with
  | Some primaryImg => field primaryImg "url"
  | None =>
      match images with
      | first :: _ => field first "url"
      | [] => JS.Str ""
      end
  end.

(** property.images of a stored document (an array path, empty by default). *)
Definition imagesOf (p : Property.t) : list JS.value :=
  match JS.get (Property.fields p) "images" with
  | JS.Arr l => l
  | _ => []
  end.

End propertyModel.

(** ** controllers/properties.js: favorites *)

Module favorites.

(** A User document with its favorites path, an array of Property ids. *)
Record UserDoc := mkUserDoc {
  account : User.t;
  favorites : list ObjectId
}.

Definition _id (u : UserDoc) : ObjectId := User._id (account u).

Definition set_favorites (f : list ObjectId) (u : UserDoc) : UserDoc :=
  mkUserDoc (account u) f.

(** user.favorites.includes(propertyId) *)
Definition includes (favs : list ObjectId) (propertyId : ObjectId) : bool :=
  existsb (fun fav => String.eqb fav propertyId) favs.

(** addToFavorites (POST /api/properties/:id/favorite) *)
Definition addToFavorites (req : Request unit) (us : list UserDoc)
  : Response unit * list UserDoc :=
  match Mongoose.findById _id (id (user req)) us with
  | None =>
      (* user is null: reading user.favorites throws *)
      (reply 500 "Server error", us)
  | Some user' =>
      let propertyId := params_id req in
      if includes (favorites user') propertyId then
        (reply 400 "Property already in favorites", us)
      else
        let user' := set_favorites (favorites user' ++ [propertyId]) user' in
        (reply 200 "Property added to favorites", Mongoose.replaceById _id user' us)
  end.

(** removeFromFavorites (DELETE /api/properties/:id/favorite) *)
Definition removeFromFavorites (req : Request unit) (us : list UserDoc)
  : Response unit * list UserDoc :=
  match Mongoose.findById _id (id (user req)) us with
  | None => (reply 500 "Server error", us)
  | Some user' =>
      let propertyId := params_id req in
      let user' :=
        set_favorites
          (List.filter (fun fav => negb (String.eqb fav propertyId)) (favorites user'))
          user' in
      (reply 200 "Property removed from favorites", Mongoose.replaceById _id user' us)
  end.

End favorites.

(** ** controllers/properties.js: one property *)

Module property.

Definition set_fields (f : gmap string JS.value) (p : Property.t) : Property.t :=
  Property.mk (Property._id p) (Property.owner p) (Property.agent p)
    (Property.isPublished p) (Property.approvalStatus p) f
    (Property.approvedBy p) (Property.approvedAt p) (Property.rejectionReason p).

(** property.owner.toString() !== req.user.id && req.user.role !== 'admin' *)
Definition notOwnerNorAdmin (p : Property.t) (u : ReqUser) : bool :=
  negb (String.eqb (Property.owner p) (id u)) && negb (String.eqb (role u) "admin").

(** incrementViews: { $inc: { views: 1 } } on the document with the id, if
    any; an absent counter starts at 1, and a counter that is not a number
    makes the engine refuse the update, which the middleware catches. *)
Definition incrementViews (i : ObjectId) (db : Db) : Db :=
  match Mongoose.findById Property._id i (properties db) with
  | None => db
  | Some p =>
      match JS.get (Property.fields p) "views" with
      | JS.Num n =>
          with_properties
            (Mongoose.replaceById Property._id
               (set_fields (<["views" := JS.Num (n + 1)]> (Property.fields p)) p)
               (properties db)) db
      | JS.Undefined =>
          with_properties
            (Mongoose.replaceById Property._id
               (set_fields (<["views" := JS.Num 1]> (Property.fields p)) p)
               (properties db)) db
      | _ => db
      end
  end.

(** getProperty *)
Definition getProperty (i : ObjectId) (db : Db) : Response Property.t :=
  match Mongoose.findById Property._id i (properties db) with
  | None => reply 404 "Property not found"
  | Some p => reply_data 200 None p
  end.

(** router.get('/:id', incrementViews, getProperty) *)
Definition GET_property (i : ObjectId) (db : Db) : Response Property.t * Db :=
  let db := incrementViews i db in
  (getProperty i db, db).

(** deleteProperty (DELETE /api/properties/:id) *)
Definition deleteProperty (req : Request unit) (db : Db) : Response unit * Db :=
  match Mongoose.findById Property._id (params_id req) (properties db) with
  | None => (reply 404 "Property not found", db)
  | Some p =>
      if notOwnerNorAdmin p (user req) then
        (reply 403 "Not authorized to delete this property", db)
      else
        (reply 200 "Property deleted successfully",
         with_properties
           (Mongoose.findByIdAndDelete Property._id (params_id req) (properties db)) db)
  end.

(** req.body of PUT /api/properties/:id, as the update Mongoose makes of it:
    for each declared path, the value the body sets, if any. *)
Record PropertyUpdate := mkPropertyUpdate {
  upd_owner : option ObjectId;
  upd_agent : option ObjectId;
  upd_isPublished : option bool;
  upd_approvalStatus : option ApprovalStatus;
  upd_fields : gmap string JS.value
}.

Definition set_upd_fields (f : gmap string JS.value) (u : PropertyUpdate)
  : PropertyUpdate :=
  mkPropertyUpdate (upd_owner u) (upd_agent u) (upd_isPublished u)
    (upd_approvalStatus u) f.

(** req.files.map((file, index) => ({ url: file.path, alt: file.originalname,
    isPrimary: index === 0 && property.images.length === 0 })) *)
Fixpoint newImages (noneBefore : bool) (index : nat) (files : list properties.File)
  : list JS.value :=
  match files with
  | [] => []
  | file :: rest =>
      JS.Obj [("url", JS.Str (properties.path file));
              ("alt", JS.Str (properties.originalname file));
              ("isPrimary", JS.Bool (Nat.eqb index 0 && noneBefore))]
      :: newImages noneBefore (S index) rest
  end.

(** The update applied to a document. *)
Definition PropertyUpdate_apply (u : PropertyUpdate) (p : Property.t) : Property.t :=
  Property.mk (Property._id p)
    (default (Property.owner p) (upd_owner u))
    (match upd_agent u with
     | Some a => Some a
     | None => Property.agent p
     end)
    (default (Property.isPublished p) (upd_isPublished u))
    (default (Property.approvalStatus p) (upd_approvalStatus u))
    (upd_fields u ∪ Property.fields p)
    None None None.

Section Update.
(** runValidators: true; the validators of propertySchema on the paths the
    update sets. *)
Variable Property_validateUpdate : PropertyUpdate -> bool.

(** updateProperty (PUT /api/properties/:id); [files] is req.files of
    upload.array('images', 10). *)
Definition updateProperty (req : Request PropertyUpdate)
    (files : option (list properties.File)) (db : Db)
  : Response Property.t * Db :=
  match Mongoose.findById Property._id (params_id req) (properties db) with
  | None => (reply 404 "Property not found", db)
  | Some p =>
      if notOwnerNorAdmin p (user req) then
        (reply 403 "Not authorized to update this property", db)
      else
        let body' :=
          match files with
          | Some (file :: rest) =>
              let images := propertyModel.imagesOf p in
              set_upd_fields
                (<["images" :=
                     JS.Arr (images
                             ++ newImages (Nat.eqb (length images) 0) 0 (file :: rest))]>
                   (upd_fields (body req)))
                (body req)
          | _ => body req
          end in
        if Property_validateUpdate body' then
          let p' := PropertyUpdate_apply body' p in
          (reply_data 200 None p',
           with_properties (Mongoose.replaceById Property._id p' (properties db)) db)
        else
          (reply 500 "Server error during property update", db)
  end.
End Update.

End property.

(** ** controllers/admin.js and controllers/properties.js: counts *)

Module counts.

(** One step of { $group: { _id: '$approvalStatus', count: { $sum: 1 } } }. *)
Fixpoint bump (k : ApprovalStatus) (groups : list (ApprovalStatus * nat))
  : list (ApprovalStatus * nat) :=
  match groups with
  | [] => [(k, 1)]
  | (k', n) :: rest =>
      if ApprovalStatus_eqb k' k then (k', S n) :: rest else (k', n) :: bump k rest
  end.

(** Property.aggregate([{ $group: ... }]) *)
Definition aggregate (ps : list Property.t) : list (ApprovalStatus * nat) :=
  fold_left (fun groups p => bump (Property.approvalStatus p) groups) ps [].

(** formattedStats.approvalStatus *)
Record ApprovalCounts := mkApprovalCounts {
  n_pending : nat;
  n_approved : nat;
  n_rejected : nat
}.

(** formattedStats.approvalStatus[stat._id] = stat.count *)
Definition assign (c : ApprovalCounts) (stat : ApprovalStatus * nat) : ApprovalCounts :=
  match fst stat with
  | pending => mkApprovalCounts (snd stat) (n_approved c) (n_rejected c)
  | approved => mkApprovalCounts (n_pending c) (snd stat) (n_rejected c)
  | rejected => mkApprovalCounts (n_pending c) (n_approved c) (snd stat)
  end.

Record Stats := mkStats {
  totalProperties : nat;
  totalUsers : nat;
  totalAgents : nat;
  approvalStatus : ApprovalCounts
}.

(** getPropertyStats (GET /api/admin/properties/stats) *)
Definition getPropertyStats (db : Db) : Response Stats :=
  let stats := aggregate (properties db) in
  let formatted := fold_left assign stats (mkApprovalCounts 0 0 0) in
  reply_data 200 None
    (mkStats (Mongoose.countDocuments (fun _ => true) (properties db))
             (Mongoose.countDocuments (fun _ => true) (users db))
             (Mongoose.countDocuments (fun u => String.eqb (User.role u) "agent")
                                      (users db))
             formatted).

(** The counters of getCategoryCounts. *)
Record CategoryCounts := mkCategoryCounts {
  house : nat;
  apartment : nat;
  commercial : nat;
  land : nat;
  industrial : nat
}.

(** The switch on property.type. *)
Definition countType (c : CategoryCounts) (propertyType : JS.value) : CategoryCounts :=
  match propertyType with
  | JS.Str t =>
      if String.eqb t "house" then
        mkCategoryCounts (S (house c)) (apartment c) (commercial c) (land c) (industrial c)
      else if String.eqb t "apartment" then
        mkCategoryCounts (house c) (S (apartment c)) (commercial c) (land c) (industrial c)
      else if String.eqb t "commercial" then
        mkCategoryCounts (house c) (apartment c) (S (commercial c)) (land c) (industrial c)
      else if String.eqb t "land" then
        mkCategoryCounts (house c) (apartment c) (commercial c) (S (land c)) (industrial c)
      else if String.eqb t "industrial" then
        mkCategoryCounts (house c) (apartment c) (commercial c) (land c) (S (industrial c))
      else c
  | _ => c
  end.

(** getCategoryCounts: the published or approved properties, counted by
    type. *)
Definition getCategoryCounts (db : Db) : Response CategoryCounts :=
  let found :=
    Mongoose.find
      (fun p => Property.isPublished p
                || ApprovalStatus_eqb (Property.approvalStatus p) approved)
      (properties db) in
  reply_data 200 None
    (fold_left (fun c p => countType c (JS.get (Property.fields p) "type")) found
               (mkCategoryCounts 0 0 0 0 0)).

(** The count a list of groups holds for a status, 0 without a group. *)
Definition countOf (k : ApprovalStatus) (groups : list (ApprovalStatus * nat)) : nat :=
  match List.find (fun g => ApprovalStatus_eqb (fst g) k) groups with
  | Some g => snd g
  | None => 0
  end.

(** formattedStats.approvalStatus[k] *)
Definition read (k : ApprovalStatus) (c : ApprovalCounts) : nat :=
  match k with
  | pending => n_pending c
  | approved => n_approved c
  | rejected => n_rejected c
  end.

(** The five counters together. *)
Definition categoryTotal (c : CategoryCounts) : nat :=
  house c + apartment c + commercial c + land c + industrial c.

(** property.type === t *)
Definition hasType (t : string) (p : Property.t) : bool :=
  match JS.get (Property.fields p) "type" with
  | JS.Str s => String.eqb s t
  | _ => false
  end.

End counts.

(** ** routes/properties.js: the route table *)

Module router.

Inductive Method := GET | POST | PUT | DELETE.

Definition Method_eqb (a b : Method) : bool :=
  match a, b with
  | GET, GET | POST, POST | PUT, PUT | DELETE, DELETE => true
  | _, _ => false
  end.

(** A segment of a route path: a literal, or a named parameter. *)
Inductive Segment := Lit (s : string) | Param (name : string).

(** The controller at the end of a route's handler chain. *)
Inductive Controller :=
| getProperties
| getFeaturedProperties
| getMyProperties
| searchProperties
| getPropertiesByType
| getPropertiesByAgent
| getProperty             (* after incrementViews *)
| getCategoryCounts
| getUniqueLocations
| uploadImages
| createProperty
| updateProperty
| deleteProperty
| addToFavorites
| removeFromFavorites
| getFavoriteProperties.

Record Route := mkRoute {
  method : Method;
  pattern : list Segment;
  protect : bool;
  controller : Controller
}.

(** The routes of routes/properties.js, in the order they are declared. *)
Definition table : list Route :=
  [ mkRoute GET [] false getProperties;
    mkRoute GET [Lit "featured"] false getFeaturedProperties;
    mkRoute GET [Lit "my"] true getMyProperties;
    mkRoute GET [Lit "search"] false searchProperties;
    mkRoute GET [Lit "type"; Param "type"] false getPropertiesByType;
    mkRoute GET [Lit "agent"; Param "agentId"] false getPropertiesByAgent;
    mkRoute GET [Param "id"] false getProperty;
    mkRoute GET [Lit "category-counts"] false getCategoryCounts;
    mkRoute GET [Lit "locations"] false getUniqueLocations;
    mkRoute POST [Lit "upload-images"] true uploadImages;
    mkRoute POST [] true createProperty;
    mkRoute PUT [Param "id"] true updateProperty;
    mkRoute DELETE [Param "id"] true deleteProperty;
    mkRoute POST [Param "id"; Lit "favorite"] true addToFavorites;
    mkRoute DELETE [Param "id"; Lit "favorite"] true removeFromFavorites;
    mkRoute GET [Lit "favorites"; Lit "my"] true getFavoriteProperties ].

(** Lower case of an ASCII letter; routing is not case sensitive. *)
Definition lower (c : ascii) : ascii :=
  let n := nat_of_ascii c in
  if Nat.leb 65 n && Nat.leb n 90 then ascii_of_nat (n + 32) else c.

Fixpoint lowerCase (s : string) : string :=
  match s with
  | EmptyString => EmptyString
  | String c s' => String (lower c) (lowerCase s')
  end.

(** A literal matches the same text in any case; a parameter matches any
    segment that is not empty. *)
Definition matchSegment (seg : Segment) (s : string) : bool :=
  match seg with
  | Lit l => String.eqb (lowerCase l) (lowerCase s)
  | Param _ => negb (String.eqb s "")
  end.

Fixpoint matchPath (pat : list Segment) (path : list string) : bool :=
  match pat, path with
  | [], [] => true
  | seg :: pat', s :: path' => matchSegment seg s && matchPath pat' path'
  | _, _ => false
  end.

(** The route that handles a request: the first one, in declaration order,
    whose method and path match. Every chain ends in a controller that
    answers, so no later route is tried. *)
Definition dispatch (m : Method) (path : list string) : option Route :=
  List.find (fun r => Method_eqb (method r) m && matchPath (pattern r) path) table.

End router.

(** ** controllers/auth.js: login *)

Module session.

(** The fields login reads from req.body; email and mobile are strings when
    present. *)
Record LoginBody := mkLoginBody {
  email : option string;
  mobile : option string;
  password : string
}.

Section Login.
(** user.matchPassword(password) of models/User.js. *)
Variable matchPassword : User.t -> string -> bool.

(** login (POST /api/auth/login) *)
Definition login (body : LoginBody) (db : Db) : Response User.t :=
  if auth.given (email body)
     && negb (auth.emailRegex_test (default "" (email body))) then
    reply 400 "Please provide a valid email"
  else if auth.given (mobile body)
          && negb (auth.mobileRegex_test (default "" (mobile body))) then
    reply 400 "Please provide a valid 10-digit mobile number"
  else
    let user' :=
      if auth.given (email body) then
        Mongoose.findOne
          (fun u => User.option_is (User.email u) (default "" (email body))) (users db)
      else if auth.given (mobile body) then
        Mongoose.findOne
          (fun u => User.option_is (User.phone u) (default "" (mobile body))) (users db)
      else None in
    match user' with
    | None => reply 401 "Invalid credentials"
    | Some u =>
        if negb (User.isActive u) then reply 401 "Account is deactivated"
        else if negb (matchPassword u (password body)) then
          reply 401 "Invalid credentials"
        else reply_data 200 None u
    end.
End Login.

End session.

(** ** controllers/agents.js: profiles, registration requests and reviews *)

Module directory.

(** s.split(',') *)
Fixpoint splitComma (s : string) : list string :=
  match s with
  | EmptyString => [EmptyString]
  | String c s' =>
      if Ascii.eqb c "," then EmptyString :: splitComma s'
      else
        match splitComma s' with
        | x :: rest => String c x :: rest
        | [] => [String c EmptyString]
        end
  end.

(** s.startsWith(c) and s.endsWith(c) for a character [c] *)
Definition startsWith (c : ascii) (s : string) : bool :=
  match s with
  | String c' _ => Ascii.eqb c' c
  | EmptyString => false
  end.

Fixpoint endsWith (c : ascii) (s : string) : bool :=
  match s with
  | EmptyString => false
  | String c' EmptyString => Ascii.eqb c' c
  | String _ s' => endsWith c s'
  end.

(** s.split(',').map(x => x.trim()).filter(Boolean) *)
Definition csv (s : string) : list JS.value :=
  map JS.Str
      (List.filter (fun x => negb (String.eqb x "")) (map JS.trim (splitComma s))).

(** v || '' *)
Definition orEmpty (v : JS.value) : JS.value := JS.or v (JS.Str "").

(** { facebook: source.facebook || '', ... } *)
Definition socialFrom (source : string -> JS.value) : JS.value :=
  JS.Obj [("facebook", orEmpty (source "facebook"));
          ("twitter", orEmpty (source "twitter"));
          ("instagram", orEmpty (source "instagram"));
          ("linkedin", orEmpty (source "linkedin"));
          ("youtube", orEmpty (source "youtube"))].

(** req.body of POST /api/agents: the user the body names, if it names one,
    and the other paths as an update gives them. *)
Record AgentDraft := mkAgentDraft {
  draft_user : option ObjectId;
  draft : agents.AgentUpdate
}.

(** A request to a route with :id and :reviewId, behind protect. *)
Record ReviewRequest := mkReviewRequest {
  agentId : ObjectId;                 (* req.params.id *)
  reviewId : ObjectId;                (* req.params.reviewId *)
  requester : ReqUser;                (* req.user *)
  new_rating : JS.value;              (* req.body.rating *)
  new_comment : JS.value              (* req.body.comment *)
}.

Definition set_rating (r : Q) (review : Review.t) : Review.t :=
  Review.mk (Review._id review) (Review.user review) r (Review.comment review)
            (Review.createdAt review).
Definition set_comment (c : string) (review : Review.t) : Review.t :=
  Review.mk (Review._id review) (Review.user review) (Review.rating review) (Some c)
            (Review.createdAt review).

Section Requests.
(** JSON.parse(v); [None] when it throws. *)
Variable JSON_parse : JS.value -> option JS.value.
(** parseInt(v, 10) *)
Variable parseInt : JS.value -> JS.value.
(** v.toString() *)
Variable ToString : JS.value -> string.
(** A fresh ObjectId for a document created in the given database. *)
Variable ObjectId_new : Db -> ObjectId.
(** The casts and validators of agentSchema on the paths kept in
    [Agent.profile]. *)
Variable Agent_validate : gmap string JS.value -> bool.

(** The casts of SchemaNumber and SchemaString; [None] when the value
    cannot be cast. *)
Variable castNumber : JS.value -> option Q.
Variable castString : JS.value -> option string.

(** if (req.body.rating) review.rating = req.body.rating: the assignment
    casts the value and the validators of the path (min 1, max 5) run when
    the document is saved; [None] when the cast or a validator fails. *)
Definition assignRating (v : JS.value) (review : Review.t) : option Review.t :=
  if JS.truthy v then
    match castNumber v with
    | Some r =>
        if Qle_bool 1 r && Qle_bool r 5 then Some (set_rating r review) else None
    | None => None
    end
  else Some review.

(** if (req.body.comment) review.comment = req.body.comment, with the
    validator of the path (maxlength 500). *)
Definition assignComment (v : JS.value) (review : Review.t) : option Review.t :=
  if JS.truthy v then
    match castString v with
    | Some c =>
        if Nat.leb (String.length c) 500 then Some (set_comment c review) else None
    | None => None
    end
  else Some review.

(** updateAgentReview (PUT /api/agents/:id/reviews/:reviewId) *)
Definition updateAgentReview (req : ReviewRequest) (db : Db)
  : Response Review.t * Db :=
  match Mongoose.findById Agent._id (agentId req) (agents db) with
  | None => (reply 404 "Agent not found", db)
  | Some agent =>
      match Mongoose.findById Review._id (reviewId req) (Agent.reviews agent) with
      | None => (reply 404 "Review not found", db)
      | Some review =>
          if negb (String.eqb (Review.user review) (id (requester req))) then
            (reply 403 "Not authorized to update this review", db)
          else
            match assignRating (new_rating req) review with
            | None => (reply 500 "Server error during review update", db)
            | Some review =>
                match assignComment (new_comment req) review with
                | None => (reply 500 "Server error during review update", db)
                | Some review =>
                    let agent :=
                      Agent.set_reviews
                        (Mongoose.replaceById Review._id review (Agent.reviews agent))
                        agent in
                    (reply_data 200 None review, Mongoose.Agent_save agent db)
                end
            end
      end
  end.

(** toArray of requestAgentRegistration *)
Definition toArray (val : JS.value) : list JS.value :=
  match val with
  | JS.Arr l => l
  | JS.Str v =>
      let s := JS.trim v in
      if String.eqb s "" then []
      else if startsWith "[" s && endsWith "]" s then
        match JSON_parse (JS.Str s) with
        | Some (JS.Arr parsed) => parsed
        | Some _ => []
        | None => csv s
        end
      else csv s
  | _ => []
  end.

(** The social links: from the JSON text of req.body.socialMedia when it
    is a string that parses to something with properties, from the fields of
    the body otherwise. *)
Definition social (body : JsonBody) : JS.value :=
  match JS.get body "socialMedia" with
  | JS.Str text =>
      match JSON_parse (JS.Str text) with
      | None | Some JS.Null => socialFrom (JS.get body)
      | Some obj => socialFrom (propertyModel.field obj)
      end
  | _ => socialFrom (JS.get body)
  end.

(** agentData, as requestAgentRegistration hands it to Agent.create. *)
Definition requestAgentRegistration_data (req : Request JsonBody)
  : gmap string JS.value :=
  let b := JS.get (body req) in
  let agentData : gmap string JS.value :=
    <["isActive" := JS.Bool false]>
      (<["isVerified" := JS.Bool false]>
         (<["responseTime" := JS.or (b "responseTime") (JS.Str "within 24 hours")]>
            (<["socialMedia" := social (body req)]>
               (<["company" :=
                    JS.Obj [("name", orEmpty (b "companyName"));
                            ("address", orEmpty (b "companyAddress"));
                            ("phone", orEmpty (b "companyPhone"));
                            ("website", orEmpty (b "companyWebsite"));
                            ("district", orEmpty (b "district"));
                            ("taluka", orEmpty (b "taluka"));
                            ("village", orEmpty (b "village"))]]>
                  (<["experience" :=
                       JS.or (parseInt (JS.or (b "experience") (JS.Str "0")))
                             (JS.Num 0%Q)]>
                     (<["languages" := JS.Arr (toArray (b "languages"))]>
                        (<["specialties" := JS.Arr (toArray (b "specialties"))]>
                           (<["bio" := JS.Str (ToString (orEmpty (b "bio")))]>
                              (<["user" := JS.Str (id (user req))]> ∅))))))))) in
  match b "licenseNumber" with
  | JS.Str l =>
      if Nat.ltb 0 (String.length (JS.trim l)) then
        <["licenseNumber" := JS.Str (JS.trim l)]> agentData
      else agentData
  | _ => agentData
  end.

(** requestAgentRegistration (POST /api/agents/registration-request) *)
Definition requestAgentRegistration (req : Request JsonBody) (db : Db)
  : Response Agent.t * Db :=
  match Mongoose.findOne
          (fun a => String.eqb (Agent.user a) (id (user req))) (agents db) with
  | Some _ => (reply 400 "You already have an agent profile", db)
  | None =>
      match Mongoose.findOne
              (fun a => String.eqb (Agent.user a) (id (user req))
                        && Bool.eqb (Agent.isVerified a) false) (agents db) with
      | Some _ =>
          (reply 400 "You already have a pending agent registration request", db)
      | None =>
          let agentData := requestAgentRegistration_data req in
          if Agent_validate agentData then
            let agent :=
              Agent.preSave
                (Agent.mk (ObjectId_new db) (id (user req)) false false 0%Q 0%Q []
                          agentData) in
            (mkResponse 201
               (Some "Agent registration request submitted successfully. Admin will review your request.")
               (Some agent),
             with_agents (agents db ++ [agent]) db)
          else
            (reply 500 "Server error during agent registration request", db)
      end
  end.

(** createAgent (POST /api/agents): Agent.create({ user: req.user.id,
    ...req.body }); the document has the schema defaults where the body sets
    nothing, is validated and then saved through the pre-save middleware. *)
Definition createAgent (req : Request AgentDraft) (db : Db)
  : Response Agent.t * Db :=
  match Mongoose.findOne
          (fun a => String.eqb (Agent.user a) (id (user req))) (agents db) with
  | Some _ => (reply 400 "Agent profile already exists", db)
  | None =>
      if agents.AgentUpdate_validate (draft (body req))
         && Agent_validate (agents.upd_profile (draft (body req))) then
        let agent :=
          Agent.preSave
            (agents.AgentUpdate_apply (draft (body req))
               (Agent.mk (ObjectId_new db)
                         (default (id (user req)) (draft_user (body req)))
                         false true 0%Q 0%Q [] ∅)) in
        (reply_data 201 None agent, with_agents (agents db ++ [agent]) db)
      else
        (reply 500 "Server error during agent creation", db)
  end.
End Requests.

End directory.

(** ** controllers/properties.js: getUniqueLocations *)

Module locations.

(** The string a published document holds at location.[part], if it holds
    one. *)
Definition part (name : string) (p : Property.t) : option string :=
  match propertyModel.field (JS.get (Property.fields p) "location") name with
  | JS.Str s => Some s
  | _ => None
  end.

Fixpoint mem (x : string) (l : list string) : bool :=
  match l with
  | [] => false
  | y :: l' => String.eqb y x || mem x l'
  end.

(** Each value once, in the order of first occurrence. *)
Fixpoint once (l : list string) : list string :=
  match l with
  | [] => []
  | x :: l' => x :: List.filter (fun y => negb (String.eqb y x)) (once l')
  end.

(** Property.distinct('location.' + name, { isPublished: true }), on a path
    of strings. *)
Definition distinct (name : string) (ps : list Property.t) : list string :=
  once (omap (part name) (List.filter Property.isPublished ps)).

(** Array.prototype.sort without a comparator, on strings: ascending by code
    units. *)
Fixpoint insert (x : string) (l : list string) : list string :=
  match l with
  | [] => [x]
  | y :: l' => if String.leb x y then x :: l else y :: insert x l'
  end.

Definition sort (l : list string) : list string := fold_right insert [] l.

(** values.filter(Boolean).sort() *)
Definition cleaned (values : list string) : list string :=
  sort (List.filter (fun s => negb (String.eqb s "")) values).

Record Locations := mkLocations {
  districts : list string;
  villages : list string
}.

(** getUniqueLocations *)
Definition getUniqueLocations (db : Db) : Response Locations :=
  let districts := distinct "district" (properties db) in
  let villages := distinct "village" (properties db) in
  reply_data 200 None (mkLocations (cleaned districts) (cleaned villages)).

End locations.

(** * Properties *)

(** ** Collections *)

Section CollectionFacts.
Context {D : Type} (id_of : D -> ObjectId).

Lemma findById_id (i : ObjectId) (c : list D) (d : D) :
  Mongoose.findById id_of i c = Some d -> id_of d = i.
Proof.
  unfold Mongoose.findById, Mongoose.findOne. intros H.
  apply find_some in H. destruct H as [_ H].
  now apply String.eqb_eq in H.
Qed.

Lemma findById_In (i : ObjectId) (c : list D) (d : D) :
  Mongoose.findById id_of i c = Some d -> In d c.
Proof.
  unfold Mongoose.findById, Mongoose.findOne. intros H.
  now apply find_some in H.
Qed.

(** A document written back is the one a later lookup finds. *)
Lemma findById_replaceById (i : ObjectId) (c : list D) (d d' : D) :
  Mongoose.findById id_of i c = Some d ->
  id_of d' = i ->
  Mongoose.findById id_of i (Mongoose.replaceById id_of d' c) = Some d'.
Proof.
  unfold Mongoose.findById, Mongoose.findOne. intros H Hid. subst i.
  induction c as [|x c IH]; simpl in *; [discriminate|].
  destruct (String.eqb (id_of x) (id_of d')) eqn:E.
  - simpl. now rewrite String.eqb_refl.
  - simpl. rewrite E. now apply IH.
Qed.

Lemma length_replaceById (d : D) (c : list D) :
  length (Mongoose.replaceById id_of d c) = length c.
Proof.
  induction c as [|x c IH]; simpl; [reflexivity|].
  destruct (String.eqb (id_of x) (id_of d)); simpl; congruence.
Qed.

Lemma find_mem (cond : D -> bool) (c : list D) (d : D) :
  In d (Mongoose.find cond c) <-> In d c /\ cond d = true.
Proof. unfold Mongoose.find. apply filter_In. Qed.
End CollectionFacts.

(** ** String.prototype.trim *)





(** ** Moderation *)

Lemma ApprovalStatus_eqb_spec (a b : ApprovalStatus) :
  ApprovalStatus_eqb a b = true <-> a = b.
Proof. destruct a, b; simpl; split; congruence. Qed.

Lemma Property_save_lookup (p p' : Property.t) (db : Db) :
  Mongoose.findById Property._id (Property._id p') (properties db) = Some p ->
  Mongoose.findById Property._id (Property._id p')
    (properties (Mongoose.Property_save p' db)) = Some (Property.schemaPaths p').
Proof.
  intros H. unfold Mongoose.Property_save. simpl.
  now apply findById_replaceById with (d := p).
Qed.


(** Approving twice: the second call answers 400 and writes nothing. *)
Lemma approveProperty_twice
    (now now' : Date) (req req' : Request unit) (db : Db) (p : Property.t) :
  Mongoose.findById Property._id (params_id req) (properties db) = Some p ->
  Property.approvalStatus p <> approved ->
  params_id req' = params_id req ->
  admin.approveProperty now' req' (admin.approveProperty now req db).2
  = (reply 400 "Property is already approved", (admin.approveProperty now req db).2).
Proof.
  intros Hfind Hst Hparam. unfold admin.approveProperty at 2 3. rewrite Hfind.
  destruct (ApprovalStatus_eqb (Property.approvalStatus p) approved) eqn:E.
  { apply ApprovalStatus_eqb_spec in E. contradiction. }
  cbn [snd]. unfold admin.approveProperty. rewrite Hparam.
  pose proof (findById_id _ _ _ _ Hfind) as Hid.
  rewrite <- Hid at 1.
  rewrite (Property_save_lookup p
             (Property.set_isPublished true
                (Property.set_approvedAt now
                   (Property.set_approvedBy (id (user req))
                      (Property.set_approvalStatus approved p)))))
    by (simpl; now rewrite Hid).
  reflexivity.
Qed.




(** ** Deleting users and changing roles *)


(** deleteUser of the admin controller never touches the agents. *)
Lemma admin_deleteUser_agents (req : Request unit) (db : Db) :
  agents (admin.deleteUser req db).2 = agents db.
Proof.
  unfold admin.deleteUser.
  destruct (Mongoose.findById User._id (params_id req) (users db)); [|reflexivity].
  destruct (String.eqb (User._id t) (id (user req))); reflexivity.
Qed.

(** deleteUser of the users controller removes an agent linked to the
    user it deletes. *)
Lemma users_deleteUser_cascade (req : Request unit) (db : Db) (a : Agent.t) :
  status (users.deleteUser req db).1 = 200 ->
  Mongoose.findOne (fun a => String.eqb (Agent.user a) (params_id req)) (agents db)
    = Some a ->
  S (length (agents (users.deleteUser req db).2)) = length (agents db).
Proof.
  unfold users.deleteUser.
  destruct (String.eqb (params_id req) (id (user req))); [discriminate|].
  destruct (Mongoose.findById User._id (params_id req) (users db)); [|discriminate].
  intros _. simpl. unfold Mongoose.findOne.
  generalize (fun a0 : Agent.t => String.eqb (Agent.user a0) (params_id req)).
  intros cond. induction (agents db) as [|x c IH]; simpl; [discriminate|].
  destruct (cond x); [reflexivity|].
  intros H. simpl. f_equal. now apply IH.
Qed.

(** C9. DELETE /api/admin/users/:id on a user with an agent profile: the
    user is deleted and the profile stays, while DELETE /api/users/:id on
    the same database deletes both. *)
Theorem admin_deleteUser_leaves_agent :
  let req := mkRequest sample.bobId sample.asRoot tt in
  let linked := fun a => String.eqb (Agent.user a) sample.bobId in
  Mongoose.findOne linked (agents sample.db) = Some sample.bobProfile
  /\ status (admin.deleteUser req sample.db).1 = 200
  /\ Mongoose.findById User._id sample.bobId (users (admin.deleteUser req sample.db).2)
     = None
  /\ Mongoose.findOne linked (agents (admin.deleteUser req sample.db).2)
     = Some sample.bobProfile
  /\ status (users.deleteUser req sample.db).1 = 200
  /\ Mongoose.findOne linked (agents (users.deleteUser req sample.db).2) = None.
Proof. repeat split. Qed.

(** ** Ratings and reviews *)

Lemma calculateAverageRating_reviews (a : Agent.t) :
  Agent.reviews (Agent.calculateAverageRating a) = Agent.reviews a.
Proof.
  unfold Agent.calculateAverageRating.
  destruct (Nat.eqb (length (Agent.reviews a)) 0); reflexivity.
Qed.

Lemma calculateAverageRating_id (a : Agent.t) :
  Agent._id (Agent.calculateAverageRating a) = Agent._id a.
Proof.
  unfold Agent.calculateAverageRating.
  destruct (Nat.eqb (length (Agent.reviews a)) 0); reflexivity.
Qed.

(** reduce from the left adds up what the sum from the right does. *)
Lemma reduce_sum (rs : list Review.t) (acc0 : Q) :
  (fold_left (fun acc review => acc + Review.rating review) rs acc0
   == acc0 + fold_right (fun r acc => Review.rating r + acc) 0 rs)%Q.
Proof.
  revert acc0. induction rs as [|r rs IH]; intros acc0; simpl.
  - ring.
  - rewrite IH. ring.
Qed.

(** What calculateAverageRating leaves is derived from the reviews. *)
Lemma calculateAverageRating_derived (a : Agent.t) :
  ratingsDerived (Agent.calculateAverageRating a).
Proof.
  unfold ratingsDerived, Agent.calculateAverageRating.
  destruct (Agent.reviews a) as [|r rs] eqn:E; simpl.
  - rewrite E. simpl. split; reflexivity.
  - rewrite E. split; [|reflexivity].
    unfold mean. cbn [fold_left fold_right length].
    rewrite reduce_sum.
    apply Qmult_comp; [ring | reflexivity].
Qed.

(** Every agent.save() stores a document whose ratings are derived. *)
Lemma Agent_save_derived (a a0 : Agent.t) (db : Db) :
  Mongoose.findById Agent._id (Agent._id a) (agents db) = Some a0 ->
  exists stored,
    Mongoose.findById Agent._id (Agent._id a) (agents (Mongoose.Agent_save a db))
      = Some stored
    /\ Agent.reviews stored = Agent.reviews a
    /\ ratingsDerived stored.
Proof.
  intros H. exists (Agent.preSave a). split; [|split].
  - unfold Mongoose.Agent_save. simpl.
    apply findById_replaceById with (d := a0); [exact H|].
    apply calculateAverageRating_id.
  - apply calculateAverageRating_reviews.
  - apply calculateAverageRating_derived.
Qed.

Lemma find_app_last {A} (f : A -> bool) (l : list A) (x : A) :
  List.find f l = None -> f x = true -> List.find f (l ++ [x]) = Some x.
Proof.
  induction l as [|y l IH]; simpl; intros Hn Hx.
  - now rewrite Hx.
  - destruct (f y); [discriminate | now apply IH].
Qed.

Lemma find_none_filter {A} (f : A -> bool) (l : list A) :
  List.find f l = None -> List.filter f l = [].
Proof.
  induction l as [|y l IH]; simpl; [reflexivity|].
  destruct (f y); [discriminate | exact IH].
Qed.

(** C6. After a successful addAgentReview by a user on an agent, a second
    addAgentReview by the same user on the same agent answers 400 and leaves
    the database as it was: across both calls the reviews of the agent grow
    by exactly one, and exactly one of them is by that user. *)
Theorem addAgentReview_once
    (ObjectId_new : Db -> ObjectId) (now now' : Date)
    (req req' : Request agents.ReviewBody) (db : Db) :
  status (agents.addAgentReview ObjectId_new now req db).1 = 201 ->
  params_id req' = params_id req ->
  id (user req') = id (user req) ->
  let db1 := (agents.addAgentReview ObjectId_new now req db).2 in
  let second := agents.addAgentReview ObjectId_new now' req' db1 in
  status second.1 = 400
  /\ second.2 = db1
  /\ exists a a2,
       Mongoose.findById Agent._id (params_id req) (agents db) = Some a
       /\ Mongoose.findById Agent._id (params_id req) (agents second.2) = Some a2
       /\ length (Agent.reviews a2) = S (length (Agent.reviews a))
       /\ length (List.filter
                    (fun review => String.eqb (Review.user review) (id (user req)))
                    (Agent.reviews a2)) = 1.
Proof.
  intros Hfirst Hparam Huser.
  unfold agents.addAgentReview in Hfirst |- *.
  destruct (Mongoose.findById Agent._id (params_id req) (agents db)) as [a|] eqn:Hfind;
    [|discriminate].
  destruct (List.find _ (Agent.reviews a)) as [|] eqn:Hnone; [discriminate|].
  destruct (agents.Review_validate (body req)) as [[r c]|]; [|discriminate].
  cbn [snd fst] in *. cbv zeta.
  pose proof (findById_id _ _ _ _ Hfind) as Hid.
  set (review := Review.mk (ObjectId_new db) (id (user req)) r c now).
  set (agent := Agent.set_reviews (Agent.reviews a ++ [review]) a).
  assert (Hstored :
    Mongoose.findById Agent._id (params_id req)
      (agents (Mongoose.Agent_save agent db)) = Some (Agent.preSave agent)).
  { unfold Mongoose.Agent_save. simpl.
    apply findById_replaceById with (d := a); [exact Hfind|].
    unfold Agent.preSave. rewrite calculateAverageRating_id. exact Hid. }
  assert (Hrev : Agent.reviews (Agent.preSave agent) = (Agent.reviews a ++ [review])%list).
  { unfold Agent.preSave. now rewrite calculateAverageRating_reviews. }
  assert (Hdup :
    List.find (fun review => String.eqb (Review.user review) (id (user req)))
              (Agent.reviews (Agent.preSave agent)) = Some review).
  { rewrite Hrev. apply find_app_last; [exact Hnone|]. simpl. apply String.eqb_refl. }
  rewrite Hparam, Huser, Hstored, Hdup. cbn [fst snd status reply].
  repeat split.
  exists a, (Agent.preSave agent). repeat split; [exact Hstored | |].
  - rewrite Hrev, length_app. simpl. lia.
  - rewrite Hrev, List.filter_app, (find_none_filter _ _ Hnone). simpl.
    now rewrite String.eqb_refl.
Qed.

(** updateAgent stores the ratings an authorised request gives, whatever the
    reviews of the agent are. *)
Lemma updateAgent_ratings_as_given
    (req : Request agents.AgentUpdate) (db : Db) (a : Agent.t) (avg cnt : Q) :
  Mongoose.findById Agent._id (params_id req) (agents db) = Some a ->
  Agent.user a = id (user req) \/ role (user req) = "admin" ->
  agents.AgentUpdate_validate (body req) = true ->
  agents.upd_ratings_average (body req) = Some avg ->
  agents.upd_ratings_count (body req) = Some cnt ->
  exists stored,
    Mongoose.findById Agent._id (params_id req) (agents (agents.updateAgent req db).2)
      = Some stored
    /\ Agent.ratings_average stored = avg
    /\ Agent.ratings_count stored = cnt
    /\ Agent.reviews stored = default (Agent.reviews a) (agents.upd_reviews (body req)).
Proof.
  intros Hfind Hauth Hvalid Havg Hcnt.
  unfold agents.updateAgent. rewrite Hfind.
  assert (negb (String.eqb (Agent.user a) (id (user req)))
          && negb (String.eqb (role (user req)) "admin") = false) as ->.
  { destruct Hauth as [-> | ->].
    - now rewrite String.eqb_refl.
    - simpl. now rewrite andb_false_r. }
  unfold agents.Agent_findByIdAndUpdate. rewrite Hvalid, Hfind.
  exists (agents.AgentUpdate_apply (body req) a).
  split; [|unfold agents.AgentUpdate_apply; rewrite Havg, Hcnt; simpl; auto].
  assert (Hstored :
    Mongoose.findById Agent._id (params_id req)
      (Mongoose.replaceById Agent._id (agents.AgentUpdate_apply (body req) a)
         (agents db))
    = Some (agents.AgentUpdate_apply (body req) a)).
  { apply findById_replaceById with (d := a); [exact Hfind|].
    simpl. exact (findById_id _ _ _ _ Hfind). }
  destruct (negb (Agent.isVerified a)
            && Agent.isVerified (agents.AgentUpdate_apply (body req) a));
    [destruct (Mongoose.findById User._id _ _)|]; exact Hstored.
Qed.

(** C2. PUT /api/agents/:id by the owner of a profile without reviews, with
    { ratings: { average: 5, count: 100 } }: the answer is 200 and the stored
    agent has ratings 5 / 100 and no review, so its ratings are no longer
    derived from its reviews. *)
Theorem updateAgent_sets_ratings_directly :
  let req := mkRequest (Agent._id sample.bobProfile) sample.asBob sample.fiveStars in
  let result := agents.updateAgent req sample.db in
  ratingsDerived sample.bobProfile
  /\ status result.1 = 200
  /\ exists stored,
       Mongoose.findById Agent._id (Agent._id sample.bobProfile) (agents result.2)
         = Some stored
       /\ Agent.reviews stored = []
       /\ Agent.ratings_average stored = 5%Q
       /\ Agent.ratings_count stored = 100%Q
       /\ ~ ratingsDerived stored.
Proof.
  cbv zeta. split; [split; reflexivity|]. split; [reflexivity|].
  eexists. split; [reflexivity|]. repeat split.
  intros [Havg _]. vm_compute in Havg. discriminate.
Qed.

(** ** Registration *)

(** C7. A registration that gives a new email and the mobile number of an
    existing account is not answered 400: the account is created (201) when
    userSchema accepts it, and the answer is 500 otherwise. *)
Theorem register_mobile_match_ignored
    (ObjectId_new : Db -> ObjectId) (User_accepts : list User.t -> User.t -> bool) :
  let result := auth.register ObjectId_new User_accepts sample.clash sample.db in
  Mongoose.findOne
    (fun u => User.option_is (User.phone u) "9876543210") (users sample.db)
    = Some sample.alice
  /\ status result.1 <> 400
  /\ (status result.1 = 201 \/ status result.1 = 500).
Proof.
  cbv zeta. split; [reflexivity|].
  unfold auth.register.
  replace (auth.given (auth.email sample.clash)) with true by reflexivity.
  replace (auth.given (auth.mobile sample.clash)) with true by reflexivity.
  replace (auth.emailRegex_test (default "" (auth.email sample.clash)))
    with true by reflexivity.
  replace (auth.mobileRegex_test (default "" (auth.mobile sample.clash)))
    with true by reflexivity.
  cbn [negb andb].
  replace (Mongoose.findOne _ (users sample.db)) with (@None User.t) by reflexivity.
  destruct (User_accepts _ _); cbn; split; auto; discriminate.
Qed.

(** When an email is given, the mobile number plays no part in the lookup:
    with well-formed fields and no account under the email, the answer is
    201 or 500 whatever the accounts' phones are. *)
Lemma register_email_given
    (ObjectId_new : Db -> ObjectId) (User_accepts : list User.t -> User.t -> bool)
    (body : auth.RegisterBody) (db : Db) :
  auth.given (auth.email body) = true ->
  auth.emailRegex_test (default "" (auth.email body)) = true ->
  auth.given (auth.mobile body) = true ->
  auth.mobileRegex_test (default "" (auth.mobile body)) = true ->
  Mongoose.findOne
    (fun u => User.option_is (User.email u) (default "" (auth.email body))) (users db)
    = None ->
  status (auth.register ObjectId_new User_accepts body db).1 = 201
  \/ status (auth.register ObjectId_new User_accepts body db).1 = 500.
Proof.
  intros He Hre Hm Hrm Hnone. unfold auth.register.
  rewrite He, Hre, Hm, Hrm, Hnone. cbn [negb andb].
  destruct (User_accepts _ _); [left | right]; reflexivity.
Qed.

(** With only an email, or only a mobile number, a match is answered 400. *)
Lemma register_single_match
    (ObjectId_new : Db -> ObjectId) (User_accepts : list User.t -> User.t -> bool)
    (body : auth.RegisterBody) (db : Db) (u : User.t) :
  (auth.given (auth.email body) = true
   /\ Mongoose.findOne
        (fun u => User.option_is (User.email u) (default "" (auth.email body)))
        (users db) = Some u)
  \/ (auth.given (auth.email body) = false
      /\ auth.given (auth.mobile body) = true
      /\ Mongoose.findOne
           (fun u => User.option_is (User.phone u) (default "" (auth.mobile body)))
           (users db) = Some u) ->
  status (auth.register ObjectId_new User_accepts body db).1 = 400.
Proof.
  unfold auth.register.
  intros [[He Hf] | (He & Hm & Hf)]; rewrite He; cbn [andb].
  - destruct (negb (auth.emailRegex_test _)); [reflexivity|].
    destruct (auth.given (auth.mobile body) && _); [reflexivity|].
    now rewrite Hf.
  - rewrite Hm. cbn [andb].
    destruct (negb (auth.mobileRegex_test _)); [reflexivity|].
    now rewrite Hf.
Qed.

(** ** Search *)

(** C8. GET /api/properties/search?q= : the validator of the route records
    'Search query is required', and the answer is 200 or 500, whatever the
    engine does with the empty search; it is never 400. *)
Theorem search_empty_query_not_400
    (parseInt : JS.value -> JS.value)
    (textSearch : JS.value -> list Property.t -> option (list Property.t))
    (skipLimit : JS.value -> JS.value -> list Property.t -> option (list Property.t))
    (db : Db) :
  let result := routes.GET_search parseInt textSearch skipLimit sample.emptySearch db in
  routes.q_notEmpty sample.emptySearch = ["Search query is required"]
  /\ status result <> 400
  /\ (status result = 200 \/ status result = 500).
Proof.
  cbv zeta. split; [reflexivity|].
  unfold routes.GET_search, properties.searchProperties.
  destruct (textSearch _ _); [|simpl; split; auto; discriminate].
  destruct (skipLimit _ _ _); simpl; split; auto; discriminate.
Qed.

(** searchProperties answers 200 or 500, whatever the request. *)
Lemma searchProperties_never_400
    (parseInt : JS.value -> JS.value)
    (textSearch : JS.value -> list Property.t -> option (list Property.t))
    (skipLimit : JS.value -> JS.value -> list Property.t -> option (list Property.t))
    (req : properties.SearchRequest) (db : Db) :
  status (properties.searchProperties parseInt textSearch skipLimit req db) = 200
  \/ status (properties.searchProperties parseInt textSearch skipLimit req db) = 500.
Proof.
  unfold properties.searchProperties.
  destruct (textSearch _ _); [|now right].
  destruct (skipLimit _ _ _); [now left | now right].
Qed.

(** For any query the search route answers, the listed total counts
    published properties only. *)
Lemma searchProperties_published
    (parseInt : JS.value -> JS.value)
    (textSearch : JS.value -> list Property.t -> option (list Property.t))
    (skipLimit : JS.value -> JS.value -> list Property.t -> option (list Property.t))
    (req : properties.SearchRequest) (db : Db) (l : properties.Listing) :
  data (properties.searchProperties parseInt textSearch skipLimit req db) = Some l ->
  exists ranked,
    textSearch (JS.get (properties.query req) "q") (properties db) = Some ranked
    /\ properties.total l = length (List.filter Property.isPublished ranked).
Proof.
  unfold properties.searchProperties.
  destruct (textSearch _ _) as [ranked|]; [|discriminate].
  destruct (skipLimit _ _ _); [|discriminate].
  simpl. intros [= <-]. now exists ranked.
Qed.

(** ** The public listing *)

Section ListingFacts.
Variable RegExp_test : JS.value -> string -> JS.value -> bool.

Lemma matches_spec (filter : gmap string properties.Clause) (p : Property.t) :
  properties.matches RegExp_test filter p = true <->
  forall path c, filter !! path = Some c -> properties.holds RegExp_test p path c = true.
Proof.
  unfold properties.matches. rewrite forallb_forall. split.
  - intros H path c Hl. apply (H (path, c)).
    apply list_elem_of_In, elem_of_map_to_list, Hl.
  - intros H [path c] Hin. apply H.
    apply elem_of_map_to_list, list_elem_of_In, Hin.
Qed.

(** The $or condition of the listing is public visibility. *)
Lemma holds_visibility (p : Property.t) (path : string) :
  properties.holds RegExp_test p path
    (properties.Or [("isPublished", JS.Bool true);
                    ("approvalStatus", JS.Str "approved")]) = true
  <-> publiclyVisible p.
Proof.
  unfold publiclyVisible. cbn.
  destruct (Property.isPublished p), (Property.approvalStatus p); cbn;
    split; intros H; auto; try discriminate; destruct H; discriminate.
Qed.
End ListingFacts.

Lemma whenGiven_lookup_ne (v : JS.value) (path k : string) (c : properties.Clause)
    (filter : gmap string properties.Clause) :
  path <> k -> properties.whenGiven v path c filter !! k = filter !! k.
Proof.
  intros Hne. unfold properties.whenGiven.
  destruct (JS.truthy v); [now apply lookup_insert_ne | reflexivity].
Qed.

Lemma rangeClause_lookup_ne (parse : JS.value -> JS.value) (a b : JS.value)
    (path k : string) (filter : gmap string properties.Clause) :
  path <> k -> properties.rangeClause parse a b path filter !! k = filter !! k.
Proof.
  intros Hne. unfold properties.rangeClause.
  destruct (JS.truthy a || JS.truthy b); [now apply lookup_insert_ne | reflexivity].
Qed.

(** Whatever req.query holds, the filter keeps its $or condition. *)
Lemma getProperties_filter_or
    (parseInt parseFloat : JS.value -> JS.value) (RegExp_valid : JS.value -> bool)
    (query : gmap string JS.value) (filter : gmap string properties.Clause) :
  properties.getProperties_filter parseInt parseFloat RegExp_valid query = Some filter ->
  filter !! "$or"
  = Some (properties.Or [("isPublished", JS.Bool true);
                         ("approvalStatus", JS.Str "approved")]).
Proof.
  unfold properties.getProperties_filter. cbv zeta.
  destruct (_ || _ || _); [discriminate|]. intros [= <-].
  repeat (first [ rewrite whenGiven_lookup_ne by discriminate
                | rewrite rangeClause_lookup_ne by discriminate ]).
  apply lookup_singleton_eq.
Qed.


(** The total of a listing counts the documents the filter yields. *)
Lemma getProperties_total
    (parseInt parseFloat : JS.value -> JS.value) (RegExp_valid : JS.value -> bool)
    (RegExp_test : JS.value -> string -> JS.value -> bool)
    (sortBy : list (string * Z) -> list Property.t -> list Property.t)
    (skipLimit : JS.value -> JS.value -> list Property.t -> option (list Property.t))
    (query : gmap string JS.value) (db : Db) (l : properties.Listing) :
  data (properties.getProperties parseInt parseFloat RegExp_valid RegExp_test
          sortBy skipLimit query db) = Some l ->
  exists filter,
    properties.getProperties_filter parseInt parseFloat RegExp_valid query = Some filter
    /\ properties.total l
       = length (Mongoose.find (properties.matches RegExp_test filter) (properties db)).
Proof.
  unfold properties.getProperties.
  destruct (properties.getProperties_filter _ _ _ _) as [filter|]; [|discriminate].
  destruct (skipLimit _ _ _); [|discriminate].
  simpl. intros [= <-]. now exists filter.
Qed.

(** ** Creating a property *)

Lemma lookup_foldr_delete {V} (ks : list string) (k : string) (m : gmap string V) :
  ~ In k ks -> foldr delete m ks !! k = m !! k.
Proof.
  induction ks as [|k' ks IH]; simpl; intros Hn; [reflexivity|].
  rewrite lookup_delete_ne by (intros ->; apply Hn; now left).
  apply IH. intros Hin. apply Hn. now right.
Qed.

Ltac not_listed :=
  simpl; intros H;
  repeat (destruct H as [H|H]; [discriminate|]); exact H.

(** Peels the steps of createProperty that follow the assignment of a key
    other than the one looked up. *)
Ltac peel_steps :=
  repeat
    match goal with
    | |- (if ?b then _ else _) !! _ = _ => destruct b
    | |- match ?x with Some _ => _ | None => _ end !! _ = _ => destruct x
    | |- delete _ _ !! _ = _ => rewrite lookup_delete_ne by discriminate
    | |- foldr delete _ _ !! _ = _ => rewrite lookup_foldr_delete by not_listed
    | |- <[ _ := _ ]> _ !! _ = Some _ =>
        first [ apply lookup_insert_eq | rewrite lookup_insert_ne by discriminate ]
    end.

Section CreateFacts.
Variable parseInt : JS.value -> JS.value.
Variable parseFloat : JS.value -> JS.value.
Variable JSON_parse : JS.value -> option JS.value.
Variable ToString : JS.value -> string.
Variable ObjectId_new : Db -> ObjectId.
Variable Property_validate : gmap string JS.value -> bool.

Lemma createProperty_data_isPublished (req : properties.CreateRequest) (db : Db) :
  properties.createProperty_data parseInt parseFloat JSON_parse ToString req db
    !! "isPublished" = Some (JS.Bool false).
Proof.
  unfold properties.createProperty_data. cbv zeta. peel_steps.
Qed.

Lemma createProperty_data_approvalStatus (req : properties.CreateRequest) (db : Db) :
  properties.createProperty_data parseInt parseFloat JSON_parse ToString req db
    !! "approvalStatus" = Some (JS.Str "pending").
Proof.
  unfold properties.createProperty_data. cbv zeta. peel_steps.
Qed.

Lemma createProperty_data_owner (req : properties.CreateRequest) (db : Db) :
  properties.createProperty_data parseInt parseFloat JSON_parse ToString req db
    !! "owner" = Some (JS.Str (id (properties.create_user req))).
Proof.
  unfold properties.createProperty_data. cbv zeta. peel_steps.
Qed.

(** What Property.create stores of the data createProperty hands it. *)
Lemma Property_create_pending (req : properties.CreateRequest) (db : Db)
    (p : Property.t) :
  properties.Property_create ObjectId_new Property_validate
    (properties.createProperty_data parseInt parseFloat JSON_parse ToString req db) db = Some p ->
  Property.approvalStatus p = pending
  /\ Property.isPublished p = false
  /\ Property.owner p = id (properties.create_user req).
Proof.
  unfold properties.Property_create, JS.get.
  rewrite createProperty_data_isPublished, createProperty_data_approvalStatus,
    createProperty_data_owner.
  cbn [default Mongoose.castBoolean].
  destruct (match default JS.Undefined (_ !! "agent") with
            | JS.Str a => Some (Some a)
            | JS.Undefined | JS.Null => Some None
            | _ => None
            end) as [a|]; [|discriminate].
  destruct (Property_validate _); [|discriminate].
  intros [= <-]. simpl. auto.
Qed.
End CreateFacts.

(** C5. createProperty, for any authenticated user and any payload
    (approvalStatus and isPublished of the payload included): the data handed
    to Property.create has isPublished = false and approvalStatus =
    'pending'; the answer is either 201, with exactly one property added to
    the collection, pending, unpublished and owned by the user, or 400 with
    the database left as it was; and it is 201 whenever the schema accepts
    the data. *)
Theorem createProperty_forces_pending
    (parseInt parseFloat : JS.value -> JS.value)
    (JSON_parse : JS.value -> option JS.value)
    (ToString : JS.value -> string)
    (ObjectId_new : Db -> ObjectId)
    (Property_validate : gmap string JS.value -> bool)
    (req : properties.CreateRequest) (db : Db) :
  let propertyData :=
    properties.createProperty_data parseInt parseFloat JSON_parse ToString req db in
  let result :=
    properties.createProperty parseInt parseFloat JSON_parse ToString
      ObjectId_new Property_validate req db in
  (propertyData !! "isPublished" = Some (JS.Bool false)
   /\ propertyData !! "approvalStatus" = Some (JS.Str "pending"))
  /\ ((exists p,
         data result.1 = Some p
         /\ status result.1 = 201
         /\ properties result.2 = (properties db ++ [p])%list
         /\ Property.approvalStatus p = pending
         /\ Property.isPublished p = false
         /\ Property.owner p = id (properties.create_user req))
      \/ (status result.1 = 400 /\ result.2 = db))
  /\ (Property_validate propertyData = true ->
      JS.get propertyData "agent" = JS.Undefined
      \/ (exists a, JS.get propertyData "agent" = JS.Str a) ->
      status result.1 = 201).
Proof.
  cbv zeta. split; [split|split].
  - apply createProperty_data_isPublished.
  - apply createProperty_data_approvalStatus.
  - unfold properties.createProperty.
    destruct (properties.Property_create _ _ _ _) as [p|] eqn:E.
    + left. exists p. apply Property_create_pending in E.
      destruct E as (Hst & Hpub & Hown). simpl. repeat split; assumption.
    + right. simpl. auto.
  - intros Hvalid Hagent.
    unfold properties.createProperty, properties.Property_create, JS.get.
    rewrite createProperty_data_isPublished, createProperty_data_approvalStatus,
      createProperty_data_owner.
    cbn [default Mongoose.castBoolean]. rewrite Hvalid.
    unfold JS.get in Hagent.
    destruct Hagent as [-> | [a ->]]; reflexivity.
Qed.

(** * The properties at work on the small database *)




(** Alice reviews Bob twice. *)
Lemma addAgentReview_once_witness :
  let req := mkRequest (Agent._id sample.bobProfile) sample.asAlice sample.fourStars in
  let db1 := (agents.addAgentReview sample.newId sample.today req sample.db).2 in
  let second := agents.addAgentReview sample.newId sample.tomorrow req db1 in
  status (agents.addAgentReview sample.newId sample.today req sample.db).1 = 201
  /\ status second.1 = 400
  /\ second.2 = db1.
Proof.
  cbv zeta. split; [reflexivity|].
  destruct (addAgentReview_once sample.newId sample.today sample.tomorrow
              (mkRequest (Agent._id sample.bobProfile) sample.asAlice sample.fourStars)
              (mkRequest (Agent._id sample.bobProfile) sample.asAlice sample.fourStars)
              sample.db eq_refl eq_refl eq_refl) as (H400 & Hdb & _).
  split; assumption.
Defined.


(** Alice asks for an approved and published listing. *)
Lemma createProperty_forces_pending_witness :
  let result :=
    properties.createProperty (fun v => v) (fun v => v) (fun _ => None) (fun _ => "")
      sample.newId (fun _ => true) sample.pushy sample.db in
  JS.get (properties.create_body sample.pushy) "approvalStatus" = JS.Str "approved"
  /\ JS.get (properties.create_body sample.pushy) "isPublished" = JS.Bool true
  /\ status result.1 = 201
  /\ exists p,
       data result.1 = Some p
       /\ properties result.2 = (properties sample.db ++ [p])%list
       /\ Property.approvalStatus p = pending
       /\ Property.isPublished p = false.
Proof.
  cbv zeta. split; [reflexivity|]. split; [reflexivity|].
  destruct (createProperty_forces_pending (fun v => v) (fun v => v) (fun _ => None)
              (fun _ => "") sample.newId (fun _ => true) sample.pushy sample.db)
    as (_ & Hcases & Hok).
  assert (H201 := Hok eq_refl (or_introl eq_refl)).
  split; [exact H201|].
  destruct Hcases as [(p & Hdata & _ & Hdb & Hst & Hpub & _) | [H400 _]].
  - exists p. repeat split; assumption.
  - rewrite H201 in H400. discriminate.
Defined.

(** * Further properties of the controllers and models *)

(** ** calculateAverageRating *)

Lemma inject_length_cons {A} (x : A) (l : list A) :
  (inject_Z (Z.of_nat (length (x :: l))) == inject_Z (Z.of_nat (length l)) + 1)%Q.
Proof.
  cbn [length]. rewrite Nat2Z.inj_succ, <- Z.add_1_r, inject_Z_plus. reflexivity.
Qed.

Lemma inject_length_nonneg {A} (l : list A) :
  (0 <= inject_Z (Z.of_nat (length l)))%Q.
Proof.
  change 0%Q with (inject_Z 0). rewrite <- Zle_Qle. apply Nat2Z.is_nonneg.
Qed.

(** The sum of ratings between 1 and 5 lies between the number of reviews
    and five times that number. *)
Lemma ratings_sum_bounds (rs : list Review.t) :
  (forall r, In r rs -> (1 <= Review.rating r /\ Review.rating r <= 5)%Q) ->
  (inject_Z (Z.of_nat (length rs))
     <= fold_right (fun r acc => Review.rating r + acc) 0 rs
   /\ fold_right (fun r acc => Review.rating r + acc) 0 rs
        <= 5 * inject_Z (Z.of_nat (length rs)))%Q.
Proof.
  induction rs as [|r rs IH]; intros H.
  - split; unfold Qle; simpl; lia.
  - destruct IH as [IHl IHu]; [intros r' Hr'; apply H; now right|].
    destruct (H r (or_introl eq_refl)) as [Hl Hu].
    rewrite inject_length_cons. cbn [fold_right]. split; lra.
Qed.

(** X1. When every review carries a rating between 1 and 5 (the bounds of
    agentSchema.reviews.rating), the average calculateAverageRating stores
    lies between 0 and 5 (the bounds of agentSchema.ratings.average), and
    is at least 1 when there is a review. *)
Theorem calculateAverageRating_bounds (a : Agent.t) :
  (forall r, In r (Agent.reviews a) ->
             (1 <= Review.rating r /\ Review.rating r <= 5)%Q) ->
  (0 <= Agent.ratings_average (Agent.calculateAverageRating a)
   /\ Agent.ratings_average (Agent.calculateAverageRating a) <= 5)%Q
  /\ (Agent.reviews a <> [] ->
      (1 <= Agent.ratings_average (Agent.calculateAverageRating a))%Q).
Proof.
  intros H. unfold Agent.calculateAverageRating.
  destruct (Agent.reviews a) as [|r rs] eqn:E.
  - simpl. split; [split; lra | congruence].
  - cbn [length Nat.eqb Agent.set_ratings Agent.ratings_average].
    destruct (ratings_sum_bounds (r :: rs) H) as [Hl Hu].
    pose proof (inject_length_nonneg rs) as Hn.
    pose proof (inject_length_cons r rs) as Hc.
    assert (Hpos : (0 < inject_Z (Z.of_nat (length (r :: rs))))%Q) by lra.
    assert (Hsum := reduce_sum (r :: rs) 0).
    assert (H1 :
      (1 <= fold_left (fun acc review => acc + Review.rating review) (r :: rs) 0
            / inject_Z (Z.of_nat (length (r :: rs))))%Q).
    { apply Qle_shift_div_l; [exact Hpos|]. lra. }
    assert (H5 :
      (fold_left (fun acc review => acc + Review.rating review) (r :: rs) 0
       / inject_Z (Z.of_nat (length (r :: rs))) <= 5)%Q).
    { apply Qle_shift_div_r; [exact Hpos|]. lra. }
    split; [split; [apply Qle_trans with 1%Q; [lra | exact H1] | exact H5]
          | intros _; exact H1].
Qed.

(** X2. calculateAverageRating is idempotent, and it only writes the two
    ratings fields: the document keeps its id, user, flags, reviews and
    profile. *)
Theorem calculateAverageRating_idempotent (a : Agent.t) :
  Agent.calculateAverageRating (Agent.calculateAverageRating a)
  = Agent.calculateAverageRating a
  /\ Agent.calculateAverageRating a
     = Agent.set_ratings
         (Agent.ratings_average (Agent.calculateAverageRating a))
         (Agent.ratings_count (Agent.calculateAverageRating a)) a.
Proof.
  unfold Agent.calculateAverageRating.
  destruct (Agent.reviews a) as [|r rs] eqn:E; simpl; rewrite ?E; simpl;
    split; reflexivity.
Qed.

(** ** Pagination *)

(** X3. For a positive limit, the page count Math.ceil(total / limit) is the
    least whole number of pages of that size that hold [total] items. *)
Theorem ceilDiv_least_cover (total : nat) (limit : Q) :
  (0 < limit)%Q ->
  exists pages : Z,
    properties.ceilDiv total (JS.Num limit) = JS.Num (inject_Z pages)
    /\ (inject_Z (Z.of_nat total) <= inject_Z pages * limit)%Q
    /\ ((inject_Z pages - 1) * limit < inject_Z (Z.of_nat total))%Q
    /\ (0 <= pages)%Z.
Proof.
  intros Hpos. unfold properties.ceilDiv.
  assert (Qeq_bool limit 0 = false) as ->.
  { destruct (Qeq_bool limit 0) eqn:E; [|reflexivity].
    apply Qeq_bool_eq in E. lra. }
  set (x := (inject_Z (Z.of_nat total) / limit)%Q).
  exists (Qceiling x). split; [reflexivity|].
  pose proof (Qle_ceiling x) as Hle.
  pose proof (Qceiling_lt x) as Hlt.
  assert (Hsub : (inject_Z (Qceiling x - 1) == inject_Z (Qceiling x) - 1)%Q).
  { unfold Z.sub. rewrite inject_Z_plus, inject_Z_opp. reflexivity. }
  rewrite Hsub in Hlt.
  assert (Hx : (x * limit == inject_Z (Z.of_nat total))%Q).
  { unfold x. field. lra. }
  pose proof (inject_length_nonneg (repeat tt total)) as Hn.
  rewrite repeat_length in Hn.
  split; [|split].
  - rewrite <- Hx. apply Qmult_le_compat_r; lra.
  - rewrite <- Hx. apply Qmult_lt_compat_r; lra.
  - assert (H0 : (0 <= x)%Q).
    { unfold x. apply Qle_shift_div_l; lra. }
    change 0%Z with (Qceiling 0). now apply Qceiling_resp_le.
Qed.

(** ** More on collections *)

Section MoreCollectionFacts.
Context {D : Type} (id_of : D -> ObjectId).

(** Writing a document back leaves the documents under other ids alone. *)
Lemma findById_replaceById_ne (i : ObjectId) (c : list D) (d : D) :
  i <> id_of d ->
  Mongoose.findById id_of i (Mongoose.replaceById id_of d c)
  = Mongoose.findById id_of i c.
Proof.
  intros Hne. unfold Mongoose.findById, Mongoose.findOne.
  induction c as [|x c IH]; simpl; [reflexivity|].
  destruct (String.eqb (id_of x) (id_of d)) eqn:E; simpl.
  - apply String.eqb_eq in E.
    assert (String.eqb (id_of d) i = false) as ->
      by (apply String.eqb_neq; congruence).
    assert (String.eqb (id_of x) i = false) as ->
      by (apply String.eqb_neq; congruence).
    reflexivity.
  - destruct (String.eqb (id_of x) i); [reflexivity | exact IH].
Qed.

Lemma findById_None_notin (i : ObjectId) (c : list D) :
  ~ In i (map id_of c) -> Mongoose.findById id_of i c = None.
Proof.
  unfold Mongoose.findById, Mongoose.findOne.
  induction c as [|x c IH]; simpl; intros Hn; [reflexivity|].
  destruct (String.eqb (id_of x) i) eqn:E.
  - apply String.eqb_eq in E. exfalso. apply Hn. now left.
  - apply IH. intros Hin. apply Hn. now right.
Qed.

(** With unique ids, a deleted document is no longer found. *)
Lemma findById_delete_same (i : ObjectId) (c : list D) :
  NoDup (map id_of c) ->
  Mongoose.findById id_of i (Mongoose.findByIdAndDelete id_of i c) = None.
Proof.
  unfold Mongoose.findByIdAndDelete.
  induction c as [|x c IH]; simpl; intros Hnd; [reflexivity|].
  inversion Hnd as [|? ? Hnotin Hnd']; subst.
  rewrite list_elem_of_In in Hnotin.
  destruct (String.eqb (id_of x) i) eqn:E.
  - apply String.eqb_eq in E. subst i. now apply findById_None_notin.
  - unfold Mongoose.findById, Mongoose.findOne. simpl. rewrite E. now apply IH.
Qed.

(** Deleting a document leaves the documents under other ids alone. *)
Lemma findById_delete_ne (i j : ObjectId) (c : list D) :
  i <> j ->
  Mongoose.findById id_of j (Mongoose.findByIdAndDelete id_of i c)
  = Mongoose.findById id_of j c.
Proof.
  intros Hne. unfold Mongoose.findByIdAndDelete, Mongoose.findById, Mongoose.findOne.
  induction c as [|x c IH]; simpl; [reflexivity|].
  destruct (String.eqb (id_of x) i) eqn:E.
  - apply String.eqb_eq in E.
    assert (String.eqb (id_of x) j = false) as ->
      by (apply String.eqb_neq; congruence).
    reflexivity.
  - simpl. destruct (String.eqb (id_of x) j); [reflexivity | exact IH].
Qed.

(** With unique ids, the only document of a collection under the id of a
    document written back is that document. *)
Lemma replaceById_In_same_id (c : list D) (d q : D) :
  NoDup (map id_of c) ->
  In q (Mongoose.replaceById id_of d c) -> id_of q = id_of d -> q = d.
Proof.
  induction c as [|x c IH]; simpl; intros Hnd Hin Hid; [contradiction|].
  inversion Hnd as [|? ? Hnotin Hnd']; subst.
  rewrite list_elem_of_In in Hnotin.
  destruct (String.eqb (id_of x) (id_of d)) eqn:E.
  - apply String.eqb_eq in E. destruct Hin as [<- | Hin]; [reflexivity|].
    exfalso. apply Hnotin. rewrite E, <- Hid. now apply in_map.
  - apply String.eqb_neq in E. destruct Hin as [<- | Hin]; [congruence|].
    now apply IH.
Qed.

Lemma findOne_app_some (cond : D -> bool) (c : list D) (x : D) :
  cond x = true -> exists y, Mongoose.findOne cond (c ++ [x]) = Some y.
Proof.
  intros Hx. unfold Mongoose.findOne.
  induction c as [|z c IH]; simpl.
  - rewrite Hx. now exists x.
  - destruct (cond z); [now exists z | exact IH].
Qed.

Lemma findOne_app_none (cond : D -> bool) (c : list D) (x : D) :
  Mongoose.findOne cond c = None ->
  Mongoose.findOne cond (c ++ [x]) = if cond x then Some x else None.
Proof.
  unfold Mongoose.findOne.
  induction c as [|z c IH]; simpl; intros H; [reflexivity|].
  destruct (cond z); [discriminate | now apply IH].
Qed.
End MoreCollectionFacts.

(** ** Verification of an agent and the role of its user *)

(** X4. updateAgent by the owner or an admin, with an update the validators
    accept: when the agent was not verified and the update verifies it, the
    linked user (if the account exists) gets the role 'agent' and keeps its
    other fields, and no other account changes; when the update does not
    newly verify the agent, the users are left as they were. *)
Theorem updateAgent_promotes_user
    (req : Request agents.AgentUpdate) (db : Db) (a : Agent.t) :
  Mongoose.findById Agent._id (params_id req) (agents db) = Some a ->
  Agent.user a = id (user req) \/ role (user req) = "admin" ->
  agents.AgentUpdate_validate (body req) = true ->
  status (agents.updateAgent req db).1 = 200
  /\ (Agent.isVerified a = false ->
      agents.upd_isVerified (body req) = Some true ->
      (forall u,
         Mongoose.findById User._id (Agent.user a) (users db) = Some u ->
         Mongoose.findById User._id (Agent.user a) (users (agents.updateAgent req db).2)
         = Some (User.set_role "agent" u))
      /\ (forall i,
            i <> Agent.user a ->
            Mongoose.findById User._id i (users (agents.updateAgent req db).2)
            = Mongoose.findById User._id i (users db)))
  /\ (Agent.isVerified a = true \/ agents.upd_isVerified (body req) = Some false
      \/ agents.upd_isVerified (body req) = None ->
      users (agents.updateAgent req db).2 = users db).
Proof.
  intros Hfind Hauth Hvalid.
  unfold agents.updateAgent. rewrite Hfind.
  assert (negb (String.eqb (Agent.user a) (id (user req)))
          && negb (String.eqb (role (user req)) "admin") = false) as ->.
  { destruct Hauth as [-> | ->].
    - now rewrite String.eqb_refl.
    - simpl. now rewrite andb_false_r. }
  unfold agents.Agent_findByIdAndUpdate. rewrite Hvalid, Hfind.
  split; [|split].
  - destruct (negb (Agent.isVerified a) && _); reflexivity.
  - intros Hnot Hset.
    unfold agents.AgentUpdate_apply. rewrite Hnot, Hset.
    cbn [negb andb default Agent.isVerified Agent.user fst snd users with_agents].
    split.
    + intros u Hu. rewrite Hu. cbn [snd users with_users].
      apply findById_replaceById with (d := u); [exact Hu|].
      simpl. exact (findById_id _ _ _ _ Hu).
    + intros i Hi.
      destruct (Mongoose.findById User._id (Agent.user a) (users db)) as [u|] eqn:Hu;
        [|reflexivity].
      cbn [snd users with_users].
      apply findById_replaceById_ne. simpl.
      rewrite (findById_id _ _ _ _ Hu). exact Hi.
  - intros Hcase.
    assert (negb (Agent.isVerified a)
            && Agent.isVerified (agents.AgentUpdate_apply (body req) a) = false) as ->.
    { unfold agents.AgentUpdate_apply. simpl.
      destruct Hcase as [-> | [-> | ->]]; simpl;
        [reflexivity | apply andb_false_r | destruct (Agent.isVerified a); reflexivity]. }
    reflexivity.
Qed.

(** ** Roles and agent profiles *)

(** X5. updateUserRole to 'agent', when it answers 200: a user without an
    agent profile gets exactly one, unverified, active, without reviews and
    with ratings 0/0; a user who has one keeps the collection as it is; and
    the same request sent again leaves the agents as they are. *)
Theorem updateUserRole_agent_profile_once
    (ObjectId_new : Db -> ObjectId)
    (User_castRole : JS.value -> option (option string))
    (req : Request JsonBody) (db : Db) :
  JS.get (body req) "role" = JS.Str "agent" ->
  status (users.updateUserRole ObjectId_new User_castRole req db).1 = 200 ->
  let linked := fun a => String.eqb (Agent.user a) (params_id req) in
  let db1 := (users.updateUserRole ObjectId_new User_castRole req db).2 in
  (Mongoose.findOne linked (agents db) = None ->
   exists profile,
     agents db1 = (agents db ++ [profile])%list
     /\ Agent.user profile = params_id req
     /\ Agent.isVerified profile = false
     /\ Agent.isActive profile = true
     /\ Agent.reviews profile = []
     /\ Agent.ratings_average profile = 0%Q
     /\ Agent.ratings_count profile = 0%Q)
  /\ (Mongoose.findOne linked (agents db) <> None -> agents db1 = agents db)
  /\ Mongoose.findOne linked (agents db1) <> None
  /\ agents (users.updateUserRole ObjectId_new User_castRole req db1).2 = agents db1.
Proof.
  intros Hrole H200. cbv zeta.
  assert (Hagain : forall db',
    Mongoose.findOne (fun a => String.eqb (Agent.user a) (params_id req)) (agents db')
      <> None ->
    agents (users.updateUserRole ObjectId_new User_castRole req db').2 = agents db').
  { intros db' Hsome. unfold users.updateUserRole. rewrite Hrole.
    destruct (String.eqb (params_id req) (id (user req))); [reflexivity|].
    destruct (User_castRole _); [|reflexivity].
    destruct (Mongoose.findById User._id (params_id req) (users db')); [|reflexivity].
    cbn [snd agents with_users].
    destruct (Mongoose.findOne _ (agents db')); [reflexivity | congruence]. }
  assert (Hfirst :
    Mongoose.findOne (fun a => String.eqb (Agent.user a) (params_id req)) (agents db)
      = None ->
    exists profile,
      agents (users.updateUserRole ObjectId_new User_castRole req db).2
        = (agents db ++ [profile])%list
      /\ Agent.user profile = params_id req
      /\ Agent.isVerified profile = false
      /\ Agent.isActive profile = true
      /\ Agent.reviews profile = []
      /\ Agent.ratings_average profile = 0%Q
      /\ Agent.ratings_count profile = 0%Q).
  { intros Hnone. revert H200. unfold users.updateUserRole. rewrite Hrole.
    destruct (String.eqb (params_id req) (id (user req))); [discriminate|].
    destruct (User_castRole _); [|discriminate].
    destruct (Mongoose.findById User._id (params_id req) (users db)); [|discriminate].
    intros _. cbn [snd agents with_users]. rewrite Hnone.
    eexists. split; [reflexivity|]. repeat split. }
  split; [exact Hfirst|]. split; [apply Hagain|].
  assert (Hlinked :
    Mongoose.findOne (fun a => String.eqb (Agent.user a) (params_id req))
      (agents (users.updateUserRole ObjectId_new User_castRole req db).2) <> None).
  { destruct (Mongoose.findOne (fun a => String.eqb (Agent.user a) (params_id req))
                (agents db)) as [a0|] eqn:E.
    - rewrite Hagain by (rewrite E; discriminate). rewrite E. discriminate.
    - destruct (Hfirst eq_refl) as (profile & -> & Hu & _).
      rewrite findOne_app_none by exact E.
      rewrite Hu, String.eqb_refl. discriminate. }
  split; [exact Hlinked | now apply Hagain].
Qed.

(** X6. deleteUser of the users controller, on a collection with unique ids,
    when it answers 200: the target is not the caller, the account is no
    longer found, every other account is found as before, and at most one
    agent profile has gone. *)
Theorem users_deleteUser_removes (req : Request unit) (db : Db) :
  NoDup (map User._id (users db)) ->
  status (users.deleteUser req db).1 = 200 ->
  params_id req <> id (user req)
  /\ Mongoose.findById User._id (params_id req) (users (users.deleteUser req db).2) = None
  /\ (forall i, i <> params_id req ->
        Mongoose.findById User._id i (users (users.deleteUser req db).2)
        = Mongoose.findById User._id i (users db))
  /\ length (agents db) <= S (length (agents (users.deleteUser req db).2)).
Proof.
  intros Hnd. unfold users.deleteUser.
  destruct (String.eqb (params_id req) (id (user req))) eqn:E; [discriminate|].
  destruct (Mongoose.findById User._id (params_id req) (users db)); [|discriminate].
  intros _. cbn [snd users agents with_users with_agents].
  split; [now apply String.eqb_neq|]. split; [now apply findById_delete_same|].
  split; [intros i Hi; apply findById_delete_ne; congruence|].
  generalize (fun a : Agent.t => String.eqb (Agent.user a) (params_id req)).
  intros cond. induction (agents db) as [|x c IH]; simpl; [lia|].
  destruct (cond x); simpl; lia.
Qed.

(** ** Moderation and the public listing *)

(** X7. After approveProperty answers 200 for a property, the listing
    without parameters yields a document with that id. *)
Theorem approved_property_is_listed
    (parseInt parseFloat : JS.value -> JS.value) (RegExp_valid : JS.value -> bool)
    (RegExp_test : JS.value -> string -> JS.value -> bool)
    (now : Date) (req : Request unit) (db : Db) (p : Property.t) :
  Mongoose.findById Property._id (params_id req) (properties db) = Some p ->
  Property.approvalStatus p <> approved ->
  let filter : gmap string properties.Clause :=
    {[ "$or" := properties.Or [("isPublished", JS.Bool true);
                               ("approvalStatus", JS.Str "approved")] ]} in
  properties.getProperties_filter parseInt parseFloat RegExp_valid ∅ = Some filter
  /\ exists stored,
       status (admin.approveProperty now req db).1 = 200
       /\ In stored
            (Mongoose.find (properties.matches RegExp_test filter)
               (properties (admin.approveProperty now req db).2))
       /\ Property._id stored = params_id req.
Proof.
  intros Hfind Hst. cbv zeta. split; [reflexivity|].
  unfold admin.approveProperty. rewrite Hfind.
  destruct (ApprovalStatus_eqb (Property.approvalStatus p) approved) eqn:E.
  { apply ApprovalStatus_eqb_spec in E. contradiction. }
  pose proof (findById_id _ _ _ _ Hfind) as Hid.
  set (p' := Property.set_isPublished true
               (Property.set_approvedAt now
                  (Property.set_approvedBy (id (user req))
                     (Property.set_approvalStatus approved p)))).
  exists (Property.schemaPaths p'). split; [reflexivity|].
  cbn [snd]. split; [|exact Hid].
  apply find_mem. split.
  - apply (findById_In Property._id (params_id req)).
    rewrite <- Hid at 1. apply (Property_save_lookup p p'). simpl. now rewrite Hid.
  - apply matches_spec. intros path c Hl.
    apply lookup_singleton_Some in Hl. destruct Hl as [<- <-].
    apply holds_visibility. left. reflexivity.
Qed.

(** X8. After rejectProperty answers 200 for a property of a collection
    with unique ids, no listing, whatever its parameters, yields a document
    with that id. *)
Theorem rejected_property_is_unlisted
    (parseInt parseFloat : JS.value -> JS.value) (RegExp_valid : JS.value -> bool)
    (RegExp_test : JS.value -> string -> JS.value -> bool)
    (query : gmap string JS.value) (filter : gmap string properties.Clause)
    (now : Date) (req : Request JsonBody) (db : Db) :
  NoDup (map Property._id (properties db)) ->
  status (admin.rejectProperty now req db).1 = 200 ->
  properties.getProperties_filter parseInt parseFloat RegExp_valid query = Some filter ->
  forall q,
    In q (Mongoose.find (properties.matches RegExp_test filter)
            (properties (admin.rejectProperty now req db).2)) ->
    Property._id q <> params_id req.
Proof.
  intros Hnd H200 Hfilter q Hq Hid.
  apply find_mem in Hq. destruct Hq as [Hin Hmatch].
  pose proof (getProperties_filter_or _ _ _ _ _ Hfilter) as Hor.
  assert (Hvis : publiclyVisible q).
  { apply (holds_visibility RegExp_test q "$or").
    now apply (proj1 (matches_spec RegExp_test filter q) Hmatch). }
  revert H200 Hin. unfold admin.rejectProperty.
  destruct (negb (JS.truthy _)); [discriminate|].
  destruct (JS.get (body req) "rejectionReason"); try discriminate.
  destruct (Nat.eqb _ 0); [discriminate|].
  destruct (Mongoose.findById Property._id (params_id req) (properties db))
    as [p|] eqn:Hfind; [|discriminate].
  destruct (ApprovalStatus_eqb (Property.approvalStatus p) rejected); [discriminate|].
  intros _ Hin. cbn [snd] in Hin. unfold Mongoose.Property_save in Hin.
  cbn [properties with_properties] in Hin.
  pose proof (findById_id _ _ _ _ Hfind) as Hp.
  apply (replaceById_In_same_id Property._id) in Hin;
    [|exact Hnd | simpl; congruence].
  subst q. destruct Hvis as [Hpub | Happ]; simpl in *; discriminate.
Qed.

(** ** Registering twice *)

Lemma register_users
    (ObjectId_new : Db -> ObjectId) (User_accepts : list User.t -> User.t -> bool)
    (body : auth.RegisterBody) (db : Db) :
  status (auth.register ObjectId_new User_accepts body db).1 = 201 ->
  exists u,
    users (auth.register ObjectId_new User_accepts body db).2 = (users db ++ [u])%list
    /\ data (auth.register ObjectId_new User_accepts body db).1 = Some u
    /\ User.email u = (if auth.given (auth.email body) then auth.email body else None)
    /\ User.phone u = (if auth.given (auth.mobile body) then auth.mobile body else None)
    /\ (auth.given (auth.email body) = true ->
        auth.emailRegex_test (default "" (auth.email body)) = true).
Proof.
  unfold auth.register.
  destruct (auth.given (auth.email body)
            && negb (auth.emailRegex_test (default "" (auth.email body)))) eqn:C1;
    [discriminate|].
  destruct (auth.given (auth.mobile body) && _); [discriminate|].
  match goal with
  | |- context [match ?e with Some _ => (reply 400 _, _) | None => _ end] =>
      destruct e; [discriminate|]
  end.
  destruct (User_accepts _ _); [|discriminate].
  intros _.
  exists (User.mk (ObjectId_new db) (auth.name body)
            (if auth.given (auth.email body) then auth.email body else None)
            (if auth.given (auth.mobile body) then auth.mobile body else None)
            (auth.password body)
            (if auth.given (auth.role body) then default "" (auth.role body) else "user")
            true).
  split.
  { cbn [snd]. destruct (auth.role body) as [r|]; [|reflexivity].
    repeat case_match; reflexivity. }
  split; [reflexivity|]. split; [reflexivity|]. split; [reflexivity|].
  intros He. rewrite He in C1. simpl in C1. now apply negb_false_iff in C1.
Qed.

(** X9. After a registration with an email is answered 201, any further
    registration with that email is answered 400 and writes nothing. *)
Theorem register_email_once
    (ObjectId_new : Db -> ObjectId) (User_accepts : list User.t -> User.t -> bool)
    (body body' : auth.RegisterBody) (db : Db) :
  auth.given (auth.email body) = true ->
  status (auth.register ObjectId_new User_accepts body db).1 = 201 ->
  auth.email body' = auth.email body ->
  let db1 := (auth.register ObjectId_new User_accepts body db).2 in
  status (auth.register ObjectId_new User_accepts body' db1).1 = 400
  /\ (auth.register ObjectId_new User_accepts body' db1).2 = db1.
Proof.
  intros He H201 Hsame. cbv zeta.
  destruct (register_users _ _ _ _ H201) as (u & Husers & _ & Hemail & _ & Hre).
  rewrite He in Hemail. specialize (Hre He).
  set (db1 := (auth.register ObjectId_new User_accepts body db).2) in *.
  unfold auth.register. rewrite Hsame, He, Hre. cbn [negb andb].
  destruct (auth.given (auth.mobile body') && _); [split; reflexivity|].
  rewrite Husers.
  destruct (findOne_app_some
              (fun u0 => User.option_is (User.email u0) (default "" (auth.email body)))
              (users db) u) as [y ->]; [|split; reflexivity].
  rewrite Hemail. unfold auth.given in He.
  destruct (auth.email body) as [e|]; [|discriminate]. simpl. apply String.eqb_refl.
Qed.

(** ** Favorites *)

Section ReplaceFacts.
Context {D : Type} (id_of : D -> ObjectId).

(** Writing back the document that is stored changes nothing. *)
Lemma replaceById_same (c : list D) (d : D) :
  Mongoose.findById id_of (id_of d) c = Some d ->
  Mongoose.replaceById id_of d c = c.
Proof.
  unfold Mongoose.findById, Mongoose.findOne.
  induction c as [|x c IH]; simpl; [reflexivity|].
  destruct (String.eqb (id_of x) (id_of d)); [congruence|].
  intros H. f_equal. now apply IH.
Qed.

(** Of two writes of documents with the same id, the second one stays. *)
Lemma replaceById_replaceById (c : list D) (d d' : D) :
  id_of d = id_of d' ->
  Mongoose.replaceById id_of d (Mongoose.replaceById id_of d' c)
  = Mongoose.replaceById id_of d c.
Proof.
  intros Hid. induction c as [|x c IH]; simpl; [reflexivity|].
  rewrite <- Hid.
  destruct (String.eqb (id_of x) (id_of d)) eqn:E; simpl.
  - rewrite <- ?Hid, String.eqb_refl. reflexivity.
  - rewrite E. f_equal. exact IH.
Qed.
End ReplaceFacts.

Lemma includes_false_notin (favs : list ObjectId) (p : ObjectId) :
  favorites.includes favs p = false -> ~ In p favs.
Proof.
  unfold favorites.includes. intros H Hin.
  assert (existsb (fun fav => String.eqb fav p) favs = true).
  { apply existsb_exists. exists p. split; [exact Hin | apply String.eqb_refl]. }
  congruence.
Qed.

Lemma filter_without_notin (favs : list string) (p : string) :
  ~ In p favs ->
  List.filter (fun fav => negb (String.eqb fav p)) favs = favs.
Proof.
  induction favs as [|x l IH]; simpl; intros Hn; [reflexivity|].
  destruct (String.eqb x p) eqn:E.
  - apply String.eqb_eq in E. exfalso. apply Hn. now left.
  - simpl. f_equal. apply IH. intros Hin. apply Hn. now right.
Qed.

Lemma filter_all {A} (f : A -> bool) (l : list A) :
  (forall x, In x l -> f x = true) -> List.filter f l = l.
Proof.
  induction l as [|x l IH]; simpl; intros H; [reflexivity|].
  rewrite (H x (or_introl eq_refl)). f_equal. apply IH.
  intros y Hy. apply H. now right.
Qed.

Lemma filter_with_notin (favs : list string) (p : string) :
  ~ In p favs -> List.filter (fun fav => String.eqb fav p) favs = [].
Proof.
  induction favs as [|x l IH]; simpl; intros Hn; [reflexivity|].
  destruct (String.eqb x p) eqn:E.
  - apply String.eqb_eq in E. exfalso. apply Hn. now left.
  - apply IH. intros Hin. apply Hn. now right.
Qed.

(** X10. After addToFavorites answers 200, the same user adding the same
    property again is answered 400 and nothing is written; the property has
    been appended to the user's favorites, where it occurs exactly once, and
    favorites without duplicates stay without duplicates. *)
Theorem addToFavorites_once (req req' : Request unit) (us : list favorites.UserDoc) :
  status (favorites.addToFavorites req us).1 = 200 ->
  params_id req' = params_id req ->
  id (user req') = id (user req) ->
  let us1 := (favorites.addToFavorites req us).2 in
  status (favorites.addToFavorites req' us1).1 = 400
  /\ (favorites.addToFavorites req' us1).2 = us1
  /\ exists u u1,
       Mongoose.findById favorites._id (id (user req)) us = Some u
       /\ Mongoose.findById favorites._id (id (user req)) us1 = Some u1
       /\ favorites.account u1 = favorites.account u
       /\ favorites.favorites u1 = (favorites.favorites u ++ [params_id req])%list
       /\ length (List.filter (fun fav => String.eqb fav (params_id req))
                              (favorites.favorites u1)) = 1
       /\ (NoDup (favorites.favorites u) -> NoDup (favorites.favorites u1)).
Proof.
  intros H200 Hparam Huser. cbv zeta.
  unfold favorites.addToFavorites in H200 |- *.
  destruct (Mongoose.findById favorites._id (id (user req)) us) as [u|] eqn:Hfind;
    [|discriminate].
  destruct (favorites.includes (favorites.favorites u) (params_id req)) eqn:Hinc;
    [discriminate|].
  cbn [fst snd] in *.
  pose proof (findById_id _ _ _ _ Hfind) as Hid.
  pose proof (includes_false_notin _ _ Hinc) as Hnotin.
  set (u1 := favorites.set_favorites
               (favorites.favorites u ++ [params_id req]) u).
  assert (Hstored :
    Mongoose.findById favorites._id (id (user req))
      (Mongoose.replaceById favorites._id u1 us) = Some u1).
  { apply findById_replaceById with (d := u); [exact Hfind | exact Hid]. }
  rewrite Hparam, Huser, Hstored.
  assert (favorites.includes (favorites.favorites u1) (params_id req) = true) as ->.
  { unfold favorites.includes. apply existsb_exists. exists (params_id req).
    split; [|apply String.eqb_refl]. simpl. apply in_or_app. right. now left. }
  split; [reflexivity|]. split; [reflexivity|].
  exists u, u1. repeat split; try exact Hstored.
  - simpl. rewrite List.filter_app, filter_with_notin by exact Hnotin.
    simpl. now rewrite String.eqb_refl.
  - intros Hnd. simpl. apply NoDup_app. split; [exact Hnd|]. split.
    + intros x Hx Hx'. apply list_elem_of_In in Hx, Hx'.
      destruct Hx' as [<- | []]. contradiction.
    + apply NoDup_singleton.
Qed.

(** X11. removeFromFavorites, for a caller whose account exists: the answer
    is 200; the stored favorites are the former ones without the property,
    in the same order; removing again changes nothing; and when the property
    was not a favorite the collection is left exactly as it was. *)
Theorem removeFromFavorites_idempotent
    (req : Request unit) (us : list favorites.UserDoc) (u : favorites.UserDoc) :
  Mongoose.findById favorites._id (id (user req)) us = Some u ->
  let us1 := (favorites.removeFromFavorites req us).2 in
  status (favorites.removeFromFavorites req us).1 = 200
  /\ (exists u1,
        Mongoose.findById favorites._id (id (user req)) us1 = Some u1
        /\ favorites.account u1 = favorites.account u
        /\ favorites.favorites u1
           = List.filter (fun fav => negb (String.eqb fav (params_id req)))
                         (favorites.favorites u)
        /\ ~ In (params_id req) (favorites.favorites u1))
  /\ (favorites.removeFromFavorites req us1).2 = us1
  /\ (~ In (params_id req) (favorites.favorites u) -> us1 = us).
Proof.
  intros Hfind. cbv zeta. unfold favorites.removeFromFavorites. rewrite Hfind.
  cbn [fst snd].
  pose proof (findById_id _ _ _ _ Hfind) as Hid.
  set (keep := fun fav => negb (String.eqb fav (params_id req))).
  set (u1 := favorites.set_favorites (List.filter keep (favorites.favorites u)) u).
  assert (Hstored :
    Mongoose.findById favorites._id (id (user req))
      (Mongoose.replaceById favorites._id u1 us) = Some u1).
  { apply findById_replaceById with (d := u); [exact Hfind | exact Hid]. }
  assert (Hgone : ~ In (params_id req) (favorites.favorites u1)).
  { simpl. intros Hin. apply filter_In in Hin. destruct Hin as [_ Hk].
    unfold keep in Hk. now rewrite String.eqb_refl in Hk. }
  split; [reflexivity|]. split; [|split].
  - exists u1. repeat split; [exact Hstored | exact Hgone].
  - rewrite Hstored. cbn [snd].
    assert (favorites.set_favorites (List.filter keep (favorites.favorites u1)) u1 = u1)
      as ->.
    { unfold favorites.set_favorites, keep.
      rewrite (filter_without_notin _ _ Hgone). reflexivity. }
    apply replaceById_same. change (favorites._id u1) with (favorites._id u).
    now rewrite Hid.
  - intros Hnotin.
    assert (u1 = u) as ->.
    { unfold u1, favorites.set_favorites, keep.
      rewrite (filter_without_notin _ _ Hnotin). now destruct u. }
    apply replaceById_same. now rewrite Hid.
Qed.

(** X12. Adding a favorite and removing it again restores the collection of
    users exactly. *)
Theorem favorite_round_trip (req : Request unit) (us : list favorites.UserDoc) :
  status (favorites.addToFavorites req us).1 = 200 ->
  status (favorites.removeFromFavorites req (favorites.addToFavorites req us).2).1 = 200
  /\ (favorites.removeFromFavorites req (favorites.addToFavorites req us).2).2 = us.
Proof.
  unfold favorites.addToFavorites.
  destruct (Mongoose.findById favorites._id (id (user req)) us) as [u|] eqn:Hfind;
    [|discriminate].
  destruct (favorites.includes (favorites.favorites u) (params_id req)) eqn:Hinc;
    [discriminate|].
  intros _. cbn [snd].
  pose proof (findById_id _ _ _ _ Hfind) as Hid.
  pose proof (includes_false_notin _ _ Hinc) as Hnotin.
  set (u1 := favorites.set_favorites
               (favorites.favorites u ++ [params_id req]) u).
  unfold favorites.removeFromFavorites.
  rewrite (findById_replaceById favorites._id _ us u u1 Hfind Hid).
  cbn [fst snd]. split; [reflexivity|].
  assert (favorites.set_favorites
            (List.filter (fun fav => negb (String.eqb fav (params_id req)))
                         (favorites.favorites u1)) u1 = u) as ->.
  { unfold u1, favorites.set_favorites. cbn [favorites.favorites favorites.account].
    rewrite List.filter_app, (filter_all _ (favorites.favorites u)).
    2: { intros x Hx. apply negb_true_iff, String.eqb_neq. intros ->. contradiction. }
    simpl. rewrite String.eqb_refl. simpl. rewrite app_nil_r. now destruct u. }
  rewrite replaceById_replaceById by reflexivity.
  apply replaceById_same. now rewrite Hid.
Qed.

(** ** Reading, updating and deleting a property *)

(** X13. deleteProperty on a collection with unique ids: an answer of 200
    means the caller owns the property or is an admin, the property is no
    longer found and every other property is found as before; any other
    answer leaves the database as it was; users and agents are never
    touched. *)
Theorem deleteProperty_authorized (req : Request unit) (db : Db) :
  NoDup (map Property._id (properties db)) ->
  (status (property.deleteProperty req db).1 = 200 ->
   exists p,
     Mongoose.findById Property._id (params_id req) (properties db) = Some p
     /\ (Property.owner p = id (user req) \/ role (user req) = "admin")
     /\ Mongoose.findById Property._id (params_id req)
          (properties (property.deleteProperty req db).2) = None
     /\ (forall i, i <> params_id req ->
           Mongoose.findById Property._id i
             (properties (property.deleteProperty req db).2)
           = Mongoose.findById Property._id i (properties db)))
  /\ (status (property.deleteProperty req db).1 <> 200 ->
      (property.deleteProperty req db).2 = db)
  /\ users (property.deleteProperty req db).2 = users db
  /\ agents (property.deleteProperty req db).2 = agents db.
Proof.
  intros Hnd. unfold property.deleteProperty.
  destruct (Mongoose.findById Property._id (params_id req) (properties db))
    as [p|] eqn:Hfind; [|repeat split; discriminate].
  destruct (property.notOwnerNorAdmin p (user req)) eqn:Hauth;
    [repeat split; discriminate|].
  cbn [fst snd status reply users agents properties with_properties].
  split; [|repeat split; congruence].
  intros _. exists p. split; [reflexivity|]. split; [|split].
  - unfold property.notOwnerNorAdmin in Hauth.
    apply andb_false_iff in Hauth. destruct Hauth as [H | H];
      apply negb_false_iff, String.eqb_eq in H; auto.
  - now apply findById_delete_same.
  - intros i Hi. apply findById_delete_ne. congruence.
Qed.

Lemma find_app {A} (f : A -> bool) (l l' : list A) :
  List.find f (l ++ l')
  = match List.find f l with
    | Some x => Some x
    | None => List.find f l'
    end.
Proof.
  induction l as [|x l IH]; simpl; [reflexivity|].
  destruct (f x); [reflexivity | exact IH].
Qed.

(** No image uploaded to a property that has images is made primary. *)
Lemma newImages_none_primary (index : nat) (files : list properties.File) :
  List.find (fun img => JS.truthy (propertyModel.field img "isPrimary"))
            (property.newImages false index files) = None.
Proof.
  revert index. induction files as [|file rest IH]; intros index; simpl;
    [reflexivity|].
  rewrite andb_false_r. simpl. apply IH.
Qed.

(** X14. updateProperty with uploaded images, when it answers 200: the
    stored images are the former ones followed by the uploaded ones,
    whatever images the body carries; for a property that had images the
    primaryImage is the one it was, and for a property without images it is
    the first uploaded file. *)
Theorem updateProperty_appends_images
    (Property_validateUpdate : property.PropertyUpdate -> bool)
    (req : Request property.PropertyUpdate)
    (file : properties.File) (rest : list properties.File)
    (db : Db) (p : Property.t) :
  Mongoose.findById Property._id (params_id req) (properties db) = Some p ->
  status (property.updateProperty Property_validateUpdate req
            (Some (file :: rest)) db).1 = 200 ->
  exists p',
    data (property.updateProperty Property_validateUpdate req
            (Some (file :: rest)) db).1 = Some p'
    /\ Mongoose.findById Property._id (params_id req)
         (properties (property.updateProperty Property_validateUpdate req
                        (Some (file :: rest)) db).2) = Some p'
    /\ propertyModel.imagesOf p'
       = (propertyModel.imagesOf p
          ++ property.newImages (Nat.eqb (length (propertyModel.imagesOf p)) 0) 0
               (file :: rest))%list
    /\ (propertyModel.imagesOf p <> [] ->
        propertyModel.primaryImage (propertyModel.imagesOf p')
        = propertyModel.primaryImage (propertyModel.imagesOf p))
    /\ (propertyModel.imagesOf p = [] ->
        propertyModel.primaryImage (propertyModel.imagesOf p')
        = JS.Str (properties.path file)).
Proof.
  intros Hfind. unfold property.updateProperty. rewrite Hfind.
  destruct (property.notOwnerNorAdmin p (user req)); [discriminate|].
  destruct (Property_validateUpdate _); [|discriminate].
  intros _. cbn [fst snd data reply_data properties with_properties].
  eexists. split; [reflexivity|]. split.
  { apply findById_replaceById with (d := p); [exact Hfind|].
    simpl. exact (findById_id _ _ _ _ Hfind). }
  assert (Himgs : forall l,
    propertyModel.imagesOf
      (property.PropertyUpdate_apply
         (property.set_upd_fields
            (<["images" := JS.Arr l]> (property.upd_fields (body req))) (body req)) p)
    = l).
  { intros l.
    unfold propertyModel.imagesOf, JS.get, property.PropertyUpdate_apply,
      property.set_upd_fields.
    cbn [Property.fields property.upd_fields].
    rewrite (lookup_union_Some_l _ _ "images" (JS.Arr l)) by apply lookup_insert_eq.
    reflexivity. }
  rewrite Himgs. split; [reflexivity|]. split.
  - intros Hne. destruct (propertyModel.imagesOf p) as [|first others] eqn:E;
      [congruence|].
    cbn [length Nat.eqb]. unfold propertyModel.primaryImage.
    rewrite find_app, newImages_none_primary.
    destruct (List.find _ (first :: others)); reflexivity.
  - intros ->. reflexivity.
Qed.

(** X15. updateProperty, when it answers 200, stores isPublished and
    approvalStatus as the body gives them (and keeps them when the body does
    not): a 200 to a body with isPublished: true leaves the property
    publicly visible, and the caller is its owner or an admin. *)
Theorem updateProperty_stores_moderation_fields
    (Property_validateUpdate : property.PropertyUpdate -> bool)
    (req : Request property.PropertyUpdate)
    (files : option (list properties.File)) (db : Db) (p : Property.t) :
  Mongoose.findById Property._id (params_id req) (properties db) = Some p ->
  status (property.updateProperty Property_validateUpdate req files db).1 = 200 ->
  (Property.owner p = id (user req) \/ role (user req) = "admin")
  /\ exists p',
       Mongoose.findById Property._id (params_id req)
         (properties (property.updateProperty Property_validateUpdate req files db).2)
       = Some p'
       /\ Property.isPublished p'
          = default (Property.isPublished p) (property.upd_isPublished (body req))
       /\ Property.approvalStatus p'
          = default (Property.approvalStatus p) (property.upd_approvalStatus (body req))
       /\ (property.upd_isPublished (body req) = Some true -> publiclyVisible p').
Proof.
  intros Hfind. unfold property.updateProperty. rewrite Hfind.
  destruct (property.notOwnerNorAdmin p (user req)) eqn:Hauth; [discriminate|].
  destruct (Property_validateUpdate _); [|discriminate].
  intros _. cbn [fst snd properties with_properties]. split.
  { unfold property.notOwnerNorAdmin in Hauth.
    apply andb_false_iff in Hauth. destruct Hauth as [H | H];
      apply negb_false_iff, String.eqb_eq in H; auto. }
  eexists. split.
  { apply findById_replaceById with (d := p); [exact Hfind|].
    simpl. exact (findById_id _ _ _ _ Hfind). }
  destruct files as [[|file rest]|];
    (split; [reflexivity|]; split; [reflexivity|];
     intros H; left; simpl; rewrite H; reflexivity).
Qed.

(** X16. GET /api/properties/:id counts the view before it reads: for a
    property whose counter is [n], the answer is 200 with the document whose
    counter is [n + 1] and whose other paths are unchanged, that document is
    the stored one, and the other properties are as before; for an id
    without a property the answer is 404 and nothing is written. *)
Theorem GET_property_counts_view (i : ObjectId) (db : Db) :
  (forall p n,
     Mongoose.findById Property._id i (properties db) = Some p ->
     JS.get (Property.fields p) "views" = JS.Num n ->
     let p' := property.set_fields
                 (<["views" := JS.Num (n + 1)]> (Property.fields p)) p in
     (property.GET_property i db).1 = reply_data 200 None p'
     /\ Mongoose.findById Property._id i (properties (property.GET_property i db).2)
        = Some p'
     /\ (forall k, k <> "views" ->
                   Property.fields p' !! k = Property.fields p !! k)
     /\ (forall j, j <> i ->
           Mongoose.findById Property._id j (properties (property.GET_property i db).2)
           = Mongoose.findById Property._id j (properties db)))
  /\ (Mongoose.findById Property._id i (properties db) = None ->
      property.GET_property i db = (reply 404 "Property not found", db)).
Proof.
  split.
  - intros p n Hfind Hviews. cbv zeta.
    pose proof (findById_id _ _ _ _ Hfind) as Hid.
    unfold property.GET_property, property.incrementViews.
    rewrite Hfind, Hviews. cbn [fst snd properties with_properties].
    set (p' := property.set_fields _ p).
    assert (Hstored :
      Mongoose.findById Property._id i
        (Mongoose.replaceById Property._id p' (properties db)) = Some p').
    { apply findById_replaceById with (d := p); [exact Hfind | exact Hid]. }
    unfold property.getProperty. cbn [properties with_properties].
    rewrite Hstored. split; [reflexivity|]. split; [reflexivity|]. split.
    + intros k Hk. simpl. now apply lookup_insert_ne.
    + intros j Hj. apply findById_replaceById_ne. simpl. congruence.
  - intros Hnone. unfold property.GET_property, property.incrementViews.
    rewrite Hnone. unfold property.getProperty. now rewrite Hnone.
Qed.

(** ** Counting *)

Lemma bump_keys (k k' : ApprovalStatus) (groups : list (ApprovalStatus * nat)) :
  In k' (map fst (counts.bump k groups)) <-> k' = k \/ In k' (map fst groups).
Proof.
  induction groups as [|[k0 n] g IH]; simpl.
  - split; intros [H | H]; auto; contradiction.
  - destruct (ApprovalStatus_eqb k0 k) eqn:E; simpl.
    + apply ApprovalStatus_eqb_spec in E. subst. intuition congruence.
    + rewrite IH. intuition congruence.
Qed.

Lemma bump_distinct (k : ApprovalStatus) (groups : list (ApprovalStatus * nat)) :
  NoDup (map fst groups) -> NoDup (map fst (counts.bump k groups)).
Proof.
  induction groups as [|[k0 n] g IH]; simpl; intros Hnd.
  - apply NoDup_singleton.
  - inversion Hnd as [|? ? Hnotin Hnd']; subst.
    destruct (ApprovalStatus_eqb k0 k) eqn:E; simpl.
    + now constructor.
    + constructor; [|now apply IH].
      rewrite list_elem_of_In, bump_keys. rewrite list_elem_of_In in Hnotin.
      intros [-> | Hin]; [|contradiction].
      destruct k; discriminate.
Qed.

Lemma countOf_bump (k k' : ApprovalStatus) (groups : list (ApprovalStatus * nat)) :
  counts.countOf k' (counts.bump k groups)
  = counts.countOf k' groups + (if ApprovalStatus_eqb k k' then 1 else 0).
Proof.
  unfold counts.countOf.
  induction groups as [|[k0 n] g IH]; simpl.
  - destruct (ApprovalStatus_eqb k k'); reflexivity.
  - destruct (ApprovalStatus_eqb k0 k) eqn:E; simpl.
    + apply ApprovalStatus_eqb_spec in E. subst k0.
      destruct (ApprovalStatus_eqb k k'); simpl; lia.
    + destruct (ApprovalStatus_eqb k0 k') eqn:E'; simpl; [|exact IH].
      apply ApprovalStatus_eqb_spec in E'. subst k0.
      destruct k, k'; simpl in *; first [discriminate | lia].
Qed.

(** What the aggregation holds for a status is the number of documents with
    that status, and its groups have distinct keys. *)
Lemma aggregate_counts (ps : list Property.t) (k : ApprovalStatus) :
  counts.countOf k (counts.aggregate ps)
  = length (List.filter (fun p => ApprovalStatus_eqb (Property.approvalStatus p) k) ps)
  /\ NoDup (map fst (counts.aggregate ps)).
Proof.
  unfold counts.aggregate.
  assert (H : forall g,
    NoDup (map fst g) ->
    counts.countOf k
      (fold_left (fun groups p => counts.bump (Property.approvalStatus p) groups) ps g)
    = counts.countOf k g
      + length (List.filter
                  (fun p => ApprovalStatus_eqb (Property.approvalStatus p) k) ps)
    /\ NoDup (map fst
                (fold_left
                   (fun groups p => counts.bump (Property.approvalStatus p) groups)
                   ps g))).
  { induction ps as [|p ps IH]; intros g Hg; simpl.
    - split; [lia | exact Hg].
    - destruct (IH (counts.bump (Property.approvalStatus p) g)) as [Hc Hd];
        [now apply bump_distinct|].
      split; [|exact Hd]. rewrite Hc, countOf_bump.
      destruct (ApprovalStatus_eqb (Property.approvalStatus p) k); simpl; lia. }
  destruct (H [] (NoDup_nil_2)) as [Hc Hd]. split; [exact Hc | exact Hd].
Qed.

(** Assigning the groups one by one leaves, for each status, the count of
    its group. *)
Lemma assign_groups (groups : list (ApprovalStatus * nat)) (k : ApprovalStatus)
    (c : counts.ApprovalCounts) :
  NoDup (map fst groups) ->
  counts.read k (fold_left counts.assign groups c)
  = match List.find (fun g => ApprovalStatus_eqb (fst g) k) groups with
    | Some g => snd g
    | None => counts.read k c
    end.
Proof.
  revert c. induction groups as [|[k0 n] g IH]; intros c Hnd; simpl; [reflexivity|].
  inversion Hnd as [|? ? Hnotin Hnd']; subst.
  rewrite list_elem_of_In in Hnotin.
  rewrite IH by exact Hnd'.
  destruct (ApprovalStatus_eqb k0 k) eqn:E.
  - apply ApprovalStatus_eqb_spec in E. subst k0.
    destruct (List.find _ g) as [[k1 n1]|] eqn:F.
    + apply find_some in F. destruct F as [Hin Hk]. simpl in Hk.
      apply ApprovalStatus_eqb_spec in Hk. subst k1.
      exfalso. apply Hnotin. change k with (fst (k, n1)). now apply in_map.
    + destruct k; reflexivity.
  - destruct (List.find _ g); [reflexivity|].
    destruct k0, k; simpl in *; try reflexivity; discriminate.
Qed.

Lemma status_partition (ps : list Property.t) :
  length (List.filter (fun p => ApprovalStatus_eqb (Property.approvalStatus p) pending) ps)
  + length (List.filter (fun p => ApprovalStatus_eqb (Property.approvalStatus p) approved) ps)
  + length (List.filter (fun p => ApprovalStatus_eqb (Property.approvalStatus p) rejected) ps)
  = length ps.
Proof.
  induction ps as [|p ps IH]; simpl; [reflexivity|].
  destruct (Property.approvalStatus p); simpl; lia.
Qed.

(** X17. getPropertyStats: each of the three approval counts is the number
    of properties with that status, whatever the order in which the groups
    of the aggregation come, and the three add up to totalProperties;
    totalAgents counts the accounts with the role 'agent'. *)
Theorem getPropertyStats_counts (db : Db) :
  exists s,
    counts.getPropertyStats db = reply_data 200 None s
    /\ (forall k,
          counts.read k (counts.approvalStatus s)
          = length (List.filter
                      (fun p => ApprovalStatus_eqb (Property.approvalStatus p) k)
                      (properties db)))
    /\ counts.n_pending (counts.approvalStatus s)
       + counts.n_approved (counts.approvalStatus s)
       + counts.n_rejected (counts.approvalStatus s)
       = counts.totalProperties s
    /\ counts.totalProperties s = length (properties db)
    /\ counts.totalUsers s = length (users db)
    /\ counts.totalAgents s
       = length (List.filter (fun u => String.eqb (User.role u) "agent") (users db)).
Proof.
  eexists. split; [reflexivity|].
  cbn [counts.approvalStatus counts.totalProperties counts.totalUsers counts.totalAgents].
  assert (Hread : forall k,
    counts.read k
      (fold_left counts.assign (counts.aggregate (properties db))
                 (counts.mkApprovalCounts 0 0 0))
    = length (List.filter
                (fun p => ApprovalStatus_eqb (Property.approvalStatus p) k)
                (properties db))).
  { intros k. destruct (aggregate_counts (properties db) k) as [Hc Hd].
    rewrite assign_groups by exact Hd. rewrite <- Hc. unfold counts.countOf.
    destruct (List.find _ _); [reflexivity | destruct k; reflexivity]. }
  split; [exact Hread|]. split.
  - pose proof (Hread pending) as Hp. pose proof (Hread approved) as Ha.
    pose proof (Hread rejected) as Hr. simpl in Hp, Ha, Hr.
    rewrite Hp, Ha, Hr. unfold Mongoose.countDocuments, Mongoose.find.
    rewrite (filter_all (fun _ => true)) by reflexivity.
    apply status_partition.
  - unfold Mongoose.countDocuments, Mongoose.find.
    rewrite !(filter_all (fun _ => true)) by reflexivity.
    repeat split.
Qed.

Lemma countType_step (c : counts.CategoryCounts) (p : Property.t) :
  let c' := counts.countType c (JS.get (Property.fields p) "type") in
  counts.house c' = counts.house c + (if counts.hasType "house" p then 1 else 0)
  /\ counts.apartment c'
     = counts.apartment c + (if counts.hasType "apartment" p then 1 else 0)
  /\ counts.commercial c'
     = counts.commercial c + (if counts.hasType "commercial" p then 1 else 0)
  /\ counts.land c' = counts.land c + (if counts.hasType "land" p then 1 else 0)
  /\ counts.industrial c'
     = counts.industrial c + (if counts.hasType "industrial" p then 1 else 0)
  /\ counts.categoryTotal c' <= S (counts.categoryTotal c).
Proof.
  cbv zeta. unfold counts.hasType, counts.countType, counts.categoryTotal.
  destruct (JS.get (Property.fields p) "type") as [| | | | |s| |];
    try (simpl; repeat split; lia).
  repeat match goal with
         | |- context [String.eqb s ?t] =>
             destruct (String.eqb s t) eqn:E;
             [apply String.eqb_eq in E; subst s | clear E]
         end; simpl; repeat split; lia.
Qed.

(** X18. getCategoryCounts: each of the five counters is the number of
    published or approved properties whose type is that category, and
    together they never exceed the number of published or approved
    properties (a type outside the five is not counted). *)
Theorem getCategoryCounts_counts (db : Db) :
  let visible := fun p =>
    Property.isPublished p || ApprovalStatus_eqb (Property.approvalStatus p) approved in
  let found := List.filter visible (properties db) in
  exists c,
    counts.getCategoryCounts db = reply_data 200 None c
    /\ counts.house c = length (List.filter (counts.hasType "house") found)
    /\ counts.apartment c = length (List.filter (counts.hasType "apartment") found)
    /\ counts.commercial c = length (List.filter (counts.hasType "commercial") found)
    /\ counts.land c = length (List.filter (counts.hasType "land") found)
    /\ counts.industrial c = length (List.filter (counts.hasType "industrial") found)
    /\ counts.house c + counts.apartment c + counts.commercial c
       + counts.land c + counts.industrial c <= length found
    /\ (forall p, In p found <-> In p (properties db) /\ publiclyVisible p).
Proof.
  cbv zeta. eexists. split; [reflexivity|].
  unfold Mongoose.find.
  set (found := List.filter _ (properties db)).
  assert (Hfold : forall l c,
    let c' := fold_left
                (fun c p => counts.countType c (JS.get (Property.fields p) "type")) l c in
    counts.house c' = counts.house c + length (List.filter (counts.hasType "house") l)
    /\ counts.apartment c'
       = counts.apartment c + length (List.filter (counts.hasType "apartment") l)
    /\ counts.commercial c'
       = counts.commercial c + length (List.filter (counts.hasType "commercial") l)
    /\ counts.land c' = counts.land c + length (List.filter (counts.hasType "land") l)
    /\ counts.industrial c'
       = counts.industrial c + length (List.filter (counts.hasType "industrial") l)
    /\ counts.categoryTotal c' <= counts.categoryTotal c + length l).
  { induction l as [|p l IH]; intros c; cbv zeta; simpl.
    - repeat split; lia.
    - specialize (IH (counts.countType c (JS.get (Property.fields p) "type"))).
      cbv zeta in IH. destruct IH as (H1 & H2 & H3 & H4 & H5 & H6).
      destruct (countType_step c p) as (S1 & S2 & S3 & S4 & S5 & S6).
      cbv zeta in S1, S2, S3, S4, S5, S6.
      rewrite H1, H2, H3, H4, H5, S1, S2, S3, S4, S5.
      repeat split;
        try (match goal with
             | |- context [counts.hasType ?t p] => destruct (counts.hasType t p)
             end; simpl; lia).
      lia. }
  destruct (Hfold found (counts.mkCategoryCounts 0 0 0 0 0))
    as (H1 & H2 & H3 & H4 & H5 & H6).
  clear Hfold. cbv zeta in H1, H2, H3, H4, H5, H6.
  unfold counts.categoryTotal in H6. simpl in H6.
  repeat (split; [assumption|]).
  intros p. unfold found. rewrite filter_In. unfold publiclyVisible.
  rewrite orb_true_iff, ApprovalStatus_eqb_spec. reflexivity.
Qed.

(** ** Images of a new property *)

Lemma imagesFrom_later_none_primary (index : nat) (files : list properties.File) :
  List.filter (fun img => JS.truthy (propertyModel.field img "isPrimary"))
              (properties.imagesFrom (S index) files) = [].
Proof.
  revert index. induction files as [|file rest IH]; intros index; simpl;
    [reflexivity | apply IH].
Qed.

Lemma length_imagesFrom (index : nat) (files : list properties.File) :
  length (properties.imagesFrom index files) = length files.
Proof.
  revert index. induction files as [|file rest IH]; intros index; simpl;
    [reflexivity | now rewrite IH].
Qed.

(** The land step assigns landInfo and nothing else. *)
Lemma landInfo_lookup_ne (propertyType info : JS.value) (k : string)
    (propertyData : gmap string JS.value) :
  "landInfo" <> k ->
  match propertyType with
  | JS.Str "land" => <["landInfo" := info]> propertyData
  | _ => propertyData
  end !! k = propertyData !! k.
Proof.
  intros Hne.
  repeat match goal with
         | |- match ?x with _ => _ end !! _ = _ => destruct x
         end;
    first [reflexivity | now apply lookup_insert_ne].
Qed.

Lemma createProperty_data_images
    (parseInt parseFloat : JS.value -> JS.value)
    (JSON_parse : JS.value -> option JS.value) (ToString : JS.value -> string)
    (req : properties.CreateRequest) (db : Db) :
  properties.createProperty_data parseInt parseFloat JSON_parse ToString req db
    !! "images"
  = Some (match properties.create_files req with
          | Some fs => JS.Arr (properties.imagesFrom 0 (properties.sent (properties.images fs)))
          | None => JS.Arr []
          end).
Proof.
  unfold properties.createProperty_data. cbv zeta. peel_steps;
    rewrite landInfo_lookup_ne by discriminate; peel_steps.
Qed.

(** Property.create keeps the data it is given as the paths of the
    document. *)
Lemma Property_create_fields
    (ObjectId_new : Db -> ObjectId)
    (Property_validate : gmap string JS.value -> bool)
    (propertyData : gmap string JS.value) (db : Db) (p : Property.t) :
  properties.Property_create ObjectId_new Property_validate propertyData db = Some p ->
  Property.fields p = propertyData.
Proof.
  unfold properties.Property_create.
  repeat match goal with
         | |- match ?x with Some _ => _ | None => _ end = Some _ -> _ =>
             destruct x; [|discriminate]
         end.
  destruct (Property_validate _); [|discriminate].
  intros [= <-]. reflexivity.
Qed.

(** X19. When createProperty answers 201, the images of the created
    property are one per uploaded image file, in order; exactly one of them
    is primary, the first, whose url is the primaryImage of the property;
    without uploaded images the property has no image and its primaryImage
    is the empty string. *)
Theorem createProperty_primary_image
    (parseInt parseFloat : JS.value -> JS.value)
    (JSON_parse : JS.value -> option JS.value)
    (ToString : JS.value -> string)
    (ObjectId_new : Db -> ObjectId)
    (Property_validate : gmap string JS.value -> bool)
    (req : properties.CreateRequest) (db : Db) (p : Property.t) :
  data (properties.createProperty parseInt parseFloat JSON_parse ToString
          ObjectId_new Property_validate req db).1 = Some p ->
  let uploaded :=
    match properties.create_files req with
    | Some fs => properties.sent (properties.images fs)
    | None => []
    end in
  let isPrimary := fun img => JS.truthy (propertyModel.field img "isPrimary") in
  propertyModel.imagesOf p = properties.imagesFrom 0 uploaded
  /\ length (propertyModel.imagesOf p) = length uploaded
  /\ match uploaded with
     | first :: _ =>
         length (List.filter isPrimary (propertyModel.imagesOf p)) = 1
         /\ propertyModel.primaryImage (propertyModel.imagesOf p)
            = JS.Str (properties.path first)
     | [] =>
         propertyModel.primaryImage (propertyModel.imagesOf p) = JS.Str ""
     end.
Proof.
  unfold properties.createProperty.
  destruct (properties.Property_create _ _ _ _) as [created|] eqn:E; [|discriminate].
  simpl. intros [= <-]. cbv zeta.
  assert (Himgs :
    propertyModel.imagesOf created
    = properties.imagesFrom 0
        match properties.create_files req with
        | Some fs => properties.sent (properties.images fs)
        | None => []
        end).
  { apply Property_create_fields in E.
    unfold propertyModel.imagesOf, JS.get. rewrite E, createProperty_data_images.
    destruct (properties.create_files req); reflexivity. }
  rewrite Himgs. split; [reflexivity|]. split.
  - apply length_imagesFrom.
  - destruct (match properties.create_files req with
              | Some fs => properties.sent (properties.images fs)
              | None => []
              end) as [|first others]; [reflexivity|].
    simpl. rewrite imagesFrom_later_none_primary. split; reflexivity.
Qed.


(** ** The route table of the properties router *)

(** X20. No request is dispatched to getCategoryCounts or to
    getUniqueLocations: the route '/:id', declared before
    '/category-counts' and '/locations', takes every path they match. *)
Theorem category_routes_unreachable
    (m : router.Method) (path : list string) (r : router.Route) :
  router.dispatch m path = Some r ->
  router.controller r <> router.getCategoryCounts
  /\ router.controller r <> router.getUniqueLocations.
Proof.
  intros H. unfold router.dispatch in H.
  destruct m; destruct path as [|s [|s2 [|s3 rest]]];
    cbn -[String.eqb router.lowerCase] in H;
    try (destruct (String.eqb s "") eqn:Es;
         [apply String.eqb_eq in Es; subst s; cbn in H
         |rewrite ?Es in H; cbn -[String.eqb router.lowerCase] in H]);
    rewrite ?andb_false_r, ?andb_true_r in H;
    cbn -[String.eqb router.lowerCase] in H;
    repeat match type of H with
           | context [if ?b then _ else _] => destruct b
           end;
    try discriminate; injection H as <-; split; discriminate.
Qed.

(** X21. A single-segment GET path other than featured, my and search (in
    any case) is handled by getProperty with the segment as the id; so are
    'category-counts' and 'locations'. *)
Theorem single_segment_is_an_id (s : string) :
  s <> "" ->
  router.lowerCase s <> "featured" ->
  router.lowerCase s <> "my" ->
  router.lowerCase s <> "search" ->
  router.dispatch router.GET [s]
  = Some (router.mkRoute router.GET [router.Param "id"] false router.getProperty).
Proof.
  intros Hne Hf Hm Hs. unfold router.dispatch.
  cbn -[String.eqb router.lowerCase].
  rewrite ?andb_false_r, ?andb_true_r.
  change (router.lowerCase "featured") with "featured".
  change (router.lowerCase "my") with "my".
  change (router.lowerCase "search") with "search".
  assert (String.eqb "featured" (router.lowerCase s) = false) as ->
    by (apply String.eqb_neq; congruence).
  assert (String.eqb "my" (router.lowerCase s) = false) as ->
    by (apply String.eqb_neq; congruence).
  assert (String.eqb "search" (router.lowerCase s) = false) as ->
    by (apply String.eqb_neq; congruence).
  assert (String.eqb s "" = false) as -> by now apply String.eqb_neq.
  reflexivity.
Qed.

(** ** Logging in *)

Lemma option_is_given (o : option string) (x : option string) :
  auth.given x = true ->
  User.option_is o (default "" x) = true -> o = x.
Proof.
  unfold auth.given, User.option_is.
  destruct x as [e|]; [|discriminate]. destruct o as [v|]; [|discriminate].
  simpl. intros _ H. apply String.eqb_eq in H. now subst.
Qed.

(** X22. login answers with a user only if that account is in the
    collection, is active and matchPassword accepts the password; the account
    is the first one under the email when an email is given (the mobile
    number is then not looked at), and the first one under the mobile number
    otherwise. *)
Theorem login_success
    (matchPassword : User.t -> string -> bool)
    (body : session.LoginBody) (db : Db) (u : User.t) :
  data (session.login matchPassword body db) = Some u ->
  status (session.login matchPassword body db) = 200
  /\ In u (users db)
  /\ User.isActive u = true
  /\ matchPassword u (session.password body) = true
  /\ (auth.given (session.email body) = true ->
      User.email u = session.email body
      /\ Mongoose.findOne
           (fun u => User.option_is (User.email u) (default "" (session.email body)))
           (users db) = Some u)
  /\ (auth.given (session.email body) = false ->
      auth.given (session.mobile body) = true
      /\ User.phone u = session.mobile body).
Proof.
  unfold session.login.
  destruct (auth.given (session.email body)
            && negb (auth.emailRegex_test _)); [discriminate|].
  destruct (auth.given (session.mobile body)
            && negb (auth.mobileRegex_test _)); [discriminate|].
  destruct (auth.given (session.email body)) eqn:He.
  - destruct (Mongoose.findOne _ (users db)) as [v|] eqn:Hfind; [|discriminate].
    destruct (User.isActive v) eqn:Hact; [|discriminate].
    destruct (matchPassword v (session.password body)) eqn:Hpw; [|discriminate].
    simpl. intros [= <-].
    pose proof Hfind as Hfind'. unfold Mongoose.findOne in Hfind'.
    apply find_some in Hfind'. destruct Hfind' as [Hin Hm].
    repeat split; try assumption; try discriminate.
    now apply option_is_given.
  - destruct (auth.given (session.mobile body)) eqn:Hm; [|discriminate].
    destruct (Mongoose.findOne _ (users db)) as [v|] eqn:Hfind; [|discriminate].
    destruct (User.isActive v) eqn:Hact; [|discriminate].
    destruct (matchPassword v (session.password body)) eqn:Hpw; [|discriminate].
    simpl. intros [= <-].
    unfold Mongoose.findOne in Hfind.
    apply find_some in Hfind. destruct Hfind as [Hin Hp].
    repeat split; try assumption; try discriminate.
    now apply option_is_given.
Qed.

(** ** Agent profiles, registration requests and reviews *)

Lemma find_none_and {D : Type} (f g : D -> bool) (l : list D) :
  List.find f l = None -> List.find (fun d => f d && g d) l = None.
Proof.
  induction l as [|x l IH]; simpl; [reflexivity|].
  destruct (f x); [discriminate|]. simpl. exact IH.
Qed.

Lemma find_none_Forall {D : Type} (f : D -> bool) (l : list D) :
  List.find f l = None -> List.Forall (fun d => f d = false) l.
Proof.
  induction l as [|x l IH]; simpl; intros H; constructor.
  - destruct (f x); [discriminate | reflexivity].
  - destruct (f x); [discriminate | auto].
Qed.

Lemma calculateAverageRating_keeps (a : Agent.t) :
  Agent.user (Agent.calculateAverageRating a) = Agent.user a
  /\ Agent.isVerified (Agent.calculateAverageRating a) = Agent.isVerified a
  /\ Agent.isActive (Agent.calculateAverageRating a) = Agent.isActive a
  /\ Agent.profile (Agent.calculateAverageRating a) = Agent.profile a.
Proof.
  unfold Agent.calculateAverageRating.
  destruct (Nat.eqb _ _); simpl; auto.
Qed.

Section ReviewFacts.
Variable castNumber : JS.value -> option Q.
Variable castString : JS.value -> option string.

Lemma assignRating_keeps (v : JS.value) (r r' : Review.t) :
  directory.assignRating castNumber v r = Some r' ->
  Review._id r' = Review._id r /\ Review.user r' = Review.user r
  /\ Review.comment r' = Review.comment r
  /\ Review.createdAt r' = Review.createdAt r
  /\ (JS.truthy v = true ->
      castNumber v = Some (Review.rating r')
      /\ (1 <= Review.rating r' <= 5)%Q)
  /\ (JS.truthy v = false -> r' = r).
Proof.
  unfold directory.assignRating.
  destruct (JS.truthy v).
  - destruct (castNumber v) as [q|]; [|discriminate].
    destruct (Qle_bool 1 q && Qle_bool q 5) eqn:E; [|discriminate].
    intros [= <-]. simpl. apply andb_prop in E. destruct E as [E1 E2].
    apply Qle_bool_iff in E1, E2. repeat split; auto; discriminate.
  - intros [= <-]. repeat split; auto; discriminate.
Qed.

Lemma assignComment_keeps (v : JS.value) (r r' : Review.t) :
  directory.assignComment castString v r = Some r' ->
  Review._id r' = Review._id r /\ Review.user r' = Review.user r
  /\ Review.rating r' = Review.rating r
  /\ Review.createdAt r' = Review.createdAt r
  /\ (JS.truthy v = true ->
      exists c, castString v = Some c /\ Review.comment r' = Some c
                /\ String.length c <= 500)
  /\ (JS.truthy v = false -> r' = r).
Proof.
  unfold directory.assignComment.
  destruct (JS.truthy v).
  - destruct (castString v) as [c|]; [|discriminate].
    destruct (Nat.leb (String.length c) 500) eqn:E; [|discriminate].
    intros [= <-]. simpl. apply Nat.leb_le in E.
    repeat split; auto; try discriminate. intros _. exists c. auto.
  - intros [= <-]. repeat split; auto; discriminate.
Qed.
End ReviewFacts.

(** X23. updateAgentReview changes the database only when it answers 200:
    an unknown agent or review (404), a requester who is not the author (403)
    and a value the schema refuses (500) all leave every collection as it
    was. *)
Theorem updateAgentReview_failure_keeps_db
    (castNumber : JS.value -> option Q) (castString : JS.value -> option string)
    (req : directory.ReviewRequest) (db : Db) :
  status (directory.updateAgentReview castNumber castString req db).1 <> 200 ->
  (directory.updateAgentReview castNumber castString req db).2 = db.
Proof.
  unfold directory.updateAgentReview.
  destruct (Mongoose.findById Agent._id _ _) as [a|]; [|reflexivity].
  destruct (Mongoose.findById Review._id _ _) as [r|]; [|reflexivity].
  destruct (negb _); [reflexivity|].
  destruct (directory.assignRating _ _ _) as [r1|]; [|reflexivity].
  destruct (directory.assignComment _ _ _) as [r2|]; [|reflexivity].
  simpl. intros H. now contradiction H.
Qed.

(** X24. When updateAgentReview answers 200 the requester is the author of
    the review; the review keeps its _id, author and date, a rating the body
    gives lies between 1 and 5, the agent keeps as many reviews as before with
    the updated one in the place of the old, and the stored ratings are
    derived from the reviews again. *)
Theorem updateAgentReview_author_only
    (castNumber : JS.value -> option Q) (castString : JS.value -> option string)
    (req : directory.ReviewRequest) (db : Db) :
  status (directory.updateAgentReview castNumber castString req db).1 = 200 ->
  exists a r r' stored,
    Mongoose.findById Agent._id (directory.agentId req) (agents db) = Some a
    /\ Mongoose.findById Review._id (directory.reviewId req) (Agent.reviews a) = Some r
    /\ Review.user r = id (directory.requester req)
    /\ data (directory.updateAgentReview castNumber castString req db).1 = Some r'
    /\ Review._id r' = directory.reviewId req
    /\ Review.user r' = Review.user r
    /\ Review.createdAt r' = Review.createdAt r
    /\ (JS.truthy (directory.new_rating req) = true ->
        (1 <= Review.rating r' <= 5)%Q)
    /\ (JS.truthy (directory.new_rating req) = false ->
        Review.rating r' = Review.rating r)
    /\ Mongoose.findById Agent._id (directory.agentId req)
         (agents (directory.updateAgentReview castNumber castString req db).2)
       = Some stored
    /\ Agent.reviews stored
       = Mongoose.replaceById Review._id r' (Agent.reviews a)
    /\ length (Agent.reviews stored) = length (Agent.reviews a)
    /\ Mongoose.findById Review._id (directory.reviewId req) (Agent.reviews stored)
       = Some r'
    /\ ratingsDerived stored.
Proof.
  unfold directory.updateAgentReview.
  destruct (Mongoose.findById Agent._id _ _) as [a|] eqn:Ha; [|discriminate].
  destruct (Mongoose.findById Review._id _ _) as [r|] eqn:Hr; [|discriminate].
  destruct (negb _) eqn:Hu; [discriminate|].
  destruct (directory.assignRating _ _ _) as [r1|] eqn:H1; [|discriminate].
  destruct (directory.assignComment _ _ _) as [r2|] eqn:H2; [|discriminate].
  intros _. cbn [fst snd data reply_data].
  apply negb_false_iff, String.eqb_eq in Hu.
  apply assignRating_keeps in H1.
  destruct H1 as (Hid1 & Hus1 & _ & Hd1 & Hset1 & Hkeep1).
  apply assignComment_keeps in H2.
  destruct H2 as (Hid2 & Hus2 & Hrt2 & Hd2 & _ & _).
  pose proof (findById_id Review._id _ _ _ Hr) as Hrid.
  pose proof (findById_id Agent._id _ _ _ Ha) as Haid.
  set (a' := Agent.set_reviews
               (Mongoose.replaceById Review._id r2 (Agent.reviews a)) a).
  assert (Hid' : Agent._id a' = directory.agentId req) by exact Haid.
  destruct (Agent_save_derived a' a db) as (stored & Hst & Hrev & Hder).
  { rewrite Hid'. exact Ha. }
  rewrite Hid' in Hst.
  exists a, r, r2, stored.
  repeat match goal with |- _ /\ _ => split end;
    try reflexivity; try assumption; try congruence.
  - intros Ht. rewrite Hrt2. now apply Hset1.
  - intros Hf. rewrite Hrt2. now rewrite (Hkeep1 Hf).
  - rewrite Hrev. unfold a'. simpl. apply length_replaceById.
  - rewrite Hrev. unfold a'. simpl.
    apply findById_replaceById with (d := r); [exact Hr | congruence].
Qed.

(** X25. createAgent stores a profile whose ratings are derived from the
    reviews it is created with, whatever ratings the body names, and links
    it to the user the body names when it names one: the requester's id is
    only the default. *)
Theorem createAgent_links_and_derives
    (ObjectId_new : Db -> ObjectId) (Agent_validate : gmap string JS.value -> bool)
    (req : Request directory.AgentDraft) (db : Db) :
  Mongoose.findOne (fun a => String.eqb (Agent.user a) (id (user req))) (agents db)
  = None ->
  agents.AgentUpdate_validate (directory.draft (body req)) = true ->
  Agent_validate (agents.upd_profile (directory.draft (body req))) = true ->
  exists agent,
    (directory.createAgent ObjectId_new Agent_validate req db).1
    = reply_data 201 None agent
    /\ agents (directory.createAgent ObjectId_new Agent_validate req db).2
       = (agents db ++ [agent])%list
    /\ Agent.user agent
       = default (id (user req)) (directory.draft_user (body req))
    /\ Agent.reviews agent
       = default [] (agents.upd_reviews (directory.draft (body req)))
    /\ ratingsDerived agent.
Proof.
  intros Hnone Hv1 Hv2. unfold directory.createAgent.
  rewrite Hnone, Hv1, Hv2. cbn [andb fst snd].
  eexists. split; [reflexivity|]. split; [reflexivity|].
  unfold Agent.preSave.
  split; [apply calculateAverageRating_keeps|].
  split; [apply calculateAverageRating_reviews|].
  apply calculateAverageRating_derived.
Qed.

(** X26. One profile per requester: after createAgent has made a profile
    for the requester (the body names no other user), the same requester's
    next createAgent is answered 400 and changes nothing. *)
Theorem createAgent_once
    (ObjectId_new : Db -> ObjectId) (Agent_validate : gmap string JS.value -> bool)
    (req req' : Request directory.AgentDraft) (db : Db) :
  status (directory.createAgent ObjectId_new Agent_validate req db).1 = 201 ->
  directory.draft_user (body req) = None ->
  id (user req') = id (user req) ->
  let db' := (directory.createAgent ObjectId_new Agent_validate req db).2 in
  directory.createAgent ObjectId_new Agent_validate req' db'
  = (reply 400 "Agent profile already exists", db').
Proof.
  intros H201 Hnone Hsame db'.
  unfold directory.createAgent in H201, db'.
  destruct (Mongoose.findOne _ (agents db)) as [x|] eqn:Hf; [discriminate|].
  destruct (_ && _) eqn:Hv; [|discriminate].
  cbn [snd] in db'.
  unfold directory.createAgent.
  destruct (Mongoose.findOne _ (agents db')) as [y|] eqn:Hf'; [reflexivity|].
  exfalso. unfold db' in Hf'. cbn [agents with_agents] in Hf'.
  unfold Mongoose.findOne in Hf'.
  apply find_none with (x := Agent.preSave
      (agents.AgentUpdate_apply (directory.draft (body req))
         (Agent.mk (ObjectId_new db)
            (default (id (user req)) (directory.draft_user (body req)))
            false true 0%Q 0%Q [] ∅))) in Hf'.
  - rewrite Hnone, Hsame in Hf'.
    unfold Agent.preSave, Agent.calculateAverageRating in Hf'.
    destruct (Nat.eqb _ _) in Hf'; simpl in Hf';
      rewrite String.eqb_refl in Hf'; discriminate.
  - apply in_or_app. right. left. reflexivity.
Qed.

(** X27. requestAgentRegistration never answers that a request is pending:
    the first lookup already refuses every requester who has a profile,
    verified or not, so the second lookup finds nothing. *)
Theorem requestAgentRegistration_never_pending
    (JSON_parse : JS.value -> option JS.value) (parseInt : JS.value -> JS.value)
    (ToString : JS.value -> string) (ObjectId_new : Db -> ObjectId)
    (Agent_validate : gmap string JS.value -> bool)
    (req : Request JsonBody) (db : Db) :
  message (directory.requestAgentRegistration JSON_parse parseInt ToString
             ObjectId_new Agent_validate req db).1
  <> Some "You already have a pending agent registration request".
Proof.
  unfold directory.requestAgentRegistration.
  destruct (Mongoose.findOne _ (agents db)) as [x|] eqn:Hf; [discriminate|].
  unfold Mongoose.findOne in *.
  rewrite (find_none_and _ (fun a => Bool.eqb (Agent.isVerified a) false) _ Hf).
  destruct (Agent_validate _); discriminate.
Qed.

(** X28. A registration request that is answered 201 adds exactly one
    profile: it belongs to the requester, is neither verified nor active, has
    no reviews and ratings 0/0, and no profile of the requester existed
    before. *)
Theorem requestAgentRegistration_creates_pending
    (JSON_parse : JS.value -> option JS.value) (parseInt : JS.value -> JS.value)
    (ToString : JS.value -> string) (ObjectId_new : Db -> ObjectId)
    (Agent_validate : gmap string JS.value -> bool)
    (req : Request JsonBody) (db : Db) :
  status (directory.requestAgentRegistration JSON_parse parseInt ToString
            ObjectId_new Agent_validate req db).1 = 201 ->
  exists agent,
    data (directory.requestAgentRegistration JSON_parse parseInt ToString
            ObjectId_new Agent_validate req db).1 = Some agent
    /\ agents (directory.requestAgentRegistration JSON_parse parseInt ToString
                 ObjectId_new Agent_validate req db).2
       = (agents db ++ [agent])%list
    /\ users (directory.requestAgentRegistration JSON_parse parseInt ToString
                ObjectId_new Agent_validate req db).2 = users db
    /\ Agent.user agent = id (user req)
    /\ Agent.isVerified agent = false
    /\ Agent.isActive agent = false
    /\ Agent.reviews agent = []
    /\ (Agent.ratings_average agent == 0)%Q
    /\ (Agent.ratings_count agent == 0)%Q
    /\ Agent.profile agent !! "isVerified" = Some (JS.Bool false)
    /\ Agent.profile agent !! "isActive" = Some (JS.Bool false)
    /\ List.Forall (fun a => Agent.user a <> id (user req)) (agents db).
Proof.
  unfold directory.requestAgentRegistration.
  destruct (Mongoose.findOne _ (agents db)) as [x|] eqn:Hf; [discriminate|].
  unfold Mongoose.findOne in *.
  rewrite (find_none_and _ (fun a => Bool.eqb (Agent.isVerified a) false) _ Hf).
  destruct (Agent_validate _); [|discriminate].
  intros _. cbn [fst snd data].
  eexists. split; [reflexivity|]. split; [reflexivity|].
  split; [reflexivity|]. split; [reflexivity|].
  split; [reflexivity|]. split; [reflexivity|].
  split; [reflexivity|]. split; [reflexivity|]. split; [reflexivity|].
  cbn [Agent.preSave Agent.calculateAverageRating Agent.reviews length Nat.eqb
       Agent.set_ratings Agent.profile].
  unfold directory.requestAgentRegistration_data.
  split; [|split].
  - destruct (JS.get (body req) "licenseNumber"); try reflexivity.
    destruct (Nat.ltb _ _); reflexivity.
  - destruct (JS.get (body req) "licenseNumber"); try reflexivity.
    destruct (Nat.ltb _ _); reflexivity.
  - apply find_none_Forall in Hf.
    eapply List.Forall_impl; [|exact Hf]. simpl. intros a Ha.
    now apply String.eqb_neq in Ha.
Qed.

(** *** toArray *)

Lemma trimStart_fixed (s : string) :
  match s with
  | EmptyString => True
  | String c _ => JS.isWhiteSpace c = false
  end -> JS.trimStart s = s.
Proof.
  destruct s as [|c s]; simpl; [reflexivity|]. now intros ->.
Qed.

Lemma trimStart_first (s : string) :
  match JS.trimStart s with
  | EmptyString => True
  | String c _ => JS.isWhiteSpace c = false
  end.
Proof.
  induction s as [|c s IH]; simpl; [exact I|].
  destruct (JS.isWhiteSpace c) eqn:E; [exact IH | exact E].
Qed.

Lemma trimEnd_first (s : string) :
  match s with
  | EmptyString => True
  | String c _ => JS.isWhiteSpace c = false
  end ->
  match JS.trimEnd s with
  | EmptyString => True
  | String c _ => JS.isWhiteSpace c = false
  end.
Proof.
  destruct s as [|c s]; simpl; [auto|]. intros Hc.
  destruct (JS.trimEnd s); [rewrite Hc|]; exact Hc.
Qed.

Lemma trimEnd_cons (c : ascii) (s : string) :
  JS.trimEnd (String c s)
  = match JS.trimEnd s with
    | EmptyString => if JS.isWhiteSpace c then EmptyString else String c EmptyString
    | String d t => String c (String d t)
    end.
Proof. simpl. destruct (JS.trimEnd s); reflexivity. Qed.

Lemma trimEnd_idempotent (s : string) : JS.trimEnd (JS.trimEnd s) = JS.trimEnd s.
Proof.
  induction s as [|c s IH]; [reflexivity|].
  rewrite (trimEnd_cons c s).
  destruct (JS.trimEnd s) as [|d t] eqn:E.
  - destruct (JS.isWhiteSpace c) eqn:Ec; [reflexivity|].
    rewrite trimEnd_cons. simpl. now rewrite Ec.
  - rewrite trimEnd_cons, IH. reflexivity.
Qed.

Lemma trim_idempotent (s : string) : JS.trim (JS.trim s) = JS.trim s.
Proof.
  unfold JS.trim.
  rewrite (trimStart_fixed (JS.trimEnd (JS.trimStart s))).
  - apply trimEnd_idempotent.
  - apply trimEnd_first, trimStart_first.
Qed.

Lemma csv_pieces (s : string) (v : JS.value) :
  In v (directory.csv s) ->
  exists x, v = JS.Str x /\ x <> "" /\ JS.trim x = x.
Proof.
  unfold directory.csv. intros H.
  apply in_map_iff in H. destruct H as (x & <- & H).
  apply filter_In in H. destruct H as [H Hne].
  apply in_map_iff in H. destruct H as (y & <- & _).
  exists (JS.trim y). split; [reflexivity|]. split.
  - apply negb_true_iff, String.eqb_neq in Hne. exact Hne.
  - apply trim_idempotent.
Qed.

(** X29. toArray on text that, trimmed, does not open with a bracket: every
    element it returns is a string that is not empty and has no white space
    at either end, whatever JSON.parse would make of the text. *)
Theorem toArray_text_pieces
    (JSON_parse : JS.value -> option JS.value) (s : string) (v : JS.value) :
  directory.startsWith "[" (JS.trim s) = false ->
  In v (directory.toArray JSON_parse (JS.Str s)) ->
  exists x, v = JS.Str x /\ x <> "" /\ JS.trim x = x.
Proof.
  unfold directory.toArray. intros Hb.
  destruct (String.eqb (JS.trim s) ""); [intros []|].
  rewrite Hb. cbn [andb]. apply csv_pieces.
Qed.

(** ** Locations *)

Lemma once_In (x : string) (l : list string) :
  In x (locations.once l) <-> In x l.
Proof.
  induction l as [|y l IH]; simpl; [tauto|].
  rewrite filter_In, IH, negb_true_iff, String.eqb_neq.
  destruct (String.eqb_spec y x) as [->|Hne]; [tauto|].
  split; [tauto|]. intros [H|H]; [tauto|]. right. split; [exact H|].
  intros ->. now apply Hne.
Qed.

Lemma once_NoDup (l : list string) : List.NoDup (locations.once l).
Proof.
  induction l as [|y l IH]; simpl; constructor.
  - rewrite filter_In, negb_true_iff, String.eqb_neq. tauto.
  - now apply List.NoDup_filter.
Qed.

Lemma insert_In (x y : string) (l : list string) :
  In x (locations.insert y l) <-> x = y \/ In x l.
Proof.
  induction l as [|z l IH]; simpl; [intuition congruence|].
  destruct (String.leb y z); simpl; [intuition congruence|].
  rewrite IH. intuition congruence.
Qed.

Lemma sort_In (x : string) (l : list string) :
  In x (locations.sort l) <-> In x l.
Proof.
  induction l as [|y l IH]; simpl; [tauto|].
  rewrite insert_In, IH. intuition congruence.
Qed.

Lemma insert_NoDup (x : string) (l : list string) :
  ~ In x l -> List.NoDup l -> List.NoDup (locations.insert x l).
Proof.
  induction l as [|z l IH]; simpl; intros Hx Hnd.
  - constructor; [tauto | constructor].
  - destruct (String.leb x z).
    + constructor; [simpl; tauto | exact Hnd].
    + inversion Hnd as [|? ? Hz Hl]; subst. constructor.
      * rewrite insert_In. intuition congruence.
      * apply IH; [tauto | exact Hl].
Qed.

Lemma sort_NoDup (l : list string) :
  List.NoDup l -> List.NoDup (locations.sort l).
Proof.
  induction l as [|y l IH]; simpl; intros Hnd; [constructor|].
  inversion Hnd as [|? ? Hy Hl]; subst.
  apply insert_NoDup; [now rewrite sort_In | now apply IH].
Qed.

Lemma insert_Sorted (x : string) (l : list string) :
  Sorted (fun a b => String.leb a b = true) l ->
  Sorted (fun a b => String.leb a b = true) (locations.insert x l).
Proof.
  induction l as [|z l IH]; simpl; intros Hs.
  - repeat constructor.
  - destruct (String.leb x z) eqn:E.
    + constructor; [exact Hs | constructor; exact E].
    + inversion Hs as [|? ? Hl Hhd]; subst.
      constructor; [now apply IH|].
      destruct l as [|w l]; simpl.
      * constructor. destruct (String.leb_total x z) as [H|H]; congruence.
      * destruct (String.leb x w).
        -- constructor. destruct (String.leb_total x z) as [H|H]; congruence.
        -- constructor. now inversion Hhd.
Qed.

Lemma sort_Sorted (l : list string) :
  Sorted (fun a b => String.leb a b = true) (locations.sort l).
Proof.
  induction l as [|y l IH]; simpl; [constructor | now apply insert_Sorted].
Qed.

Lemma cleaned_distinct (name : string) (ps : list Property.t) :
  Sorted (fun a b => String.leb a b = true)
         (locations.cleaned (locations.distinct name ps))
  /\ List.NoDup (locations.cleaned (locations.distinct name ps))
  /\ forall x,
       In x (locations.cleaned (locations.distinct name ps))
       <-> x <> ""
           /\ exists p, In p ps /\ Property.isPublished p = true
                        /\ locations.part name p = Some x.
Proof.
  unfold locations.cleaned, locations.distinct. split; [apply sort_Sorted|].
  split; [apply sort_NoDup, List.NoDup_filter, once_NoDup|].
  intros x.
  rewrite sort_In, filter_In, once_In, negb_true_iff, String.eqb_neq.
  rewrite <- list_elem_of_In, list_elem_of_omap.
  split.
  - intros [(p & Hp & Hx) Hne]. split; [exact Hne|].
    rewrite list_elem_of_In in Hp. apply filter_In in Hp.
    exists p. tauto.
  - intros [Hne (p & Hp & Hpub & Hx)]. split; [|exact Hne].
    exists p. split; [|exact Hx].
    rewrite list_elem_of_In. apply filter_In. tauto.
Qed.

(** X30. getUniqueLocations answers 200 with two lists, each in ascending
    order and without repetition, that hold exactly the non-empty district
    (village) names of the published properties: an unpublished property
    contributes nothing, whatever its approval status. *)
Theorem getUniqueLocations_lists (db : Db) :
  exists locs,
    locations.getUniqueLocations db = reply_data 200 None locs
    /\ Sorted (fun a b => String.leb a b = true) (locations.districts locs)
    /\ Sorted (fun a b => String.leb a b = true) (locations.villages locs)
    /\ List.NoDup (locations.districts locs)
    /\ List.NoDup (locations.villages locs)
    /\ (forall x,
          In x (locations.districts locs)
          <-> x <> ""
              /\ exists p, In p (properties db) /\ Property.isPublished p = true
                           /\ locations.part "district" p = Some x)
    /\ (forall x,
          In x (locations.villages locs)
          <-> x <> ""
              /\ exists p, In p (properties db) /\ Property.isPublished p = true
                           /\ locations.part "village" p = Some x).
Proof.
  eexists. split; [reflexivity|]. cbn [locations.districts locations.villages].
  destruct (cleaned_distinct "district" (properties db)) as (S1 & N1 & M1).
  destruct (cleaned_distinct "village" (properties db)) as (S2 & N2 & M2).
  split; [exact S1|]. split; [exact S2|]. split; [exact N1|].
  split; [exact N2|]. split; [exact M1 | exact M2].
Qed.
